(** * Container lifecycle controller of java-app-monitoring

    A shallow embedding of [src/lib/JavaContainerManager.py] and
    [src/ui/java_container_ui.py], and the properties of the lifecycle
    controller stated over it.

    The Docker SDK, the clock and the host files other than the state file are
    the outside of the program: they are a record of operations over an
    abstract world [W], each of which may answer differently every time it is
    called.  The state file, the Streamlit session state and the order in which
    the program talks to the outside are modelled concretely.

    What the model takes for granted:
    - the state file is touched by the controller only, and the operations on
      it ([os.makedirs], [open], [json.dump], [os.remove] of an existing file)
      do not fail; [json.dump] followed by [json.load] gives the object back;
    - the Streamlit display calls do not raise;
    - every exception the outside raises derives from [Exception], and the
      rerun request of [st.rerun()] does not;
    - a button call returns what the browser reported, whether or not the
      button was drawn disabled. *)

From Stdlib Require Import ZArith Lia Ascii String.
From stdpp Require Import base strings gmap list pretty.

Set Warnings "-register-all".

Local Open Scope string_scope.
Local Open Scope list_scope.

(** ** Python values *)

(** The values that flow through the dynamically typed slots of the program:
    what [json.load] can return, what [st.session_state] holds, and the
    optional [container_name] arguments. *)
Inductive pyval : Type :=
| PyNone
| PyBool (b : bool)
| PyInt (z : Z)
| PyStr (s : string)
| PyList (l : list pyval)
| PyDict (d : gmap string pyval).

(** Truth value of a Python object, as [if x:], [x and y] and [x or y] use it. *)
Definition truthy (v : pyval) : bool :=
  match v with
  | PyNone => false
  | PyBool b => b
  | PyInt z => negb (Z.eqb z 0)
  | PyStr s => negb (String.eqb s "")
  | PyList l => match l with [] => false | _ => true end
  | PyDict d => negb (bool_decide (size d = 0%nat))
  end.

(** [x or y] *)
Definition py_or (x y : pyval) : pyval := if truthy x then x else y.

(** ** Exceptions *)

(** The classes the program tells apart.  [ImageNotFound] derives from
    [NotFound] in the Docker SDK; every class here derives from [Exception]. *)
Inductive exn_class : Type :=
| NotFound | ImageNotFound | BuildError | APIError | ConnectionError
| OSError | JSONDecodeError | TypeError | AttributeError.

Record exn : Type := { exn_class_of : exn_class; exn_msg : string }.

(** [isinstance(e, docker.errors.NotFound)] *)
Definition is_NotFound (e : exn) : bool :=
  match exn_class_of e with NotFound | ImageNotFound => true | _ => false end.

(** [isinstance(e, docker.errors.BuildError)] *)
Definition is_BuildError (e : exn) : bool :=
  match exn_class_of e with BuildError => true | _ => false end.

(** ** The Docker SDK and the host, as seen by the program *)

(** A container object as [containers.get] returns it: [status] is the
    attribute read at that moment, not a live view. *)
Record Container : Type := { container_id : string; status : string }.

Definition environment := list (string * string).

(** [volumes={host: {'bind': target, 'mode': mode}}] *)
Record volume : Type := { vol_host : string; vol_bind : string; vol_mode : string }.

Definition result (A : Type) : Type := exn + A.

Record Platform (W : Type) : Type := {
  (** [os.getcwd()] *)
  getcwd : string;
  (** [docker.from_env()]: the client it returns is this record *)
  from_env : W -> result unit * W;
  (** [datetime.now().strftime("%Y-%m-%d %H:%M:%S")] *)
  now : W -> string * W;
  (** [time.sleep(secs)] *)
  sleep : Z -> W -> W;
  (** [docker_client.containers.get(name)] *)
  containers_get : pyval -> W -> result Container * W;
  (** [container.exec_run(cmd, detach=..., environment=...)]: exit code and output *)
  container_exec_run :
    Container -> string -> bool -> environment -> W -> result (option Z * string) * W;
  (** [container.start()] *)
  container_start : Container -> W -> result unit * W;
  (** [docker_client.containers.run(image, name=..., detach=..., environment=..., volumes=...)] *)
  containers_run :
    string -> string -> bool -> environment -> list volume -> W -> result Container * W;
  (** [docker_client.images.build(path=..., tag=..., rm=...)] *)
  images_build : string -> string -> bool -> W -> result unit * W;
  (** [container.remove(force=...)] *)
  container_remove : Container -> bool -> W -> result unit * W;
  (** [os.path.exists], [os.remove], [open(p, 'a').close()] and
      [open(p, 'r').read()] on the log artifact *)
  host_exists : pyval -> W -> result bool * W;
  host_remove : pyval -> W -> result unit * W;
  host_touch : pyval -> W -> result unit * W;
  host_read : pyval -> W -> result string * W
}.

Arguments getcwd {W} _.
Arguments from_env {W} _ _.
Arguments now {W} _ _.
Arguments sleep {W} _ _ _.
Arguments containers_get {W} _ _ _.
Arguments container_exec_run {W} _ _ _ _ _ _.
Arguments container_start {W} _ _ _.
Arguments containers_run {W} _ _ _ _ _ _ _.
Arguments images_build {W} _ _ _ _ _.
Arguments container_remove {W} _ _ _ _.
Arguments host_exists {W} _ _ _.
Arguments host_remove {W} _ _ _.
Arguments host_touch {W} _ _ _.
Arguments host_read {W} _ _ _.

(** ** The state file *)

(** What the state file holds, as [json.load] sees it: the complete text of
    one JSON value, or a text that [json.load] rejects.  A file just opened
    with mode ['w'] is empty, and a text cut short before the closing brace of
    its object is not JSON: both are [Torn]. *)
Inductive file_content : Type :=
| Whole (v : pyval)
| Torn.

(** Primitive operations on the files next to the state file.  The program
    performs all of them but the rename. *)
Inductive fs_op : Type :=
| FsExists (p : string)
| FsMakedirs (p : string)
| FsOpenRead (p : string)
| FsOpenWrite (p : string)
| FsDump (p : string) (v : pyval)
| FsRename (src dst : string)
| FsRemove (p : string).

(** ** What the program shows *)

(** The texts the program displays, by the place in the source that builds
    them.  The f-strings that interpolate a session value keep it as a field. *)
Inductive message : Type :=
| MsgContainerNotRunning (name : pyval)      (* "Container {name} is not running" *)
| MsgCompleted (name : pyval)                (* "Java application completed! (Container: {name})" *)
| MsgRunning (name start_time : pyval)       (* "Java application running in {name} (started at {start_time})" *)
| MsgBuilding                                (* "Building Docker image..." *)
| MsgReusing (name : string)                 (* "Reusing running container: {name}" *)
| MsgStarting (name : string)                (* "Starting stopped container: {name}" *)
| MsgCreating (name : string)                (* "Creating new container: {name}" *)
| MsgStartingJava                            (* "Starting Java application..." *)
| MsgJavaStarted (name : string)             (* "Java application started in container: {name}" *)
| MsgUnexpected (e : string)                 (* "Unexpected error: {str(e)}" *)
| MsgText (s : string).                      (* a text returned by the manager *)

Inductive ui_event : Type :=
| UiTitle
| UiMarkdown
| UiWarning (m : message)
| UiSuccess (m : message)
| UiInfo (m : message)
| UiError (m : message)
| UiSubheader (final : bool)                 (* "Application Logs (Final)" or "(Live)" *)
| UiCode (content : string)
| UiColumns
| UiTextInput
| UiNumberInput (min_value max_value value : Z)
| UiButton (label : string) (disabled : pyval)
| UiEmpty.

(** Everything the program does that the outside can see, in order. *)
Inductive event : Type :=
| EvFromEnv (r : result unit)
| EvGet (name : pyval) (r : result Container)
| EvExec (c : Container) (cmd : string) (detach : bool) (env : environment)
         (r : result (option Z * string))
| EvStart (c : Container) (r : result unit)
| EvRun (image name : string) (detach : bool) (env : environment) (vols : list volume)
        (r : result Container)
| EvBuild (path tag : string) (rm : bool) (r : result unit)
| EvRemove (c : Container) (force : bool) (r : result unit)
| EvFs (op : fs_op)
| EvHostExists (p : pyval) (r : result bool)
| EvHostRemove (p : pyval) (r : result unit)
| EvHostTouch (p : pyval) (r : result unit)
| EvHostRead (p : pyval) (r : result string)
| EvNow (t : string)
| EvSleep (secs : Z)
| EvUi (u : ui_event).

(** A call into the Docker SDK. *)
Definition is_gateway (ev : event) : bool :=
  match ev with
  | EvFromEnv _ | EvGet _ _ | EvExec _ _ _ _ _ | EvStart _ _ | EvRun _ _ _ _ _ _
  | EvBuild _ _ _ _ | EvRemove _ _ _ => true
  | _ => false
  end.

(** ** Paths *)

Definition is_sep (c : ascii) : bool := Ascii.eqb c "/"%char.

Definition starts_with_sep (s : string) : bool :=
  match s with String c _ => is_sep c | EmptyString => false end.

Fixpoint ends_with_sep (s : string) : bool :=
  match s with
  | EmptyString => false
  | String c EmptyString => is_sep c
  | String _ r => ends_with_sep r
  end.

(** [os.path.join(a, b)] on POSIX *)
Definition os_path_join (a b : string) : string :=
  if starts_with_sep b then b
  else if String.eqb a "" || ends_with_sep a then a +:+ b
  else a +:+ "/" +:+ b.

Fixpoint has_sep (s : string) : bool :=
  match s with
  | EmptyString => false
  | String c r => is_sep c || has_sep r
  end.

(** [p[:p.rfind('/') + 1]] *)
Fixpoint upto_last_sep (s : string) : string :=
  match s with
  | EmptyString => EmptyString
  | String c r =>
      if has_sep r then String c (upto_last_sep r)
      else if is_sep c then String c EmptyString else EmptyString
  end.

Fixpoint all_sep (s : string) : bool :=
  match s with
  | EmptyString => true
  | String c r => is_sep c && all_sep r
  end.

(** [s.rstrip('/')] *)
Fixpoint rstrip_sep (s : string) : string :=
  match s with
  | EmptyString => EmptyString
  | String c r =>
      match rstrip_sep r with
      | EmptyString => if is_sep c then EmptyString else String c EmptyString
      | r' => String c r'
      end
  end.

(** [os.path.dirname(p)] on POSIX *)
Definition os_path_dirname (p : string) : string :=
  let head := upto_last_sep p in
  if all_sep head then head else rstrip_sep head.

(** ** The manager object *)

(** The attributes of a [JavaContainerManager] other than [docker_client]:
    the Docker client is the platform. *)
Record JavaContainerManager : Type := {
  container_name : string;
  state_file : string
}.

(** ** Program states and the monad of the program *)

Section Program.

Context {W : Type} (P : Platform W).

Record Sys : Type := {
  world : W;
  (** the files the program owns: the state file and nothing else *)
  fs : gmap string file_content;
  (** [st.session_state], the manager object apart *)
  session : gmap string pyval;
  (** [st.session_state.java_manager] *)
  java_manager : option JavaContainerManager
}.

Definition set_world (w : W) (s : Sys) : Sys :=
  {| world := w; fs := fs s; session := session s; java_manager := java_manager s |}.
Definition set_fs (f : gmap string file_content) (s : Sys) : Sys :=
  {| world := world s; fs := f; session := session s; java_manager := java_manager s |}.
Definition set_session (ss : gmap string pyval) (s : Sys) : Sys :=
  {| world := world s; fs := fs s; session := ss; java_manager := java_manager s |}.
Definition set_java_manager (m : option JavaContainerManager) (s : Sys) : Sys :=
  {| world := world s; fs := fs s; session := session s; java_manager := m |}.

(** How a piece of the program ends: with a value, with an exception, or with
    Streamlit's rerun request.  [st.rerun()] raises a [RerunException], which
    derives from [BaseException] and so passes through [except Exception]. *)
Inductive outcome (A : Type) : Type :=
| Ret (a : A)
| Raise (e : exn)
| Rerun.
Arguments Ret {A} a.
Arguments Raise {A} e.
Arguments Rerun {A}.

(** A piece of the program: from a state to how it ends, the state it leaves
    and the events it emitted, oldest first. *)
Definition M (A : Type) : Type := Sys -> outcome A * Sys * list event.

Definition ret {A} (a : A) : M A := fun s => (Ret a, s, []).

Definition bind {A B} (m : M A) (f : A -> M B) : M B :=
  fun s =>
    match m s with
    | (Ret a, s1, t1) => let '(o, s2, t2) := f a s1 in (o, s2, t1 ++ t2)
    | (Raise e, s1, t1) => (Raise e, s1, t1)
    | (Rerun, s1, t1) => (Rerun, s1, t1)
    end.

Definition raise {A} (e : exn) : M A := fun s => (Raise e, s, []).

(** [st.rerun()] *)
Definition st_rerun {A} : M A := fun s => (Rerun, s, []).

(** [try: m  except Exception as e: h e] *)
Definition try_except {A} (m : M A) (h : exn -> M A) : M A :=
  fun s =>
    match m s with
    | (Raise e, s1, t1) => let '(o, s2, t2) := h e s1 in (o, s2, t1 ++ t2)
    | r => r
    end.

(** [try: m  except: h] catches the rerun request as well. *)
Definition try_except_bare {A} (m : M A) (h : M A) : M A :=
  fun s =>
    match m s with
    | (Ret a, s1, t1) => (Ret a, s1, t1)
    | (_, s1, t1) => let '(o, s2, t2) := h s1 in (o, s2, t1 ++ t2)
    end.

Definition emit (ev : event) : M unit := fun s => (Ret tt, s, [ev]).

Definition ui (u : ui_event) : M unit := emit (EvUi u).

(** A call to the outside: the world moves, the call and its answer are
    recorded, an exception answer is raised. *)
Definition call {A} (op : W -> result A * W) (ev : result A -> event) : M A :=
  fun s =>
    let '(r, w) := op (world s) in
    (match r with inl e => Raise e | inr a => Ret a end, set_world w s, [ev r]).

Notation "x <- m ;; k" := (bind m (fun x => k))
  (at level 100, m at next level, right associativity).
Notation "m ;;; k" := (bind m (fun _ => k))
  (at level 100, right associativity).

(** [time.sleep(secs)] *)
Definition time_sleep (secs : Z) : M unit :=
  fun s => (Ret tt, set_world (sleep P secs (world s)) s, [EvSleep secs]).

(** [datetime.now().strftime("%Y-%m-%d %H:%M:%S")] *)
Definition datetime_now : M string :=
  fun s => let '(t, w) := now P (world s) in (Ret t, set_world w s, [EvNow t]).

(** *** Operations on the state file *)

(** The effect of a file operation on the files the program owns. *)
Definition apply_fs_op (op : fs_op) (f : gmap string file_content) : gmap string file_content :=
  match op with
  | FsExists _ | FsMakedirs _ | FsOpenRead _ => f
  | FsOpenWrite p => <[p := Torn]> f
  | FsDump p v => <[p := Whole v]> f
  | FsRename src dst =>
      match f !! src with
      | Some c => <[dst := c]> (delete src f)
      | None => f
      end
  | FsRemove p => delete p f
  end.

Definition do_fs (op : fs_op) : M unit :=
  fun s => (Ret tt, set_fs (apply_fs_op op (fs s)) s, [EvFs op]).

(** [os.path.exists(p)] *)
Definition os_path_exists (p : string) : M bool :=
  fun s => (Ret (bool_decide (is_Some (fs s !! p))), s, [EvFs (FsExists p)]).

(** [os.remove(p)] *)
Definition os_remove (p : string) : M unit :=
  fun s =>
    match fs s !! p with
    | Some _ => do_fs (FsRemove p) s
    | None => (Raise {| exn_class_of := OSError; exn_msg := "No such file or directory" |},
               s, [EvFs (FsRemove p)])
    end.

(** [with open(p, 'r') as f: json.load(f)] *)
Definition json_load_from (p : string) : M pyval :=
  fun s =>
    (match fs s !! p with
     | Some (Whole v) => Ret v
     | Some Torn => Raise {| exn_class_of := JSONDecodeError; exn_msg := "Expecting value" |}
     | None => Raise {| exn_class_of := OSError; exn_msg := "No such file or directory" |}
     end, s, [EvFs (FsOpenRead p)]).

(** *** [JavaContainerManager] *)

Definition default_container_name : string := "java-app-persistent".

(** The attributes that [__init__(self, container_name="java-app-persistent")]
    sets after it has got the Docker client. *)
Definition JavaContainerManager_init (name : string) : JavaContainerManager :=
  {| container_name := name;
     state_file := os_path_join (os_path_join (getcwd P) "java_app") "process_state.json" |}.

(** [JavaContainerManager(name)]: [__init__] calls [docker.from_env()] first,
    and what that raises leaves the constructor. *)
Definition JavaContainerManager_new (name : string) : M JavaContainerManager :=
  call (from_env P) EvFromEnv ;;;
  ret (JavaContainerManager_init name).

Definition load_process_state (self : JavaContainerManager) : M pyval :=
  ex <- os_path_exists (state_file self) ;;
  if ex then try_except_bare (json_load_from (state_file self)) (ret PyNone)
  else ret PyNone.

(** The object [save_process_state] hands to [json.dump]. *)
Definition state_dict (pid log_file start_time is_running name : pyval) : pyval :=
  PyDict (<["pid" := pid]>
         (<["log_file" := log_file]>
         (<["start_time" := start_time]>
         (<["is_running" := is_running]>
         (<["container_name" := name]> ∅))))).

Definition save_process_state (self : JavaContainerManager)
    (pid log_file start_time is_running container_name_arg : pyval) : M unit :=
  do_fs (FsMakedirs (os_path_dirname (state_file self))) ;;;
  do_fs (FsOpenWrite (state_file self)) ;;;
  do_fs (FsDump (state_file self)
           (state_dict pid log_file start_time is_running
              (py_or container_name_arg (PyStr (container_name self))))).

Definition clear_process_state (self : JavaContainerManager) : M unit :=
  ex <- os_path_exists (state_file self) ;;
  if ex then os_remove (state_file self) else ret tt.

Definition pgrep_command : string := "pgrep -f 'java.*App'".

Definition is_java_process_running (self : JavaContainerManager) (container_name_arg : pyval) : M bool :=
  let name := py_or container_name_arg (PyStr (container_name self)) in
  try_except
    (container <- call (containers_get P name) (EvGet name) ;;
     r <- call (container_exec_run P container pgrep_command false [])
               (EvExec container pgrep_command false []) ;;
     ret (bool_decide (fst r = Some 0%Z)))
    (fun e => if is_NotFound e then ret false else ret false).

(** Returns the status string of the container, or [None]. *)
Definition get_container_status (self : JavaContainerManager) (container_name_arg : pyval) : M (option string) :=
  let name := py_or container_name_arg (PyStr (container_name self)) in
  try_except
    (container <- call (containers_get P name) (EvGet name) ;;
     ret (Some (status container)))
    (fun e => if is_NotFound e then ret None else ret None).

Definition is_container_running (self : JavaContainerManager) (container_name_arg : pyval) : M bool :=
  st <- get_container_status self container_name_arg ;;
  ret (bool_decide (st = Some "running")).

Definition build_image (self : JavaContainerManager) (java_app_dir tag : string) : M (bool * string) :=
  try_except
    (call (images_build P java_app_dir tag true) (EvBuild java_app_dir tag true) ;;;
     ret (true, "Image built successfully"))
    (fun e =>
       if is_BuildError e then ret (false, "Build Error: " +:+ exn_msg e)
       else ret (false, "Unexpected error: " +:+ exn_msg e)).

Definition image_name : string := "java-dummy-app".

(** [environment={"LOG_MESSAGE": log_message, "ITERATIONS": str(iterations)}] *)
Definition workload_env (log_message : string) (iterations : Z) : environment :=
  [("LOG_MESSAGE", log_message); ("ITERATIONS", pretty iterations)].

(** Returns the pair of the container and the action taken, or [None] when
    the function runs off its end. *)
Definition get_or_create_container (self : JavaContainerManager)
    (log_message : string) (iterations : Z) (host_log_file : string)
  : M (option (Container * string)) :=
  try_except
    (container <- call (containers_get P (PyStr (container_name self)))
                       (EvGet (PyStr (container_name self))) ;;
     if String.eqb (status container) "running" then
       ret (Some (container, "reused"))
     else if String.eqb (status container) "exited" then
       call (container_start P container) (EvStart container) ;;;
       ret (Some (container, "started"))
     else ret None)
    (fun e =>
       if is_NotFound e then
         let env := workload_env log_message iterations in
         let vols := [ {| vol_host := host_log_file; vol_bind := "/app/app.log";
                          vol_mode := "rw" |} ] in
         container <- call (containers_run P image_name (container_name self) true env vols)
                           (EvRun image_name (container_name self) true env vols) ;;
         ret (Some (container, "created"))
       else raise e).

Definition java_command : string := "java -cp /app App".

Definition execute_java_app (self : JavaContainerManager) (container : Container) (log_message : string) (iterations : Z)
  : M (bool * string) :=
  try_except
    (call (container_exec_run P container java_command true (workload_env log_message iterations))
          (EvExec container java_command true (workload_env log_message iterations)) ;;;
     ret (true, "Java app started"))
    (fun e => ret (false, "Failed to execute: " +:+ exn_msg e)).

Definition pkill_command : string := "pkill -9 java".

Definition stop_java_app (self : JavaContainerManager) (container_name_arg : pyval) : M (bool * string) :=
  let name := py_or container_name_arg (PyStr (container_name self)) in
  try_except
    (container <- call (containers_get P name) (EvGet name) ;;
     call (container_exec_run P container pkill_command true [])
          (EvExec container pkill_command true []) ;;;
     ret (true, "Application stopped"))
    (fun e => ret (false, "Failed to stop: " +:+ exn_msg e)).

Definition remove_container (self : JavaContainerManager) (container_name_arg : pyval) : M (bool * string) :=
  let name := py_or container_name_arg (PyStr (container_name self)) in
  try_except
    (container <- call (containers_get P name) (EvGet name) ;;
     call (container_remove P container true) (EvRemove container true) ;;;
     ret (true, "Container removed"))
    (fun e => ret (false, "Failed to remove: " +:+ exn_msg e)).

Definition prepare_log_file (self : JavaContainerManager) (host_log_file : string) : M unit :=
  ex <- call (host_exists P (PyStr host_log_file)) (EvHostExists (PyStr host_log_file)) ;;
  (if ex then call (host_remove P (PyStr host_log_file)) (EvHostRemove (PyStr host_log_file))
   else ret tt) ;;;
  call (host_touch P (PyStr host_log_file)) (EvHostTouch (PyStr host_log_file)).

Definition read_logs (self : JavaContainerManager) (log_file : pyval) : M string :=
  ex <- call (host_exists P log_file) (EvHostExists log_file) ;;
  if ex then try_except_bare (call (host_read P log_file) (EvHostRead log_file)) (ret "")
  else ret "".

(** *** Streamlit *)

(** What the browser sends with the script run: which buttons were pressed,
    and what the two input widgets hold. *)
Record Inputs : Type := {
  stop_clicked : bool;
  run_clicked : bool;
  log_message_entry : option string;
  iterations_entry : option Z
}.

(** [key in st.session_state] *)
Definition session_has (key : string) : M bool :=
  fun s => (Ret (bool_decide (is_Some (session s !! key))), s, []).

(** [st.session_state.key] *)
Definition session_get (key : string) : M pyval :=
  fun s =>
    match session s !! key with
    | Some v => (Ret v, s, [])
    | None => (Raise {| exn_class_of := AttributeError; exn_msg := key |}, s, [])
    end.

(** [st.session_state.key = v] *)
Definition session_set (key : string) (v : pyval) : M unit :=
  fun s => (Ret tt, set_session (<[key := v]> (session s)) s, []).

(** [st.button(label, disabled=...)]: the widget is drawn and the call
    returns whether the browser reported a press of it. *)
Definition st_button (label : string) (disabled : pyval) (clicked : bool) : M bool :=
  ui (UiButton label disabled) ;;; ret clicked.

(** [st.text_input(label, value=...)] *)
Definition st_text_input (value : string) (entry : option string) : M string :=
  ui UiTextInput ;;; ret (default value entry).

(** [st.number_input(label, min_value=..., max_value=..., value=...)]: the
    widget holds [value] until the browser commits another number, and the
    browser commits no number outside the bounds. *)
Definition st_number_input (min_value max_value value : Z) (entry : option Z) : M Z :=
  ui (UiNumberInput min_value max_value value) ;;;
  ret (match entry with
       | Some n => if (min_value <=? n)%Z && (n <=? max_value)%Z then n else value
       | None => value
       end).

(** [state.get(key, dflt)]: only a dict has the method. *)
Definition py_get (state : pyval) (key : string) (dflt : pyval) : M pyval :=
  match state with
  | PyDict d => ret (default dflt (d !! key))
  | _ => raise {| exn_class_of := AttributeError; exn_msg := "get" |}
  end.

(** *** [ui/java_container_ui.py] *)

Definition _initialize_session_state (manager : JavaContainerManager) : M unit :=
  has <- session_has "process_pid" ;;
  if negb has then
    state <- load_process_state manager ;;
    if truthy state then
      v <- py_get state "pid" PyNone ;; session_set "process_pid" v ;;;
      v <- py_get state "is_running" (PyBool false) ;; session_set "is_running" v ;;;
      v <- py_get state "log_file" PyNone ;; session_set "log_file" v ;;;
      v <- py_get state "start_time" PyNone ;; session_set "start_time" v ;;;
      v <- py_get state "container_name" (PyStr (container_name manager)) ;;
      session_set "container_name" v
    else
      session_set "process_pid" PyNone ;;;
      session_set "is_running" (PyBool false) ;;;
      session_set "log_file" PyNone ;;;
      session_set "start_time" PyNone ;;;
      session_set "container_name" (PyStr (container_name manager))
  else ret tt.

Definition _show_final_logs (manager : JavaContainerManager) : M unit :=
  log_file <- session_get "log_file" ;;
  if truthy log_file then
    log_file <- session_get "log_file" ;;
    content <- read_logs manager log_file ;;
    if negb (String.eqb content "") then
      ui (UiSubheader true) ;;; ui (UiCode content)
    else ret tt
  else ret tt.

Definition _render_stop_button (manager : JavaContainerManager) (inp : Inputs) : M unit :=
  clicked <- st_button "Stop Application" (PyBool false) (stop_clicked inp) ;;
  if clicked then
    name <- session_get "container_name" ;;
    r <- stop_java_app manager name ;;
    let '(success, msg) := r in
    if success then
      session_set "is_running" (PyBool false) ;;;
      clear_process_state manager ;;;
      ui (UiSuccess (MsgText msg)) ;;;
      time_sleep 1 ;;;
      st_rerun
    else
      ui (UiError (MsgText msg))
  else ret tt.

Definition _stream_live_logs (manager : JavaContainerManager) : M unit :=
  log_file <- session_get "log_file" ;;
  if truthy log_file then
    log_file <- session_get "log_file" ;;
    content <- read_logs manager log_file ;;
    (if negb (String.eqb content "") then
       ui (UiSubheader false) ;;; ui UiEmpty ;;; ui (UiCode content)
     else ret tt) ;;;
    time_sleep 1 ;;;
    st_rerun
  else ret tt.

Definition _render_running_state (manager : JavaContainerManager) (inp : Inputs) : M unit :=
  name <- session_get "container_name" ;;
  running <- is_container_running manager name ;;
  if negb running then
    name <- session_get "container_name" ;;
    ui (UiWarning (MsgContainerNotRunning name)) ;;;
    session_set "is_running" (PyBool false) ;;;
    clear_process_state manager ;;;
    _show_final_logs manager
  else
    name <- session_get "container_name" ;;
    alive <- is_java_process_running manager name ;;
    if negb alive then
      name <- session_get "container_name" ;;
      ui (UiSuccess (MsgCompleted name)) ;;;
      session_set "is_running" (PyBool false) ;;;
      clear_process_state manager ;;;
      _show_final_logs manager
    else
      name <- session_get "container_name" ;;
      start_time <- session_get "start_time" ;;
      ui (UiInfo (MsgRunning name start_time)) ;;;
      _render_stop_button manager inp ;;;
      _stream_live_logs manager.

Definition _render_input_fields (inp : Inputs) : M (string * Z) :=
  ui UiColumns ;;;
  log_message <- st_text_input "Hello from Docker!" (log_message_entry inp) ;;
  iterations <- st_number_input 1 400 20 (iterations_entry inp) ;;
  ret (log_message, iterations).

(** [container, action = ...]: unpacking [None] raises [TypeError]. *)
Definition unpack_pair {A B} (v : option (A * B)) : M (A * B) :=
  match v with
  | Some p => ret p
  | None => raise {| exn_class_of := TypeError;
                     exn_msg := "cannot unpack non-iterable NoneType object" |}
  end.

Definition _execute_java_app (manager : JavaContainerManager)
    (log_message : string) (iterations : Z) (host_log_file : string) : M unit :=
  try_except
    (r <- get_or_create_container manager log_message iterations host_log_file ;;
     p <- unpack_pair r ;;
     let '(container, action) := p in
     (if String.eqb action "reused" then ui (UiInfo (MsgReusing (container_name manager)))
      else if String.eqb action "started" then ui (UiInfo (MsgStarting (container_name manager)))
      else if String.eqb action "created" then ui (UiInfo (MsgCreating (container_name manager)))
      else ret tt) ;;;
     time_sleep 1 ;;;
     ui (UiInfo MsgStartingJava) ;;;
     r <- execute_java_app manager container log_message iterations ;;
     let '(success, msg) := r in
     if success then
       start_time <- datetime_now ;;
       session_set "process_pid" PyNone ;;;
       session_set "is_running" (PyBool true) ;;;
       session_set "log_file" (PyStr host_log_file) ;;;
       session_set "start_time" (PyStr start_time) ;;;
       session_set "container_name" (PyStr (container_name manager)) ;;;
       save_process_state manager PyNone (PyStr host_log_file) (PyStr start_time)
         (PyBool true) (PyStr (container_name manager)) ;;;
       ui (UiSuccess (MsgJavaStarted (container_name manager))) ;;;
       time_sleep 1 ;;;
       st_rerun
     else
       ui (UiError (MsgText msg)) ;;;
       session_set "is_running" (PyBool false) ;;;
       clear_process_state manager)
    (fun e =>
       ui (UiError (MsgUnexpected (exn_msg e))) ;;;
       session_set "is_running" (PyBool false) ;;;
       clear_process_state manager).

Definition _render_build_run_button (manager : JavaContainerManager)
    (log_message : string) (iterations : Z) (inp : Inputs) : M unit :=
  button_disabled <- session_get "is_running" ;;
  clicked <- st_button "Build & Run Java App" button_disabled (run_clicked inp) ;;
  if clicked then
    ui UiEmpty ;;;
    ui (UiInfo MsgBuilding) ;;;
    let java_app_dir := os_path_join (getcwd P) "java_app" in
    let host_log_file := os_path_join java_app_dir "app_host.log" in
    prepare_log_file manager host_log_file ;;;
    r <- build_image manager java_app_dir image_name ;;
    let '(success, msg) := r in
    if negb success then
      ui (UiError (MsgText msg)) ;;;
      session_set "is_running" (PyBool false) ;;;
      clear_process_state manager
    else
      ui (UiSuccess (MsgText msg)) ;;;
      time_sleep 1 ;;;
      _execute_java_app manager log_message iterations host_log_file
  else ret tt.

(** [st.session_state.java_manager = m] *)
Definition set_session_manager (m : JavaContainerManager) : M unit :=
  fun s => (Ret tt, set_java_manager (Some m) s, []).

(** [manager = st.session_state.java_manager], created on first use: when
    the constructor raises, nothing is stored in the session. *)
Definition session_manager : M JavaContainerManager :=
  fun s =>
    match java_manager s with
    | Some m => (Ret m, s, [])
    | None =>
        (m <- JavaContainerManager_new default_container_name ;;
         set_session_manager m ;;;
         ret m) s
    end.

(** One script run of the section: one read cycle of the controller,
    followed by the launch when the browser asked for one. *)
Definition render_java_container_section (inp : Inputs) : M unit :=
  ui UiTitle ;;;
  ui UiMarkdown ;;;
  manager <- session_manager ;;
  _initialize_session_state manager ;;;
  is_running <- session_get "is_running" ;;
  believed <- (if truthy is_running then
                 name <- session_get "container_name" ;; ret (truthy name)
               else ret false) ;;
  (if believed then _render_running_state manager inp
   else session_set "is_running" (PyBool false) ;;; clear_process_state manager) ;;;
  p <- _render_input_fields inp ;;
  let '(log_message, iterations) := p in
  _render_build_run_button manager log_message iterations inp.

(** [_render_remove_container_button], which no caller uses. *)
Definition _render_remove_container_button (manager : JavaContainerManager)
    (remove_clicked : bool) : M unit :=
  is_running <- session_get "is_running" ;;
  st <- (if negb (truthy is_running) then
           st <- get_container_status manager PyNone ;; ret (bool_decide (st <> None))
         else ret false) ;;
  if st then
    clicked <- st_button "Remove Container" (PyBool false) remove_clicked ;;
    if clicked then
      r <- remove_container manager PyNone ;;
      let '(success, msg) := r in
      if success then ui (UiSuccess (MsgText msg)) ;;; st_rerun
      else ui (UiError (MsgText msg))
    else ret tt
  else ret tt.

End Program.

Arguments Ret {A} a.
Arguments Raise {A} e.
Arguments Rerun {A}.

(** ** A small Docker daemon to run the program against *)

(** One container slot with its status, a workload that is alive or not, and
    switches that make the daemon, the build or the non-probe execs fail. *)
Record Sim : Type := {
  sim_container : option string;
  sim_java : bool;
  sim_up : bool;
  sim_build_ok : bool;
  sim_exec_ok : bool
}.

Definition sim_error (c : exn_class) (m : string) : exn :=
  {| exn_class_of := c; exn_msg := m |}.

Definition sim_down {A} (w : Sim) : result A * Sim :=
  (inl (sim_error ConnectionError "Connection refused"), w).

Definition sim_with (c : option string) (java : bool) (w : Sim) : Sim :=
  {| sim_container := c; sim_java := java; sim_up := sim_up w;
     sim_build_ok := sim_build_ok w; sim_exec_ok := sim_exec_ok w |}.

Definition sim_handle (st : string) : Container :=
  {| container_id := "c0"; status := st |}.

Definition sim_platform : Platform Sim := {|
  getcwd := "/srv/app";
  from_env := fun w => if sim_up w then (inr tt, w) else sim_down w;
  now := fun w => ("2024-05-01 10:00:00", w);
  sleep := fun _ w => w;
  containers_get := fun _ w =>
    if sim_up w then
      match sim_container w with
      | Some st => (inr (sim_handle st), w)
      | None => (inl (sim_error NotFound "No such container"), w)
      end
    else sim_down w;
  container_exec_run := fun _ cmd _ _ w =>
    if sim_up w then
      if String.eqb cmd "pgrep -f 'java.*App'" then
        (inr (Some (if sim_java w then 0%Z else 1%Z), ""), w)
      else if sim_exec_ok w then
        (inr (None, ""), sim_with (sim_container w) (String.eqb cmd "java -cp /app App") w)
      else (inl (sim_error APIError "exec failed"), w)
    else sim_down w;
  container_start := fun _ w =>
    if sim_up w then (inr tt, sim_with (Some "running") (sim_java w) w) else sim_down w;
  containers_run := fun _ _ _ _ _ w =>
    if sim_up w then (inr (sim_handle "created"), sim_with (Some "running") (sim_java w) w)
    else sim_down w;
  images_build := fun _ _ _ w =>
    if sim_up w then
      if sim_build_ok w then (inr tt, w) else (inl (sim_error BuildError "build failed"), w)
    else sim_down w;
  container_remove := fun _ _ w =>
    if sim_up w then (inr tt, sim_with None false w) else sim_down w;
  host_exists := fun _ w => (inr false, w);
  host_remove := fun _ w => (inr tt, w);
  host_touch := fun _ w => (inr tt, w);
  host_read := fun _ w => (inr "", w)
|}.

Definition sim_manager : JavaContainerManager :=
  JavaContainerManager_init sim_platform default_container_name.

(** A healthy daemon with the given container status and workload. *)
Definition sim_world (c : option string) (java : bool) : Sim :=
  {| sim_container := c; sim_java := java; sim_up := true;
     sim_build_ok := true; sim_exec_ok := true |}.

(** A controller process that has just started: nothing in its session. *)
Definition fresh (w : Sim) (f : gmap string file_content) : @Sys Sim :=
  {| world := w; fs := f; session := ∅; java_manager := None |}.

Definition no_input : Inputs :=
  {| stop_clicked := false; run_clicked := false;
     log_message_entry := None; iterations_entry := None |}.

Definition press_run (lm : string) (n : Z) : Inputs :=
  {| stop_clicked := false; run_clicked := true;
     log_message_entry := Some lm; iterations_entry := Some n |}.

Definition press_stop : Inputs :=
  {| stop_clicked := true; run_clicked := false;
     log_message_entry := None; iterations_entry := None |}.

(** The events of a run, and the state it leaves. *)
Definition events_of {W A} (r : outcome A * @Sys W * list event) : list event := snd r.
Definition state_of {W A} (r : outcome A * @Sys W * list event) : @Sys W := snd (fst r).
Definition outcome_of {W A} (r : outcome A * @Sys W * list event) : outcome A := fst (fst r).

(** ** Reading the events *)

(** The outside answered the call with an exception. *)
Definition failed (ev : event) : bool :=
  match ev with
  | EvFromEnv (inl _)
  | EvGet _ (inl _) | EvExec _ _ _ _ (inl _) | EvStart _ (inl _)
  | EvRun _ _ _ _ _ (inl _) | EvBuild _ _ _ (inl _) | EvRemove _ _ (inl _)
  | EvHostExists _ (inl _) | EvHostRemove _ (inl _) | EvHostTouch _ (inl _)
  | EvHostRead _ (inl _) => true
  | _ => false
  end.

(** The three container statuses, as [get_or_create_container] tells them
    apart from the answer of [containers.get]: the status ['running'], the
    status ['exited'], and the exception [NotFound]. *)
Inductive ContainerStatus : Type := Absent | Stopped | Running.

Definition classify (r : result Container) : option ContainerStatus :=
  match r with
  | inr c =>
      if String.eqb (status c) "running" then Some Running
      else if String.eqb (status c) "exited" then Some Stopped
      else None
  | inl e => if is_NotFound e then Some Absent else None
  end.


(** The bind mount of the log artifact. *)
Definition log_volume (host_log_file : string) : list volume :=
  [ {| vol_host := host_log_file; vol_bind := "/app/app.log"; vol_mode := "rw" |} ].

(** The events of [clear_process_state] on files [f]: the existence test, and
    the removal when the state file is there. *)
Definition clear_trace (self : JavaContainerManager) (f : gmap string file_content)
  : list event :=
  EvFs (FsExists (state_file self))
  :: (if bool_decide (is_Some (f !! state_file self))
      then [EvFs (FsRemove (state_file self))] else []).

(** The workload-exec step of the launch was reached: the program announces
    it right before it calls [execute_java_app]. *)
Definition exec_step_reached (t : list event) : Prop :=
  In (EvUi (UiInfo MsgStartingJava)) t.

(** The image build raised. *)
Definition build_failed (ev : event) : bool :=
  match ev with
  | EvBuild _ _ _ (inl _) => true
  | _ => false
  end.

(** The detached exec of the workload command raised. *)
Definition exec_failed (ev : event) : bool :=
  match ev with
  | EvExec _ cmd true _ (inl _) => String.eqb cmd java_command
  | _ => false
  end.

(** A write of the state file. *)
Definition is_state_write (ev : event) : bool :=
  match ev with
  | EvFs (FsOpenWrite _) | EvFs (FsDump _ _) | EvFs (FsRename _ _) => true
  | _ => false
  end.

(** The program showed an error. *)
Definition is_error_report (ev : event) : bool :=
  match ev with
  | EvUi (UiError _) => true
  | _ => false
  end.

(** ** Weakest preconditions *)

(** [wp m s Q]: running [m] from [s] ends in a way, a state and a trace that
    satisfy [Q]. *)
Definition wp {W A} (m : M A) (s : @Sys W)
    (Q : outcome A -> @Sys W -> list event -> Prop) : Prop :=
  Q (outcome_of (m s)) (state_of (m s)) (events_of (m s)).

(** The session of a controller that believes nothing is running, as
    [_initialize_session_state] leaves it when there is no state file. *)
Definition idle_session (name : string) : gmap string pyval :=
  <["container_name" := PyStr name]>
  (<["start_time" := PyNone]>
  (<["log_file" := PyNone]>
  (<["is_running" := PyBool false]>
  (<["process_pid" := PyNone]> ∅)))).

(** The session of a controller that believes a run is active. *)
Definition active_session (name log_file start_time : string) : gmap string pyval :=
  <["container_name" := PyStr name]>
  (<["start_time" := PyStr start_time]>
  (<["log_file" := PyStr log_file]>
  (<["is_running" := PyBool true]>
  (<["process_pid" := PyNone]> ∅)))).

(** A controller on the small daemon with the given session. *)
Definition sim_state (w : Sim) (f : gmap string file_content) (ss : gmap string pyval)
  : @Sys Sim :=
  {| world := w; fs := f; session := ss; java_manager := Some sim_manager |}.

(** The object a successful launch persists. *)
Definition sim_state_object : pyval :=
  state_dict PyNone (PyStr "/srv/app/java_app/app_host.log")
    (PyStr "2024-05-01 10:00:00") (PyBool true) (PyStr default_container_name).

Definition sim_state_path : string := "/srv/app/java_app/process_state.json".

(** The files after a sequence of file operations; a crash in the middle of a
    sequence leaves the files as after a prefix of it. *)
Definition replay (ops : list fs_op) (f : gmap string file_content)
  : gmap string file_content :=
  fold_left (fun g op => apply_fs_op op g) ops f.

(** The file operations of [save_process_state], in the order of the source:
    [os.makedirs], [open(state_file, 'w')], [json.dump]. *)
Definition save_ops (self : JavaContainerManager)
    (pid log_file start_time is_running container_name_arg : pyval) : list fs_op :=
  [ FsMakedirs (os_path_dirname (state_file self));
    FsOpenWrite (state_file self);
    FsDump (state_file self)
      (state_dict pid log_file start_time is_running
         (py_or container_name_arg (PyStr (container_name self)))) ].

(** The operation renames a file onto [p]. *)
Definition renames_onto (p : string) (op : fs_op) : bool :=
  match op with
  | FsRename _ dst => String.eqb dst p
  | _ => false
  end.

(** What an initialization read makes of the state file. *)
Definition persisted (self : JavaContainerManager) (f : gmap string file_content) : pyval :=
  match f !! state_file self with
  | Some (Whole v) => v
  | _ => PyNone
  end.

(** ** What a piece of the program can emit *)

(** Every event [m] emits, from whatever state, satisfies [Q]. *)
Definition emits {W A} (m : @M W A) (Q : event -> Prop) : Prop :=
  forall s : @Sys W, Forall Q (events_of (m s)).

(** Every value [m] returns, from whatever state, satisfies [R]. *)
Definition returns {W A} (m : @M W A) (R : A -> Prop) : Prop :=
  forall (s : @Sys W) (a : A), outcome_of (m s) = Ret a -> R a.

(** The environment handed to the runtime with a container creation or an
    exec is empty, or it is the workload's environment with [ITERATIONS]
    the decimal text of a number from 1 to 400. *)
Definition env_in_range (ev : event) : Prop :=
  match ev with
  | EvRun _ _ _ env _ _ | EvExec _ _ _ env _ =>
      env = [] \/ exists lm n, env = workload_env lm n /\ (1 <= n <= 400)%Z
  | _ => True
  end.

(** Not the announcement that the run is active. *)
Definition quiet (ev : event) : Prop :=
  match ev with
  | EvUi (UiInfo (MsgRunning _ _)) => False
  | _ => True
  end.

(** ** Ground truth and its reports *)

(** What the two ground-truth checks of a poll find when they are made from
    state [s]: the container's status is ['running'] and then the probe for
    the workload process succeeds. *)
Definition ground_truth_running {W} (P : Platform W) (self : JavaContainerManager)
    (name : pyval) (s : @Sys W) : bool :=
  match is_container_running P self name s with
  | (Ret true, s1, _) =>
      match is_java_process_running P self name s1 with
      | (Ret alive, _, _) => alive
      | _ => false
      end
  | _ => false
  end.

(** Ground truth, read off the runtime and not off the controller: what the
    runtime answers when it is asked, from world [w], for container [name]
    and then for the workload process in it.  The lookup finds the container
    with status ['running'], the next lookup finds it again, and the probe
    command run in it exits with code 0. *)
Definition runtime_says_running {W} (P : Platform W) (name : pyval) (w : W) : bool :=
  match containers_get P name w with
  | (inr c, w1) =>
      String.eqb (status c) "running"
      && match containers_get P name w1 with
         | (inr c2, w2) =>
             match container_exec_run P c2 pgrep_command false [] w2 with
             | (inr (Some code, _), _) => Z.eqb code 0
             | _ => false
             end
         | _ => false
         end
  | _ => false
  end.

(** The announcement that the run is active comes right after a lookup of
    the announced container that found it with status ['running'] and a probe
    in it that returned exit code 0. *)
Definition justified (t : list event) : Prop :=
  forall pre post name start_time,
    t = pre ++ EvUi (UiInfo (MsgRunning name start_time)) :: post ->
    exists pre' c1 c2 out,
      pre = pre' ++ [EvGet name (inr c1); EvGet name (inr c2);
                     EvExec c2 pgrep_command false [] (inr (Some 0%Z, out))]
      /\ status c1 = "running".

(** The report that the run is over: the container is not running, or the
    workload has completed.  Both are the report "Completed" of a poll. *)
Definition is_completed_report (ev : event) : bool :=
  match ev with
  | EvUi (UiWarning (MsgContainerNotRunning _)) | EvUi (UiSuccess (MsgCompleted _)) => true
  | _ => false
  end.

(** The announcement that the run is active. *)
Definition is_active_report (ev : event) : bool :=
  match ev with
  | EvUi (UiInfo (MsgRunning _ _)) => true
  | _ => false
  end.

(** Something was shown to the operator. *)
Definition is_report (ev : event) : bool :=
  match ev with
  | EvUi (UiWarning _) | EvUi (UiSuccess _) | EvUi (UiInfo _) | EvUi (UiError _) => true
  | _ => false
  end.

(** The state file was removed. *)
Definition is_clear (ev : event) : bool :=
  match ev with
  | EvFs (FsRemove _) => true
  | _ => false
  end.

(** In trace [t] the state file is removed, and nothing is reported before
    it is. *)
Fixpoint cleared_before_reports (t : list event) : bool :=
  match t with
  | [] => false
  | ev :: rest =>
      if is_clear ev then true
      else if is_report ev then false
      else cleared_before_reports rest
  end.

(** A controller that believes a run is active, with its state file. *)
Definition sim_active (w : Sim) : @Sys Sim :=
  sim_state w {[ sim_state_path := Whole sim_state_object ]}
    (active_session default_container_name "/srv/app/java_app/app_host.log"
       "2024-05-01 10:00:00").

(** A controller that believes nothing is running, with a state file left over. *)
Definition sim_idle (w : Sim) : @Sys Sim :=
  sim_state w {[ sim_state_path := Whole sim_state_object ]}
    (idle_session default_container_name).

(** A daemon whose execs other than the probe fail. *)
Definition sim_exec_broken (c : option string) (java : bool) : Sim :=
  {| sim_container := c; sim_java := java; sim_up := true;
     sim_build_ok := true; sim_exec_ok := false |}.

(** A daemon whose image build fails. *)
Definition sim_build_broken (c : option string) (java : bool) : Sim :=
  {| sim_container := c; sim_java := java; sim_up := true;
     sim_build_ok := false; sim_exec_ok := true |}.

(** The operation is a rename. *)
Definition is_rename (op : fs_op) : bool :=
  match op with
  | FsRename _ _ => true
  | _ => false
  end.


(** ** More readings of the events and of the state *)

(** An operation on a host file raised. *)
Definition host_failed (ev : event) : bool :=
  match ev with
  | EvHostExists _ (inl _) | EvHostRemove _ (inl _) | EvHostTouch _ (inl _)
  | EvHostRead _ (inl _) => true
  | _ => false
  end.

(** A call into the Docker SDK that changes nothing in the runtime: the
    creation of the client, a lookup of a container, or the blocking exec of
    the probe command. *)
Definition is_runtime_read (ev : event) : bool :=
  match ev with
  | EvFromEnv _ | EvGet _ _ => true
  | EvExec _ cmd false env _ =>
      String.eqb cmd pgrep_command && match env with [] => true | _ => false end
  | _ => false
  end.

(** A removal of a container. *)
Definition is_removal (ev : event) : bool :=
  match ev with
  | EvRemove _ _ _ => true
  | _ => false
  end.

(** The state file is there only if the session believes a run is active. *)
Definition consistent {W} (self : JavaContainerManager) (s : @Sys W) : Prop :=
  is_Some (fs s !! state_file self) ->
  exists v, session s !! "is_running" = Some v /\ truthy v = true.

(** The session after an initialization that found no usable state. *)
Definition default_session (name : string) (ss : gmap string pyval) : gmap string pyval :=
  <["container_name" := PyStr name]>
  (<["start_time" := PyNone]>
  (<["log_file" := PyNone]>
  (<["is_running" := PyBool false]>
  (<["process_pid" := PyNone]> ss)))).

(** A piece of the program that changes nothing but the world outside: the
    files, the session and the manager object are left as they are. *)
Definition frame {W A} (m : @M W A) : Prop :=
  forall s : @Sys W,
    fs (state_of (m s)) = fs s
    /\ session (state_of (m s)) = session s
    /\ java_manager (state_of (m s)) = java_manager s.

(** Not a call into the Docker SDK, or one that only reads. *)
Definition read_only (ev : event) : bool :=
  negb (is_gateway ev) || is_runtime_read ev.

(** The manager a script run works with: the one of the session, or the one
    with the default name that the run creates when the session has none. *)
Definition manager_of {W} (P : Platform W) (s : @Sys W) : JavaContainerManager :=
  default (JavaContainerManager_init P default_container_name) (java_manager s).

(** What the pages draw of a log text: nothing when it is empty, else the
    heading and the text; the live view draws them in a placeholder. *)
Definition log_view (final : bool) (content : string) : list event :=
  if String.eqb content "" then []
  else if final then [EvUi (UiSubheader true); EvUi (UiCode content)]
  else [EvUi (UiSubheader false); EvUi UiEmpty; EvUi (UiCode content)].

(** [reads] is a reading of log file [lf] that gave [content]: the file was
    not there, or reading it raised, both giving the empty text, or the file
    was read. *)
Definition reads_log (lf : pyval) (content : string) (reads : list event) : Prop :=
  (reads = [EvHostExists lf (inr false)] /\ content = "")
  \/ (exists e, reads = [EvHostExists lf (inr true); EvHostRead lf (inl e)] /\ content = "")
  \/ reads = [EvHostExists lf (inr true); EvHostRead lf (inr content)].

(** The session holds the five values the pages read. *)
Definition session_ready (ss : gmap string pyval) : bool :=
  forallb (fun k => bool_decide (is_Some (ss !! k)))
    ["process_pid"; "is_running"; "log_file"; "start_time"; "container_name"].

(** From a session that holds the five values, [m] leaves such a session,
    and it raises only after an operation on the log file raised. *)
Definition safe {W A} (m : @M W A) : Prop :=
  forall s : @Sys W,
    session_ready (session s) = true ->
    session_ready (session (state_of (m s))) = true
    /\ forall e, outcome_of (m s) = Raise e ->
                 Exists (fun ev => host_failed ev = true) (events_of (m s)).

(** The value is a JSON object. *)
Definition is_dict (v : pyval) : bool :=
  match v with
  | PyDict _ => true
  | _ => false
  end.

(** The small daemon at a bad moment: the container is removed by someone
    else between the lookup and the start; the log file of an earlier run is
    there and can be removed, but no new one can be created. *)
Definition sim_faulty : Platform Sim := {|
  getcwd := getcwd sim_platform;
  from_env := from_env sim_platform;
  now := now sim_platform;
  sleep := sleep sim_platform;
  containers_get := containers_get sim_platform;
  container_exec_run := container_exec_run sim_platform;
  container_start := fun _ w =>
    (inl (sim_error NotFound "No such container"), sim_with None false w);
  containers_run := containers_run sim_platform;
  images_build := images_build sim_platform;
  container_remove := container_remove sim_platform;
  host_exists := fun _ w => (inr true, w);
  host_remove := host_remove sim_platform;
  host_touch := fun _ w => (inl (sim_error OSError "Permission denied"), w);
  host_read := host_read sim_platform
|}.

(** ** The order of a launch *)

(** The image was built. *)
Definition build_ok (ev : event) : bool :=
  match ev with
  | EvBuild _ _ _ (inr _) => true
  | _ => false
  end.

(** The log file was created. *)
Definition log_prepared (ev : event) : bool :=
  match ev with
  | EvHostTouch _ (inr _) => true
  | _ => false
  end.

(** A call that looks a container up, starts it or creates it. *)
Definition is_container_call (ev : event) : bool :=
  match ev with
  | EvGet _ _ | EvStart _ _ | EvRun _ _ _ _ _ _ => true
  | _ => false
  end.

(** A container was handed to the program: by the lookup or by the
    creation. *)
Definition container_obtained (ev : event) : bool :=
  match ev with
  | EvGet _ (inr _) | EvRun _ _ _ _ _ (inr _) => true
  | _ => false
  end.

(** The detached exec of the workload command, and its success. *)
Definition is_workload_exec (ev : event) : bool :=
  match ev with
  | EvExec _ cmd true _ _ => String.eqb cmd java_command
  | _ => false
  end.

Definition workload_started (ev : event) : bool :=
  match ev with
  | EvExec _ cmd true _ (inr _) => String.eqb cmd java_command
  | _ => false
  end.

(** In trace [t], every event that satisfies [q] comes after an event that
    satisfies [p]. *)
Definition precedes (p q : event -> bool) (t : list event) : Prop :=
  forall pre ev post, t = pre ++ ev :: post -> q ev = true -> Exists (fun x => p x = true) pre.

(** The same, by one pass over the trace; [seen] tells whether an event that
    satisfies [p] has been met. *)
Fixpoint precedesb (p q : event -> bool) (seen : bool) (t : list event) : bool :=
  match t with
  | [] => true
  | ev :: rest => (negb (q ev) || seen) && precedesb p q (seen || p ev) rest
  end.

(** The creation of the Docker client. *)
Definition is_client_creation (ev : event) : bool :=
  match ev with
  | EvFromEnv _ => true
  | _ => false
  end.

(** A piece of the program that leaves the manager object of the session as
    it is. *)
Definition keeps_manager {W A} (m : @M W A) : Prop :=
  forall s : @Sys W, java_manager (state_of (m s)) = java_manager s.

(** * Properties *)

(** ** Running the monad *)

Section Basics.

Context {W : Type} (P : Platform W).

Lemma bind_ret_l {A B} (m : M A) (f : A -> M B) (s s1 : @Sys W) a t1 :
  m s = (Ret a, s1, t1) ->
  bind m f s = (let '(o, s2, t2) := f a s1 in (o, s2, t1 ++ t2)).
Proof. intros H. unfold bind. now rewrite H. Qed.

End Basics.

Ltac run := unfold bind, try_except, try_except_bare, call, ret, raise, emit, ui in *; simpl in *.

(** ** The manager *)

Section ManagerFacts.

Context {W : Type} (P : Platform W) (self : JavaContainerManager).

(** C7.  The workload probe always returns a boolean, leaves the files and
    the session alone, and answers [False] as soon as the lookup of the
    container or the exec inside it raised, [NotFound] included; it answers
    [True] only when the exec returned exit code 0. *)
Theorem is_java_process_running_total (name : pyval) (s : Sys) :
  exists b s' t,
    is_java_process_running P self name s = (Ret b, s', t)
    /\ fs s' = fs s /\ session s' = session s /\ java_manager s' = java_manager s
    /\ (forall ev, In ev t -> failed ev = true -> b = false)
    /\ (b = true ->
        exists c out,
          t = [EvGet (py_or name (PyStr (container_name self))) (inr c);
               EvExec c pgrep_command false [] (inr (Some 0%Z, out))]).
Proof.
  unfold is_java_process_running. run.
  destruct (containers_get P _ (world s)) as [[e|c] w] eqn:Hget; simpl.
  - destruct (is_NotFound e); do 3 eexists; (split; [reflexivity|]);
      repeat split; try discriminate; auto.
  - destruct (container_exec_run P c _ _ _ w) as [[e|[code out]] w'] eqn:Hexec; simpl.
    + destruct (is_NotFound e); do 3 eexists; (split; [reflexivity|]);
        repeat split; try discriminate; auto.
    + do 3 eexists; split; [reflexivity|]. repeat split.
      * intros ev [<-|[<-|[]]]; discriminate.
      * intros Hb. apply bool_decide_eq_true in Hb. simpl in Hb. subst code. eauto.
Qed.

End ManagerFacts.

Section StatusFacts.

Context {W : Type} (P : Platform W) (self : JavaContainerManager).

(** C6, as the code has it.  The status lookup never raises.  It returns
    [None] whenever [containers.get] raised, whether the exception is
    [NotFound] or any other one (a refused connection included), and otherwise
    the status string exactly as the runtime reported it, without classifying
    it; [is_container_running] is the test of that string against
    ['running']. *)
Theorem get_container_status_answer (name : pyval) (s : Sys) :
  let target := py_or name (PyStr (container_name self)) in
  let r := fst (containers_get P target (world s)) in
  let w := snd (containers_get P target (world s)) in
  get_container_status P self name s
    = (Ret (match r with inl _ => None | inr c => Some (status c) end),
       set_world w s, [EvGet target r])
  /\ is_container_running P self name s
    = (Ret (match r with
            | inl _ => false
            | inr c => bool_decide (status c = "running")
            end),
       set_world w s, [EvGet target r]).
Proof.
  unfold is_container_running, get_container_status. run.
  destruct (containers_get P _ (world s)) as [[e|c] w]; simpl.
  - destruct (is_NotFound e); simpl; auto.
  - split; [reflexivity|]. do 2 f_equal. f_equal.
    apply bool_decide_ext. split; congruence.
Qed.

End StatusFacts.

(** C6, as the claim states it, fails: with the daemon unreachable
    [containers.get] raises a connection error, which is not [NotFound], and
    the lookup returns [None] all the same instead of failing. *)
Lemma get_container_status_swallows_connection_error :
  let s := fresh {| sim_container := Some "running"; sim_java := true; sim_up := false;
                    sim_build_ok := true; sim_exec_ok := true |} ∅ in
  let e := sim_error ConnectionError "Connection refused" in
  is_NotFound e = false
  /\ get_container_status sim_platform sim_manager PyNone s
     = (Ret None, s, [EvGet (PyStr "java-app-persistent") (inl e)])
  /\ ~ (exists e' s' t,
         get_container_status sim_platform sim_manager PyNone s = (Raise e', s', t)).
Proof.
  cbv zeta. split; [reflexivity|]. split; [reflexivity|].
  intros (e' & s' & t & H). vm_compute in H. discriminate H.
Qed.

Section LaunchFacts.

Context {W : Type} (P : Platform W) (self : JavaContainerManager).

Lemma clear_process_state_eq (s : @Sys W) :
  clear_process_state self s
  = (Ret tt, set_fs (delete (state_file self) (fs s)) s, clear_trace self (fs s)).
Proof.
  unfold clear_process_state, clear_trace, os_path_exists, os_remove, do_fs. run.
  destruct (fs s !! state_file self) eqn:Hl; simpl.
  - rewrite Hl. reflexivity.
  - rewrite delete_id by assumption. destruct s; reflexivity.
Qed.


(** C10, as the code has it.  When the named container exists with a status
    that is neither ['running'] nor ['exited'], [get_or_create_container]
    runs off its end and returns [None], having asked the runtime for nothing
    but the lookup.  The caller's unpacking of that [None] raises a
    [TypeError] before anything else happens: the workload-exec step is not
    reached, the error is shown as an unexpected error, the belief is set to
    not running and the persisted state is cleared. *)
Theorem unlisted_status_aborts_launch
    (log_message : string) (iterations : Z) (host_log_file : string)
    (s : @Sys W) (c : Container) :
  let name := PyStr (container_name self) in
  let w := snd (containers_get P name (world s)) in
  fst (containers_get P name (world s)) = inr c ->
  classify (inr c) = None ->
  get_or_create_container P self log_message iterations host_log_file s
    = (Ret None, set_world w s, [EvGet name (inr c)])
  /\ exists s',
      _execute_java_app P self log_message iterations host_log_file s
      = (Ret tt, s',
         EvGet name (inr c)
         :: EvUi (UiError (MsgUnexpected "cannot unpack non-iterable NoneType object"))
         :: clear_trace self (fs s))
      /\ world s' = w
      /\ fs s' = delete (state_file self) (fs s)
      /\ session s' = <["is_running" := PyBool false]> (session s)
      /\ ~ exec_step_reached
           (events_of (_execute_java_app P self log_message iterations host_log_file s)).
Proof.
  cbv zeta. intros Hget Hcl. simpl in Hcl.
  destruct (String.eqb (status c) "running") eqn:Hrun; [discriminate Hcl|].
  destruct (String.eqb (status c) "exited") eqn:Hex; [discriminate Hcl|].
  assert (Hgo : get_or_create_container P self log_message iterations host_log_file s
                = (Ret None, set_world (snd (containers_get P (PyStr (container_name self)) (world s))) s,
                   [EvGet (PyStr (container_name self)) (inr c)])).
  { unfold get_or_create_container. run.
    destruct (containers_get P _ (world s)) as [r w]. simpl in *. subst r.
    simpl. rewrite Hrun, Hex. reflexivity. }
  split; [exact Hgo|].
  set (w := snd (containers_get P (PyStr (container_name self)) (world s))) in *.
  assert (Hrun' : _execute_java_app P self log_message iterations host_log_file s
    = (Ret tt,
       set_fs (delete (state_file self) (fs s))
         (set_session (<["is_running" := PyBool false]> (session s)) (set_world w s)),
       EvGet (PyStr (container_name self)) (inr c)
       :: EvUi (UiError (MsgUnexpected "cannot unpack non-iterable NoneType object"))
       :: clear_trace self (fs s))).
  { unfold _execute_java_app, try_except.
    rewrite (bind_ret_l _ _ _ _ _ _ Hgo). simpl.
    unfold bind at 1. unfold ui, emit at 1. simpl.
    unfold bind at 1. unfold session_set at 1. simpl.
    rewrite clear_process_state_eq. reflexivity. }
  rewrite Hrun'. eexists. split; [reflexivity|]. simpl. repeat split.
  unfold exec_step_reached, events_of, clear_trace. simpl.
  intros [H|[H|[H|H]]]; try discriminate H.
  destruct (bool_decide _); simpl in H; [destruct H as [H|[]]; discriminate H|destruct H].
Qed.

End LaunchFacts.

(** ** A weakest-precondition calculus for the program monad *)

Section Wp.

Context {W : Type}.

Lemma wp_mono {A} (m : M A) s (Q Q' : outcome A -> @Sys W -> list event -> Prop) :
  wp m s Q -> (forall o s' t, Q o s' t -> Q' o s' t) -> wp m s Q'.
Proof. unfold wp. auto. Qed.

Lemma wp_ret {A} (a : A) s (Q : outcome A -> @Sys W -> list event -> Prop) :
  Q (Ret a) s [] -> wp (ret a) s Q.
Proof. exact id. Qed.

Lemma wp_raise {A} (e : exn) s (Q : outcome A -> @Sys W -> list event -> Prop) :
  Q (Raise e) s [] -> wp (raise e) s Q.
Proof. exact id. Qed.

Lemma wp_rerun {A} s (Q : outcome A -> @Sys W -> list event -> Prop) :
  Q Rerun s [] -> wp st_rerun s Q.
Proof. exact id. Qed.

Lemma wp_emit ev s (Q : outcome unit -> @Sys W -> list event -> Prop) :
  Q (Ret tt) s [ev] -> wp (emit ev) s Q.
Proof. exact id. Qed.

Lemma wp_ui u s (Q : outcome unit -> @Sys W -> list event -> Prop) :
  Q (Ret tt) s [EvUi u] -> wp (ui u) s Q.
Proof. exact id. Qed.

Lemma wp_bind {A B} (m : M A) (f : A -> M B) s
    (Q : outcome B -> @Sys W -> list event -> Prop) :
  wp m s (fun o s1 t1 =>
            match o with
            | Ret a => wp (f a) s1 (fun o2 s2 t2 => Q o2 s2 (t1 ++ t2))
            | Raise e => Q (Raise e) s1 t1
            | Rerun => Q Rerun s1 t1
            end) ->
  wp (bind m f) s Q.
Proof.
  unfold wp, bind, outcome_of, state_of, events_of.
  destruct (m s) as [[[a|e|] s1] t1]; simpl; [|exact id|exact id].
  destruct (f a s1) as [[o2 s2] t2]. exact id.
Qed.

Lemma wp_try_except {A} (m : M A) (h : exn -> M A) s
    (Q : outcome A -> @Sys W -> list event -> Prop) :
  wp m s (fun o s1 t1 =>
            match o with
            | Raise e => wp (h e) s1 (fun o2 s2 t2 => Q o2 s2 (t1 ++ t2))
            | _ => Q o s1 t1
            end) ->
  wp (try_except m h) s Q.
Proof.
  unfold wp, try_except, outcome_of, state_of, events_of.
  destruct (m s) as [[[a|e|] s1] t1]; simpl; [exact id| |exact id].
  destruct (h e s1) as [[o2 s2] t2]. exact id.
Qed.

Lemma wp_try_except_bare {A} (m : M A) (h : M A) s
    (Q : outcome A -> @Sys W -> list event -> Prop) :
  wp m s (fun o s1 t1 =>
            match o with
            | Ret a => Q (Ret a) s1 t1
            | _ => wp h s1 (fun o2 s2 t2 => Q o2 s2 (t1 ++ t2))
            end) ->
  wp (try_except_bare m h) s Q.
Proof.
  unfold wp, try_except_bare, outcome_of, state_of, events_of.
  destruct (m s) as [[[a|e|] s1] t1]; simpl; [exact id| |];
    destruct (h s1) as [[o2 s2] t2]; exact id.
Qed.

Lemma wp_call {A} (op : W -> result A * W) (ev : result A -> event) s
    (Q : outcome A -> @Sys W -> list event -> Prop) :
  (forall r w, op (world s) = (r, w) ->
     Q (match r with inl e => Raise e | inr a => Ret a end) (set_world w s) [ev r]) ->
  wp (call op ev) s Q.
Proof.
  unfold wp, call, outcome_of, state_of, events_of. intros H.
  destruct (op (world s)) as [r w] eqn:E. simpl. apply H. reflexivity.
Qed.

Lemma wp_session_set key v s (Q : outcome unit -> @Sys W -> list event -> Prop) :
  Q (Ret tt) (set_session (<[key := v]> (session s)) s) [] -> wp (session_set key v) s Q.
Proof. exact id. Qed.

Lemma wp_session_get key s (Q : outcome pyval -> @Sys W -> list event -> Prop) :
  match session s !! key with
  | Some v => Q (Ret v) s []
  | None => Q (Raise {| exn_class_of := AttributeError; exn_msg := key |}) s []
  end ->
  wp (session_get key) s Q.
Proof.
  unfold wp, session_get, outcome_of, state_of, events_of.
  destruct (session s !! key); exact id.
Qed.

Lemma wp_session_has key s (Q : outcome bool -> @Sys W -> list event -> Prop) :
  Q (Ret (bool_decide (is_Some (session s !! key)))) s [] -> wp (session_has key) s Q.
Proof. exact id. Qed.

Lemma wp_do_fs op s (Q : outcome unit -> @Sys W -> list event -> Prop) :
  Q (Ret tt) (set_fs (apply_fs_op op (fs s)) s) [EvFs op] -> wp (do_fs op) s Q.
Proof. exact id. Qed.

End Wp.

Section WpPlatform.

Context {W : Type} (P : Platform W).

Lemma wp_time_sleep secs s (Q : outcome unit -> @Sys W -> list event -> Prop) :
  Q (Ret tt) (set_world (sleep P secs (world s)) s) [EvSleep secs] ->
  wp (time_sleep P secs) s Q.
Proof. exact id. Qed.

Lemma wp_datetime_now s (Q : outcome string -> @Sys W -> list event -> Prop) :
  (forall t w, now P (world s) = (t, w) -> Q (Ret t) (set_world w s) [EvNow t]) ->
  wp (datetime_now P) s Q.
Proof.
  unfold wp, datetime_now, outcome_of, state_of, events_of. intros H.
  destruct (now P (world s)) as [t w] eqn:E. simpl. apply H. reflexivity.
Qed.

Lemma wp_clear_process_state self s (Q : outcome unit -> @Sys W -> list event -> Prop) :
  Q (Ret tt) (set_fs (delete (state_file self) (fs s)) s) (clear_trace self (fs s)) ->
  wp (clear_process_state self) s Q.
Proof. unfold wp. rewrite clear_process_state_eq. exact id. Qed.

End WpPlatform.

(** One step of the calculus on the head of the program. *)
Ltac wp_if b :=
  let b' := eval simpl in b in
  lazymatch b' with
  | true => change b with true; cbv iota
  | false => change b with false; cbv iota
  | _ => destruct b eqn:?
  end.

Ltac wp_lookup :=
  repeat first [ rewrite lookup_insert_eq | rewrite lookup_insert_ne by done ];
  try match goal with
      | H : ?m !! ?k = _ |- context [?m !! ?k] => rewrite H
      end;
  try match goal with
      | |- match ?m !! ?k with _ => _ end => destruct (m !! k) eqn:?
      end.

Ltac wp_state :=
  cbn [world fs session java_manager set_world set_fs set_session set_java_manager
       outcome_of state_of events_of fst snd].

Ltac wp_step :=
  lazymatch goal with
  | |- wp (session_get _) _ _ => apply wp_session_get; wp_state; wp_lookup
  | |- wp (bind _ _) _ _ => apply wp_bind
  | |- wp (ret _) _ _ => apply wp_ret
  | |- wp (raise _) _ _ => apply wp_raise
  | |- wp st_rerun _ _ => apply wp_rerun
  | |- wp (emit _) _ _ => apply wp_emit
  | |- wp (ui _) _ _ => apply wp_ui
  | |- wp (try_except _ _) _ _ => apply wp_try_except
  | |- wp (try_except_bare _ _) _ _ => apply wp_try_except_bare
  | |- wp (call _ _) _ _ => apply wp_call; intros [?|?] ? ?
  | |- wp (session_set _ _) _ _ => apply wp_session_set
  | |- wp (session_has _) _ _ => apply wp_session_has
  | |- wp (do_fs _) _ _ => apply wp_do_fs
  | |- wp (time_sleep _ _) _ _ => apply wp_time_sleep
  | |- wp (datetime_now _) _ _ => apply wp_datetime_now; intros ? ? ?
  | |- wp (clear_process_state _) _ _ => apply wp_clear_process_state
  | |- wp (if ?b then _ else _) _ _ => wp_if b
  | |- wp (match ?x with _ => _ end) _ _ => destruct x eqn:?
  end; cbv beta iota.

(** Properties of explicit traces. *)
Ltac solve_event :=
  first [ reflexivity | exact I | split; reflexivity | assumption ].

Ltac solve_Forall :=
  unfold clear_trace;
  repeat first
    [ apply List.Forall_nil
    | apply List.Forall_cons; [solve_event|]
    | match goal with |- context [bool_decide ?p] => destruct (bool_decide p) end ].

Ltac solve_Exists :=
  solve [ repeat first [ apply List.Exists_cons_hd; reflexivity | apply List.Exists_cons_tl ] ].

Section LaunchOutcome.

Context {W : Type} (P : Platform W) (self : JavaContainerManager).

Lemma py_or_same (v : pyval) : py_or v v = v.
Proof. unfold py_or. destruct (truthy v); reflexivity. Qed.

(** How [_execute_java_app] can end: with a rerun request, the state file
    written and the belief set, no exec having failed; or normally, an error
    shown, the belief unset and the state file gone.  It never raises. *)
Lemma _execute_java_app_cases
    (log_message : string) (iterations : Z) (host_log_file : string) (s : @Sys W) :
  wp (_execute_java_app P self log_message iterations host_log_file) s
    (fun o s' t =>
       (o = Rerun
        /\ (exists start_time,
             fs s' = <[state_file self :=
                        Whole (state_dict PyNone (PyStr host_log_file) (PyStr start_time)
                                 (PyBool true) (PyStr (container_name self)))]> (fs s)
             /\ session s'
                = <["container_name" := PyStr (container_name self)]>
                  (<["start_time" := PyStr start_time]>
                  (<["log_file" := PyStr host_log_file]>
                  (<["is_running" := PyBool true]>
                  (<["process_pid" := PyNone]> (session s))))))
        /\ java_manager s' = java_manager s
        /\ Forall (fun ev => exec_failed ev = false /\ build_failed ev = false) t)
       \/ (o = Ret tt
           /\ fs s' = delete (state_file self) (fs s)
           /\ session s' = <["is_running" := PyBool false]> (session s)
           /\ java_manager s' = java_manager s
           /\ Forall (fun ev => build_failed ev = false /\ is_state_write ev = false) t
           /\ Exists (fun ev => is_error_report ev = true) t)).
Proof.
  unfold _execute_java_app, get_or_create_container, execute_java_app, unpack_pair,
    save_process_state.
  repeat wp_step.
  all: wp_state.
  all: cbn [apply_fs_op app].
  all: lazymatch goal with
       | |- (Rerun = Rerun /\ _) \/ _ =>
           left; split; [reflexivity|]; split;
           [eexists; rewrite py_or_same, insert_insert_eq; split; reflexivity|];
           split; [reflexivity|solve_Forall]
       | |- _ =>
           right; split; [reflexivity|]; split; [reflexivity|]; split; [reflexivity|];
           split; [reflexivity|]; split; [solve_Forall|solve_Exists]
       end.
Qed.

End LaunchOutcome.

Lemma wp_elim {W A} (m : M A) (s : @Sys W) Q o s' t :
  wp m s Q -> m s = (o, s', t) -> Q o s' t.
Proof. unfold wp. intros H E. rewrite E in H. exact H. Qed.

Lemma Forall_Exists_absurd {A} (P Q : A -> Prop) (l : list A) :
  (forall x, P x -> Q x -> False) -> Forall P l -> Exists Q l -> False.
Proof.
  intros HPQ HF HE. induction HE as [x l Hx|x l _ IH].
  - inversion HF; subst. eauto.
  - inversion HF; subst. auto.
Qed.

(** No element of an explicit list satisfies a predicate that computes. *)
Ltac refute_Exists H :=
  repeat (apply List.Exists_cons in H;
          destruct H as [H|H];
          [solve [destruct H as [H|H]; lazy in H; discriminate H | lazy in H; discriminate H]|]);
  try (apply List.Exists_nil in H; destruct H).

Section LaunchFailure.

Context {W : Type} (P : Platform W) (self : JavaContainerManager).

Lemma failed_launch_wp (log_message : string) (iterations : Z) (inp : Inputs) (s : @Sys W) :
  wp (_render_build_run_button P self log_message iterations inp) s
    (fun o s' t =>
       Exists (fun ev => build_failed ev = true \/ exec_failed ev = true) t ->
       o = Ret tt
       /\ fs s' !! state_file self = None
       /\ session s' !! "is_running" = Some (PyBool false)
       /\ Exists (fun ev => is_error_report ev = true) t
       /\ Forall (fun ev => is_state_write ev = false) t).
Proof.
  unfold _render_build_run_button, st_button, prepare_log_file, build_image.
  apply wp_bind, wp_session_get.
  destruct (session s !! "is_running") as [disabled|]; [|intros Hex; refute_Exists Hex].
  repeat wp_step.
  all: wp_state; cbn [app].
  all: try (intros Hex; refute_Exists Hex; fail).
  all: try (intros _; split; [reflexivity|]; split; [apply lookup_delete_eq|];
            split; [apply lookup_insert_eq|]; split; [solve_Exists|solve_Forall]; fail).
  all: eapply wp_mono; [apply _execute_java_app_cases|]; cbv beta.
  all: intros o s' t [(-> & _ & _ & Hok)|(-> & Hfs & Hss & _ & Hok & Herr)] Hex;
    wp_state; cbn [app] in *.
  all: refute_Exists Hex.
  all: try (exfalso; revert Hok Hex; apply Forall_Exists_absurd;
            intros ev [Ha Hb] [Hc|Hc]; congruence).
  all: split; [reflexivity|]; split; [rewrite Hfs; apply lookup_delete_eq|];
    split; [rewrite Hss; apply lookup_insert_eq|]; split.
  all: try (repeat apply List.Exists_cons_tl; exact Herr).
  all: repeat (apply List.Forall_cons; [reflexivity|]).
  all: revert Hok; apply List.Forall_impl; intros ev [_ Hw]; exact Hw.
Qed.

(** C5.  A launch attempt in which the image build raised, or in which the
    detached exec of the workload raised, ends normally with the error shown,
    the belief unset and no state file; nothing was written to the state file
    during the attempt. *)
Theorem failed_launch_leaves_no_state
    (log_message : string) (iterations : Z) (inp : Inputs)
    (s s' : @Sys W) (o : outcome unit) (t : list event) :
  _render_build_run_button P self log_message iterations inp s = (o, s', t) ->
  Exists (fun ev => build_failed ev = true \/ exec_failed ev = true) t ->
  o = Ret tt
  /\ fs s' !! state_file self = None
  /\ session s' !! "is_running" = Some (PyBool false)
  /\ Exists (fun ev => is_error_report ev = true) t
  /\ Forall (fun ev => is_state_write ev = false) t.
Proof.
  intros Hrun. exact (wp_elim _ _ _ _ _ _ (failed_launch_wp _ _ _ _) Hrun).
Qed.

End LaunchFailure.

Section Persistence.

Context {W : Type} (self : JavaContainerManager).

Lemma load_process_state_eq (s : @Sys W) :
  exists t, load_process_state self s = (Ret (persisted self (fs s)), s, t).
Proof.
  unfold load_process_state, persisted, os_path_exists, json_load_from. run.
  destruct (fs s !! state_file self) as [[v|]|] eqn:Hl; simpl; rewrite ?Hl; simpl; eauto.
Qed.

(** C8, as the code has it.  [save_process_state] writes the state file in
    place: it makes the directory, opens the state file itself for writing,
    which empties it, and dumps the whole object into it; it uses no
    temporary file and renames nothing.  When it returns, the state file
    holds the whole new object and the other files are as before.  If the
    controller dies between two of these operations, the next initialization
    read, which returns the object in the state file or [None] when the file
    is absent or is not JSON, finds the previous state (before the file is
    opened), no persisted state (after it is opened and before the dump is
    complete), or the new object. *)
Theorem save_process_state_in_place
    (pid log_file start_time is_running name : pyval) (s : @Sys W) :
  let ops := save_ops self pid log_file start_time is_running name in
  let obj := state_dict pid log_file start_time is_running
               (py_or name (PyStr (container_name self))) in
  save_process_state self pid log_file start_time is_running name s
    = (Ret tt, set_fs (replay ops (fs s)) s, map EvFs ops)
  /\ Forall (fun op => renames_onto (state_file self) op = false) ops
  /\ replay ops (fs s) = <[state_file self := Whole obj]> (fs s)
  /\ (forall s' : @Sys W,
        outcome_of (load_process_state self s') = Ret (persisted self (fs s')))
  /\ forall k : nat,
       persisted self (replay (take k ops) (fs s))
       = if (k <=? 1)%nat then persisted self (fs s)
         else if (k =? 2)%nat then PyNone
         else obj.
Proof.
  cbv zeta. split; [reflexivity|]. split; [repeat constructor|].
  split; [|split].
  - unfold replay, save_ops. cbn [fold_left apply_fs_op]. apply insert_insert_eq.
  - intros s'. destruct (load_process_state_eq s') as [t ->]. reflexivity.
  - intros k. unfold persisted, replay, save_ops.
    destruct k as [|[|[|k]]]; cbn [take fold_left apply_fs_op Nat.leb Nat.eqb];
      try reflexivity.
    + now rewrite lookup_insert_eq.
    + rewrite take_nil. cbn [fold_left]. now rewrite lookup_insert_eq.
Qed.

End Persistence.

Section Stop.

Context {W : Type} (P : Platform W) (self : JavaContainerManager).

Lemma stop_button_wp (inp : Inputs) (s : @Sys W) :
  stop_clicked inp = true ->
  is_Some (session s !! "container_name") ->
  wp (_render_stop_button P self inp) s
    (fun o s' t =>
       (Forall (fun ev => failed ev = false) t ->
        o = Rerun
        /\ fs s' !! state_file self = None
        /\ session s' !! "is_running" = Some (PyBool false))
       /\ (Exists (fun ev => failed ev = true) t ->
           o = Ret tt
           /\ fs s' = fs s
           /\ session s' = session s
           /\ Exists (fun ev => is_error_report ev = true) t)).
Proof.
  intros Hclick [name Hname].
  unfold _render_stop_button, st_button, stop_java_app.
  rewrite Hclick.
  repeat wp_step.
  all: wp_state; cbn [app].
  all: split; [intros Hall|intros Hex].
  all: try (split; [reflexivity|]; split; [apply lookup_delete_eq|apply lookup_insert_eq]).
  all: try (split; [reflexivity|]; split; [reflexivity|]; split; [reflexivity|solve_Exists]).
  all: try (exfalso;
            refine (Forall_Exists_absurd _ (fun ev => failed ev = true) _ _ Hall _);
            [intros ev Ha Hb; congruence|solve_Exists]).
  all: exfalso; unfold clear_trace in Hex;
    destruct (bool_decide _) in Hex; refute_Exists Hex.
Qed.

(** C2, as the code has it.  A press of the stop button clears the persisted
    state when the kill command could be sent: if neither the lookup of the
    container nor the exec raised, the belief is unset, the state file is
    removed and a rerun is requested.  If either raised, the error is shown
    and the state file and the session are left as they were. *)
Theorem stop_clears_state_when_kill_was_sent
    (inp : Inputs) (s s' : @Sys W) (o : outcome unit) (t : list event) :
  stop_clicked inp = true ->
  is_Some (session s !! "container_name") ->
  _render_stop_button P self inp s = (o, s', t) ->
  (Forall (fun ev => failed ev = false) t ->
   o = Rerun
   /\ fs s' !! state_file self = None
   /\ session s' !! "is_running" = Some (PyBool false))
  /\ (Exists (fun ev => failed ev = true) t ->
      o = Ret tt
      /\ fs s' = fs s
      /\ session s' = session s
      /\ Exists (fun ev => is_error_report ev = true) t).
Proof.
  intros Hclick Hname Hrun.
  exact (wp_elim _ _ _ _ _ _ (stop_button_wp _ _ Hclick Hname) Hrun).
Qed.

End Stop.

(** ** What the program emits *)

Section Emits.

Context {W : Type} (P : Platform W).

Lemma emits_ret {A} (a : A) Q : emits (@ret W A a) Q.
Proof. intros s. constructor. Qed.

Lemma emits_raise {A} e Q : emits (@raise W A e) Q.
Proof. intros s. constructor. Qed.

Lemma emits_rerun {A} Q : emits (@st_rerun W A) Q.
Proof. intros s. constructor. Qed.

Lemma emits_emit ev (Q : event -> Prop) : Q ev -> emits (@emit W ev) Q.
Proof. intros H s. repeat constructor. exact H. Qed.

Lemma emits_ui u (Q : event -> Prop) : Q (EvUi u) -> emits (@ui W u) Q.
Proof. apply emits_emit. Qed.

Lemma emits_bind_ret {A B} (m : @M W A) (f : A -> M B) (R : A -> Prop) Q :
  emits m Q -> returns m R -> (forall a, R a -> emits (f a) Q) -> emits (bind m f) Q.
Proof.
  intros Hm HR Hf s. specialize (Hm s). specialize (HR s).
  unfold bind, events_of, outcome_of in *.
  destruct (m s) as [[[a|e|] s1] t1]; simpl in *; try exact Hm.
  specialize (Hf a (HR a eq_refl) s1). unfold events_of in Hf.
  destruct (f a s1) as [[o2 s2] t2]. simpl in *. apply Forall_app. split; assumption.
Qed.

Lemma emits_bind {A B} (m : @M W A) (f : A -> M B) Q :
  emits m Q -> (forall a, emits (f a) Q) -> emits (bind m f) Q.
Proof.
  intros Hm Hf. apply (emits_bind_ret m f (fun _ => True)); auto. intros s a _. exact I.
Qed.

Lemma emits_try_except {A} (m : @M W A) (h : exn -> M A) Q :
  emits m Q -> (forall e, emits (h e) Q) -> emits (try_except m h) Q.
Proof.
  intros Hm Hh s. specialize (Hm s). unfold try_except, events_of in *.
  destruct (m s) as [[[a|e|] s1] t1]; simpl in *; try exact Hm.
  specialize (Hh e s1). unfold events_of in Hh.
  destruct (h e s1) as [[o2 s2] t2]. simpl in *. apply Forall_app. split; assumption.
Qed.

Lemma emits_try_except_bare {A} (m : @M W A) (h : M A) Q :
  emits m Q -> emits h Q -> emits (try_except_bare m h) Q.
Proof.
  intros Hm Hh s. specialize (Hm s). unfold try_except_bare, events_of in *.
  destruct (m s) as [[[a|e|] s1] t1]; simpl in *; try exact Hm;
    specialize (Hh s1); unfold events_of in Hh;
    destruct (h s1) as [[o2 s2] t2]; simpl in *; apply Forall_app; split; assumption.
Qed.

Lemma emits_call {A} (op : W -> result A * W) (ev : result A -> event) (Q : event -> Prop) :
  (forall r, Q (ev r)) -> emits (call op ev) Q.
Proof.
  intros H s. unfold call, events_of. destruct (op (world s)) as [r w]. simpl.
  repeat constructor. apply H.
Qed.

Lemma emits_session_get key Q : emits (@session_get W key) Q.
Proof. intros s. unfold session_get, events_of. destruct (session s !! key); constructor. Qed.

Lemma emits_session_set key v Q : emits (@session_set W key v) Q.
Proof. intros s. constructor. Qed.

Lemma emits_session_has key Q : emits (@session_has W key) Q.
Proof. intros s. constructor. Qed.

Lemma emits_session_manager (Q : event -> Prop) :
  (forall r, Q (EvFromEnv r)) -> emits (session_manager P) Q.
Proof.
  intros HQ s. unfold session_manager, events_of. destruct (java_manager s); [constructor|].
  unfold JavaContainerManager_new, set_session_manager, bind, call, ret.
  destruct (from_env P (world s)) as [[e|[]] w]; simpl; repeat constructor; apply HQ.
Qed.

Lemma emits_do_fs op (Q : event -> Prop) : Q (EvFs op) -> emits (@do_fs W op) Q.
Proof. intros H s. repeat constructor. exact H. Qed.

Lemma emits_os_path_exists p (Q : event -> Prop) :
  Q (EvFs (FsExists p)) -> emits (@os_path_exists W p) Q.
Proof. intros H s. repeat constructor. exact H. Qed.

Lemma emits_os_remove p (Q : event -> Prop) :
  Q (EvFs (FsRemove p)) -> emits (@os_remove W p) Q.
Proof.
  intros H s. unfold os_remove, events_of. destruct (fs s !! p); repeat constructor; exact H.
Qed.

Lemma emits_json_load_from p (Q : event -> Prop) :
  Q (EvFs (FsOpenRead p)) -> emits (@json_load_from W p) Q.
Proof. intros H s. repeat constructor. exact H. Qed.

Lemma emits_time_sleep secs (Q : event -> Prop) :
  Q (EvSleep secs) -> emits (time_sleep P secs) Q.
Proof. intros H s. repeat constructor. exact H. Qed.

Lemma emits_datetime_now (Q : event -> Prop) :
  (forall t, Q (EvNow t)) -> emits (datetime_now P) Q.
Proof.
  intros H s. unfold datetime_now, events_of. destruct (now P (world s)) as [t w]. simpl.
  repeat constructor. apply H.
Qed.

Lemma emits_wp {A} (m : @M W A) Q s : emits m Q -> wp m s (fun _ _ t => Forall Q t).
Proof. intros H. apply H. Qed.

End Emits.

Create HintDb program discriminated.

#[local] Hint Unfold
  load_process_state save_process_state clear_process_state is_java_process_running
  get_container_status is_container_running build_image get_or_create_container
  execute_java_app stop_java_app remove_container prepare_log_file read_logs
  st_button st_text_input st_number_input py_get unpack_pair
  _initialize_session_state _show_final_logs _render_stop_button _stream_live_logs
  _render_running_state _render_input_fields _execute_java_app _render_build_run_button
  render_java_container_section : program.

(** One step of the proof that a piece of the program emits only events that
    satisfy a predicate; [leaf] proves the predicate of one event. *)
Ltac emits_step leaf :=
  lazymatch goal with
  | |- emits (bind _ _) _ => apply emits_bind; [|intros ?]
  | |- emits (ret _) _ => apply emits_ret
  | |- emits (raise _) _ => apply emits_raise
  | |- emits st_rerun _ => apply emits_rerun
  | |- emits (emit _) _ => apply emits_emit; leaf
  | |- emits (ui _) _ => apply emits_ui; leaf
  | |- emits (try_except _ _) _ => apply emits_try_except; [|intros ?]
  | |- emits (try_except_bare _ _) _ => apply emits_try_except_bare
  | |- emits (call _ _) _ => apply emits_call; intros ?; leaf
  | |- emits (session_get _) _ => apply emits_session_get
  | |- emits (session_set _ _) _ => apply emits_session_set
  | |- emits (session_has _) _ => apply emits_session_has
  | |- emits (session_manager _) _ => apply emits_session_manager; intros ?; leaf
  | |- emits (do_fs _) _ => apply emits_do_fs; leaf
  | |- emits (os_path_exists _) _ => apply emits_os_path_exists; leaf
  | |- emits (os_remove _) _ => apply emits_os_remove; leaf
  | |- emits (json_load_from _) _ => apply emits_json_load_from; leaf
  | |- emits (time_sleep _ _) _ => apply emits_time_sleep; leaf
  | |- emits (datetime_now _) _ => apply emits_datetime_now; intros ?; leaf
  | |- emits (if ?b then _ else _) _ => destruct b
  | |- emits (match ?x with _ => _ end) _ => destruct x
  | |- emits _ _ => progress autounfold with program
  end.

Ltac env_leaf :=
  first [ exact I | left; reflexivity | right; do 2 eexists; split; [reflexivity|assumption] ].

Section EnvRange.

Context {W : Type} (P : Platform W).

Lemma _render_input_fields_in_range (inp : Inputs) :
  returns (@_render_input_fields W inp) (fun p => (1 <= snd p <= 400)%Z).
Proof.
  intros s [lm n] H. unfold _render_input_fields, st_text_input, st_number_input in H.
  unfold outcome_of in H. run. injection H as _ <-. simpl.
  destruct (iterations_entry inp) as [n|]; [|lia].
  destruct ((1 <=? n)%Z && (n <=? 400)%Z) eqn:E; [|lia].
  apply andb_true_iff in E. destruct E as [E1 E2].
  apply Z.leb_le in E1. apply Z.leb_le in E2. lia.
Qed.

Lemma launch_env_in_range (self : JavaContainerManager)
    (log_message : string) (iterations : Z) (inp : Inputs) :
  (1 <= iterations <= 400)%Z ->
  emits (_render_build_run_button P self log_message iterations inp) env_in_range.
Proof.
  intros Hn. repeat emits_step env_leaf.
Qed.

(** C9, as the code has it.  The number of iterations reaches the launch only
    through the input widget, which is declared with the bounds 1 and 400:
    whatever the browser sends and whatever the runtime answers, every
    environment that a script run hands to the runtime, with a container
    creation or with an exec, is empty or carries [ITERATIONS] as the decimal
    text of a number from 1 to 400. *)
Theorem iterations_reach_runtime_in_range (inp : Inputs) (s : @Sys W) :
  Forall env_in_range (events_of (render_java_container_section P inp s)).
Proof.
  revert s. change (emits (render_java_container_section P inp) env_in_range).
  unfold render_java_container_section.
  do 7 (apply emits_bind; [repeat emits_step env_leaf|intros ?]).
  eapply emits_bind_ret;
    [repeat emits_step env_leaf|apply _render_input_fields_in_range|].
  intros [lm n] Hn. apply launch_env_in_range. exact Hn.
Qed.

End EnvRange.

(** ** The poll *)

Section Justified.

Lemma loud_banner (name start_time : pyval) :
  ~ quiet (EvUi (UiInfo (MsgRunning name start_time))).
Proof. exact (fun H => H). Qed.

Lemma split_after_quiet (l1 l2 pre post : list event) (x : event) :
  Forall quiet l1 -> ~ quiet x ->
  l1 ++ l2 = pre ++ x :: post ->
  exists pre2, pre = l1 ++ pre2 /\ l2 = pre2 ++ x :: post.
Proof.
  intros Hq Hx. revert pre. induction Hq as [|a l1 Ha Hq IH]; intros pre E.
  - exists pre. split; [reflexivity|exact E].
  - destruct pre as [|p pre]; simpl in E; injection E as -> E.
    + contradiction.
    + destruct (IH pre E) as (pre2 & -> & ->). exists pre2. split; reflexivity.
Qed.

Lemma split_before_quiet (l1 l2 pre post : list event) (x : event) :
  Forall quiet l2 -> ~ quiet x ->
  l1 ++ l2 = pre ++ x :: post ->
  exists post1, l1 = pre ++ x :: post1.
Proof.
  intros Hq Hx. revert l1. induction pre as [|p pre IH]; intros l1 E.
  - destruct l1 as [|a l1]; simpl in E.
    + subst l2. inversion Hq; subst. contradiction.
    + injection E as -> E. exists l1. reflexivity.
  - destruct l1 as [|a l1]; simpl in E.
    + subst l2. inversion Hq as [|? ? _ Hq']; subst.
      apply Forall_app in Hq' as [_ Hq']. inversion Hq'; subst. contradiction.
    + injection E as -> E. destruct (IH l1 E) as (post1 & ->). exists post1. reflexivity.
Qed.

Lemma justified_quiet (t : list event) : Forall quiet t -> justified t.
Proof.
  intros Hq pre post name st E. subst t.
  apply Forall_app in Hq as [_ Hq]. inversion Hq; subst. contradiction.
Qed.

Lemma justified_app_l (t1 t2 : list event) :
  Forall quiet t1 -> justified t2 -> justified (t1 ++ t2).
Proof.
  intros Hq Hj pre post name st E.
  destruct (split_after_quiet _ _ _ _ _ Hq (loud_banner _ _) E) as (pre2 & -> & E2).
  destruct (Hj _ _ _ _ E2) as (pre' & c1 & c2 & out & -> & Hst).
  exists (t1 ++ pre'), c1, c2, out. split; [now rewrite <- app_assoc|exact Hst].
Qed.

Lemma justified_app_r (t1 t2 : list event) :
  justified t1 -> Forall quiet t2 -> justified (t1 ++ t2).
Proof.
  intros Hj Hq pre post name st E.
  destruct (split_before_quiet _ _ _ _ _ Hq (loud_banner _ _) E) as (post1 & E1).
  exact (Hj _ _ _ _ E1).
Qed.

Lemma justified_checked (name start_time : pyval) (c1 c2 : Container) (out : string)
    (post : list event) :
  status c1 = "running" -> Forall quiet post ->
  justified ([EvGet name (inr c1); EvGet name (inr c2);
              EvExec c2 pgrep_command false [] (inr (Some 0%Z, out))]
             ++ EvUi (UiInfo (MsgRunning name start_time)) :: post).
Proof.
  intros Hst Hq pre post' n st E.
  assert (Hq3 : Forall quiet [EvGet name (inr c1); EvGet name (inr c2);
                              EvExec c2 pgrep_command false [] (inr (Some 0%Z, out))])
    by (repeat constructor).
  destruct (split_after_quiet _ _ _ _ _ Hq3 (loud_banner _ _) E) as (pre2 & -> & E2).
  destruct pre2 as [|p pre2]; simpl in E2; inversion E2; subst.
  - exists [], c1, c2, out. split; [reflexivity|exact Hst].
  - apply Forall_app in Hq as [_ Hq]. inversion Hq; subst. contradiction.
Qed.

End Justified.

Ltac quiet_leaf := exact I.

Section Poll.

Context {W : Type} (P : Platform W).

Lemma py_or_truthy (x y : pyval) : truthy x = true -> py_or x y = x.
Proof. unfold py_or. now intros ->. Qed.

Lemma wp_quiet_tail {A} (m : @M W A) s (Q : outcome A -> @Sys W -> list event -> Prop) :
  emits m quiet -> (forall o s' t, Forall quiet t -> Q o s' t) -> wp m s Q.
Proof. intros Hm HQ. apply HQ. apply Hm. Qed.

Lemma is_container_running_eq (self : JavaContainerManager) (name : pyval) (s : @Sys W) :
  let target := py_or name (PyStr (container_name self)) in
  let r := fst (containers_get P target (world s)) in
  let w := snd (containers_get P target (world s)) in
  is_container_running P self name s
  = (Ret (match r with
          | inl _ => false
          | inr c => bool_decide (status c = "running")
          end),
     set_world w s, [EvGet target r]).
Proof.
  unfold is_container_running, get_container_status. run.
  destruct (containers_get P _ (world s)) as [[e|c] w]; simpl.
  - destruct (is_NotFound e); reflexivity.
  - do 2 f_equal. f_equal. apply bool_decide_ext. split; congruence.
Qed.

Lemma is_java_process_running_eq (self : JavaContainerManager) (name : pyval) (s : @Sys W) :
  let target := py_or name (PyStr (container_name self)) in
  let r := fst (containers_get P target (world s)) in
  let w := snd (containers_get P target (world s)) in
  is_java_process_running P self name s
  = match r with
    | inl _ => (Ret false, set_world w s, [EvGet target r])
    | inr c =>
        let r2 := fst (container_exec_run P c pgrep_command false [] w) in
        let w2 := snd (container_exec_run P c pgrep_command false [] w) in
        (Ret (match r2 with
              | inl _ => false
              | inr x => bool_decide (fst x = Some 0%Z)
              end),
         set_world w2 s, [EvGet target r; EvExec c pgrep_command false [] r2])
    end.
Proof.
  unfold is_java_process_running. run.
  destruct (containers_get P _ (world s)) as [[e|c] w]; simpl.
  - destruct (is_NotFound e); reflexivity.
  - destruct (container_exec_run P c _ _ _ w) as [[e|x] w2]; simpl.
    + destruct (is_NotFound e); reflexivity.
    + reflexivity.
Qed.

Lemma wp_is_container_running self name s
    (Q : outcome bool -> @Sys W -> list event -> Prop) :
  (forall r w, containers_get P (py_or name (PyStr (container_name self))) (world s) = (r, w) ->
     Q (Ret (match r with
             | inl _ => false
             | inr c => bool_decide (status c = "running")
             end))
       (set_world w s) [EvGet (py_or name (PyStr (container_name self))) r]) ->
  wp (is_container_running P self name) s Q.
Proof.
  intros H. unfold wp. rewrite is_container_running_eq. cbv zeta. wp_state.
  apply H. now destruct (containers_get P _ (world s)).
Qed.

Lemma wp_is_java_process_running self name s
    (Q : outcome bool -> @Sys W -> list event -> Prop) :
  let target := py_or name (PyStr (container_name self)) in
  (forall e w, containers_get P target (world s) = (inl e, w) ->
     Q (Ret false) (set_world w s) [EvGet target (inl e)]) ->
  (forall c w r2 w2,
     containers_get P target (world s) = (inr c, w) ->
     container_exec_run P c pgrep_command false [] w = (r2, w2) ->
     Q (Ret (match r2 with
             | inl _ => false
             | inr x => bool_decide (fst x = Some 0%Z)
             end))
       (set_world w2 s) [EvGet target (inr c); EvExec c pgrep_command false [] r2]) ->
  wp (is_java_process_running P self name) s Q.
Proof.
  cbv zeta. intros H1 H2. unfold wp. rewrite is_java_process_running_eq. cbv zeta.
  destruct (containers_get P _ (world s)) as [[e|c] w] eqn:E; wp_state.
  - now apply H1.
  - apply (H2 c w); [reflexivity|]. now destruct (container_exec_run P c _ _ _ w).
Qed.

Lemma quiet_stop_button self inp : emits (_render_stop_button P self inp) quiet.
Proof. repeat emits_step quiet_leaf. Qed.

Lemma quiet_stream_live_logs self : emits (_stream_live_logs P self) quiet.
Proof. repeat emits_step quiet_leaf. Qed.

Lemma quiet_show_final_logs self : emits (_show_final_logs P self) quiet.
Proof. repeat emits_step quiet_leaf. Qed.

Lemma quiet_clear self : emits (@clear_process_state W self) quiet.
Proof. repeat emits_step quiet_leaf. Qed.

Lemma quiet_initialize self : emits (@_initialize_session_state W self) quiet.
Proof. repeat emits_step quiet_leaf. Qed.

Lemma quiet_input_fields inp : emits (@_render_input_fields W inp) quiet.
Proof. repeat emits_step quiet_leaf. Qed.

Lemma quiet_build_run_button self lm n inp :
  emits (_render_build_run_button P self lm n inp) quiet.
Proof. repeat emits_step quiet_leaf. Qed.

End Poll.

Section PollOutcome.

Context {W : Type} (P : Platform W).

Lemma poll_justified self inp name (s : @Sys W) :
  session s !! "container_name" = Some name ->
  truthy name = true ->
  wp (_render_running_state P self inp) s (fun _ _ t => justified t).
Proof.
  intros Hname Htr. unfold _render_running_state.
  do 2 wp_step.
  apply wp_bind, wp_is_container_running. rewrite (py_or_truthy _ _ Htr).
  intros r w Hget. cbv beta iota.
  destruct r as [e|c1]; cbv iota.
  { cbn [negb]. cbv iota. apply wp_quiet_tail; [repeat emits_step quiet_leaf|].
    intros o s' t Ht. apply justified_quiet. now constructor. }
  destruct (bool_decide (status c1 = "running")) eqn:Hst; cbn [negb]; cbv iota.
  2:{ apply wp_quiet_tail; [repeat emits_step quiet_leaf|].
      intros o s' t Ht. apply justified_quiet. now constructor. }
  apply bool_decide_eq_true in Hst.
  do 2 wp_step.
  apply wp_bind, wp_is_java_process_running; rewrite (py_or_truthy _ _ Htr).
  { intros e w2 Hget2. cbv beta iota. cbn [negb]. cbv iota.
    apply wp_quiet_tail; [repeat emits_step quiet_leaf|].
    intros o s' t Ht. apply justified_quiet. repeat constructor. exact Ht. }
  intros c2 w2 r2 w3 Hget2 Hexec. cbv beta iota.
  destruct r2 as [e|[code out]]; cbn [negb fst]; cbv iota.
  { apply wp_quiet_tail; [repeat emits_step quiet_leaf|].
    intros o s' t Ht. apply justified_quiet. repeat constructor. exact Ht. }
  destruct (bool_decide (code = Some 0%Z)) eqn:Hcode; cbn [negb]; cbv iota.
  2:{ apply wp_quiet_tail; [repeat emits_step quiet_leaf|].
      intros o s' t Ht. apply justified_quiet. repeat constructor. exact Ht. }
  apply bool_decide_eq_true in Hcode. subst code.
  do 2 wp_step.
  apply wp_bind, wp_session_get. wp_state.
  destruct (session s !! "start_time") as [st|]; cbv beta iota.
  2:{ apply justified_quiet. repeat constructor. }
  wp_step. wp_step.
  apply wp_quiet_tail.
  { apply emits_bind; [apply quiet_stop_button|intros _; apply quiet_stream_live_logs]. }
  intros o s' t Ht. cbn [app].
  apply (justified_checked name st c1 c2 out t Hst Ht).
Qed.

Lemma poll_clears self inp name (s : @Sys W) :
  session s !! "container_name" = Some name ->
  ground_truth_running P self name s = false ->
  wp (_render_running_state P self inp) s
    (fun o s' t =>
       session s' = <["is_running" := PyBool false]> (session s)
       /\ fs s' = delete (state_file self) (fs s)
       /\ java_manager s' = java_manager s
       /\ Forall quiet t
       /\ exists pre m rest,
           t = pre ++ EvUi m :: clear_trace self (fs s) ++ rest
           /\ is_completed_report (EvUi m) = true
           /\ Forall (fun ev => is_gateway ev = true) pre
           /\ Forall (fun ev => is_report ev = false) rest).
Proof.
  intros Hname Hgt. unfold ground_truth_running in Hgt.
  rewrite is_container_running_eq in Hgt. cbv zeta in Hgt.
  unfold _render_running_state.
  do 2 wp_step.
  apply wp_bind, wp_is_container_running.
  intros r w Hget. rewrite Hget in Hgt. cbn [fst snd] in Hgt. cbv beta iota.
  assert (Hleaf : forall (b : bool) (pre : list event) (m : ui_event) (s1 : @Sys W),
    fs s1 = fs s -> session s1 = session s -> java_manager s1 = java_manager s ->
    Forall (fun ev => is_gateway ev = true) pre ->
    is_completed_report (EvUi m) = true ->
    wp (bind (@session_set W "is_running" (PyBool false))
          (fun _ => bind (clear_process_state self) (fun _ => _show_final_logs P self))) s1
      (fun o s' t =>
         session s' = <["is_running" := PyBool false]> (session s)
         /\ fs s' = delete (state_file self) (fs s)
         /\ java_manager s' = java_manager s
         /\ Forall quiet (pre ++ [EvUi m] ++ t)
         /\ exists pre0 m0 rest,
             pre ++ [EvUi m] ++ t = pre0 ++ EvUi m0 :: clear_trace self (fs s) ++ rest
             /\ is_completed_report (EvUi m0) = true
             /\ Forall (fun ev => is_gateway ev = true) pre0
             /\ Forall (fun ev => is_report ev = false) rest)).
  { intros b pre m s1 Hfs Hss Hjm Hpre Hm.
    assert (Hq1 : Forall quiet pre).
    { revert Hpre. apply List.Forall_impl. intros [] Hev; try exact I; discriminate Hev. }
    assert (Hq2 : quiet (EvUi m)).
    { destruct m as [| |[]|[]|[]|[]| | | | | | |]; try exact I; discriminate Hm. }
    unfold _show_final_logs, read_logs.
    repeat wp_step.
    all: wp_state; cbn [app]; rewrite ?Hfs, ?Hss, ?Hjm.
    all: split; [reflexivity|]; split; [reflexivity|]; split; [reflexivity|].
    all: split;
      [ apply Forall_app; split; [exact Hq1|];
        apply List.Forall_cons; [exact Hq2|solve_Forall]
      | exists pre, m; eexists; split; [reflexivity|];
        split; [assumption|]; split; [assumption|solve_Forall] ]. }
  destruct r as [e|c1]; cbv iota.
  { cbn [negb]. cbv iota. do 4 wp_step.
    eapply wp_mono;
      [apply (Hleaf true [EvGet (py_or name (PyStr (container_name self))) (inl e)]
                (UiWarning (MsgContainerNotRunning name)));
       [reflexivity|reflexivity|reflexivity|repeat constructor|reflexivity]|].
    intros o s' t H. cbn [app] in *. exact H. }
  destruct (bool_decide (status c1 = "running")) eqn:Hst; cbn [negb]; cbv iota.
  2:{ do 4 wp_step.
      eapply wp_mono;
        [apply (Hleaf true [EvGet (py_or name (PyStr (container_name self))) (inr c1)]
                  (UiWarning (MsgContainerNotRunning name)));
         [reflexivity|reflexivity|reflexivity|repeat constructor|reflexivity]|].
      intros o s' t H. cbn [app] in *. exact H. }
  rewrite is_java_process_running_eq in Hgt. cbv zeta in Hgt. wp_state.
  cbn [world set_world] in Hgt.
  do 2 wp_step.
  apply wp_bind, wp_is_java_process_running.
  { intros e w2 Hget2. cbv beta iota. cbn [negb]. cbv iota.
    do 4 wp_step.
    eapply wp_mono;
      [apply (Hleaf true [EvGet (py_or name (PyStr (container_name self))) (inr c1);
                          EvGet (py_or name (PyStr (container_name self))) (inl e)]
                (UiSuccess (MsgCompleted name)));
       [reflexivity|reflexivity|reflexivity|repeat constructor|reflexivity]|].
    intros o s' t H. cbn [app] in *. exact H. }
  intros c2 w2 r2 w3 Hget2 Hexec. cbv beta iota.
  wp_state. cbn [world set_world] in Hget2.
  rewrite Hget2 in Hgt. cbn [fst snd] in Hgt. rewrite Hexec in Hgt.
  cbn [fst snd] in Hgt.
  assert (Hprobe : forall r2' : result (option Z * string),
    wp (bind (@session_get W "container_name")
          (fun name1 =>
             bind (ui (UiSuccess (MsgCompleted name1)))
               (fun _ => bind (session_set "is_running" (PyBool false))
                  (fun _ => bind (clear_process_state self)
                     (fun _ => _show_final_logs P self)))))
      (set_world w3 (set_world w s))
      (fun _ s2 t2 =>
         session s2 = <["is_running" := PyBool false]> (session s)
         /\ fs s2 = delete (state_file self) (fs s)
         /\ java_manager s2 = java_manager s
         /\ Forall quiet
              ([] ++ [EvGet (py_or name (PyStr (container_name self))) (inr c1)] ++
               [] ++ [EvGet (py_or name (PyStr (container_name self))) (inr c2);
                      EvExec c2 pgrep_command false [] r2'] ++ t2)
         /\ exists pre m rest,
              [] ++ [EvGet (py_or name (PyStr (container_name self))) (inr c1)] ++
              [] ++ [EvGet (py_or name (PyStr (container_name self))) (inr c2);
                     EvExec c2 pgrep_command false [] r2'] ++ t2
              = pre ++ EvUi m :: clear_trace self (fs s) ++ rest
              /\ is_completed_report (EvUi m) = true
              /\ Forall (fun ev => is_gateway ev = true) pre
              /\ Forall (fun ev => is_report ev = false) rest)).
  { intros r2'. do 4 wp_step.
    eapply wp_mono;
      [apply (Hleaf true [EvGet (py_or name (PyStr (container_name self))) (inr c1);
                          EvGet (py_or name (PyStr (container_name self))) (inr c2);
                          EvExec c2 pgrep_command false [] r2']
                (UiSuccess (MsgCompleted name)));
       [reflexivity|reflexivity|reflexivity|repeat constructor|reflexivity]|].
    intros o s' t H; cbn [app] in *; exact H. }
  destruct r2 as [e|x]; [cbn [negb]|rewrite Hgt; cbn [negb]]; cbv iota; apply Hprobe.
Qed.

End PollOutcome.

Section ReadCycle.

Context {W : Type} (P : Platform W).

Lemma wp_bind_quiet {A B} (m : @M W A) (f : A -> M B) s :
  emits m quiet ->
  (forall a s1, wp (f a) s1 (fun _ _ t => justified t)) ->
  wp (bind m f) s (fun _ _ t => justified t).
Proof.
  intros Hm Hf. apply wp_bind, wp_quiet_tail; [exact Hm|].
  intros [a|e|] s1 t1 Ht.
  - eapply wp_mono; [apply Hf|]. intros o2 s2 t2 Hj. now apply justified_app_l.
  - now apply justified_quiet.
  - now apply justified_quiet.
Qed.

Lemma wp_bind_justified {A B} (m : @M W A) (f : A -> M B) s :
  wp m s (fun _ _ t => justified t) ->
  (forall a, emits (f a) quiet) ->
  wp (bind m f) s (fun _ _ t => justified t).
Proof.
  intros Hm Hf. apply wp_bind. eapply wp_mono; [exact Hm|].
  intros [a|e|] s1 t1 Hj; try exact Hj.
  apply wp_quiet_tail; [apply Hf|]. intros o2 s2 t2 Ht. now apply justified_app_r.
Qed.

Lemma quiet_rest self inp :
  emits (bind (@_render_input_fields W inp)
           (fun p => let '(log_message, iterations) := p in
                     _render_build_run_button P self log_message iterations inp)) quiet.
Proof.
  apply emits_bind; [apply quiet_input_fields|]. intros [lm n].
  apply quiet_build_run_button.
Qed.

Lemma cycle_justified (inp : Inputs) (s : @Sys W) :
  wp (render_java_container_section P inp) s (fun _ _ t => justified t).
Proof.
  unfold render_java_container_section.
  apply wp_bind_quiet; [repeat emits_step quiet_leaf|]. intros _ s1.
  apply wp_bind_quiet; [repeat emits_step quiet_leaf|]. intros _ s2.
  apply wp_bind_quiet; [repeat emits_step quiet_leaf|]. intros manager s3.
  apply wp_bind_quiet; [apply quiet_initialize|]. intros _ s4.
  apply wp_bind, wp_session_get.
  destruct (session s4 !! "is_running") as [is_running|]; [|apply justified_quiet; constructor].
  cbv beta iota. apply wp_bind.
  destruct (truthy is_running).
  2:{ apply wp_ret. cbv beta iota.
      apply wp_quiet_tail; [|intros; now apply justified_quiet].
      apply emits_bind; [repeat emits_step quiet_leaf|intros _; apply quiet_rest]. }
  apply wp_bind, wp_session_get.
  destruct (session s4 !! "container_name") as [name|] eqn:Hname;
    [|apply justified_quiet; constructor].
  cbv beta iota. apply wp_ret. cbv beta iota.
  destruct (truthy name) eqn:Htr.
  2:{ apply wp_quiet_tail; [|intros; now apply justified_quiet].
      apply emits_bind; [repeat emits_step quiet_leaf|intros _; apply quiet_rest]. }
  cbn [app].
  apply wp_bind_justified; [now apply (poll_justified P manager inp name)|].
  intros _. apply quiet_rest.
Qed.

(** C1, as the code has it.  In a script run, the announcement that the run
    is active comes only right after a lookup of the announced container that
    found it with status ['running'] and a probe in it that returned exit
    code 0, both made in that run.  When a poll finds that either check
    fails, it shows the report that the run is over and then, in the same
    poll, unsets the belief and removes the state file; it shows the final
    logs after that and never announces the run as active. *)
Theorem active_report_is_revalidated (inp : Inputs) :
  (forall (s s' : @Sys W) o t,
     render_java_container_section P inp s = (o, s', t) -> justified t)
  /\ (forall self name (s s' : @Sys W) o t,
        session s !! "container_name" = Some name ->
        ground_truth_running P self name s = false ->
        _render_running_state P self inp s = (o, s', t) ->
        session s' = <["is_running" := PyBool false]> (session s)
        /\ fs s' = delete (state_file self) (fs s)
        /\ Forall quiet t
        /\ exists pre m rest,
            t = pre ++ EvUi m :: clear_trace self (fs s) ++ rest
            /\ is_completed_report (EvUi m) = true
            /\ Forall (fun ev => is_gateway ev = true) pre
            /\ Forall (fun ev => is_report ev = false) rest).
Proof.
  split.
  - intros s s' o t Hrun. exact (wp_elim _ _ _ _ _ _ (cycle_justified inp s) Hrun).
  - intros self name s s' o t Hname Hgt Hrun.
    destruct (wp_elim _ _ _ _ _ _ (poll_clears P self inp name s Hname Hgt) Hrun)
      as (Hss & Hfs & _ & Hq & Hex).
    auto.
Qed.

End ReadCycle.

(** ** The round trip of the persisted state *)

Section RoundTrip.

Context {W : Type} (P : Platform W).

Lemma state_dict_truthy (pid lf st ir cn : pyval) : truthy (state_dict pid lf st ir cn) = true.
Proof.
  unfold state_dict, truthy. rewrite bool_decide_eq_false_2; [reflexivity|].
  apply map_size_non_empty_iff, insert_non_empty.
Qed.

Lemma wp_session_manager s (Q : outcome JavaContainerManager -> @Sys W -> list event -> Prop) :
  match java_manager s with
  | Some m => Q (Ret m) s []
  | None =>
      match from_env P (world s) with
      | (inr u, w) =>
          Q (Ret (JavaContainerManager_init P default_container_name))
            (set_java_manager (Some (JavaContainerManager_init P default_container_name))
               (set_world w s))
            [EvFromEnv (inr u)]
      | (inl e, w) => Q (Raise e) (set_world w s) [EvFromEnv (inl e)]
      end
  end ->
  wp (session_manager P) s Q.
Proof.
  unfold wp, session_manager, outcome_of, state_of, events_of.
  destruct (java_manager s); [exact id|].
  unfold JavaContainerManager_new, set_session_manager, bind, call, ret.
  destruct (from_env P (world s)) as [[e|u] w]; exact id.
Qed.

Lemma wp_os_path_exists p s (Q : outcome bool -> @Sys W -> list event -> Prop) :
  Q (Ret (bool_decide (is_Some (fs s !! p)))) s [EvFs (FsExists p)] ->
  wp (os_path_exists p) s Q.
Proof. exact id. Qed.

Lemma wp_json_load_from p s (Q : outcome pyval -> @Sys W -> list event -> Prop) :
  Q (match fs s !! p with
     | Some (Whole v) => Ret v
     | Some Torn => Raise {| exn_class_of := JSONDecodeError; exn_msg := "Expecting value" |}
     | None => Raise {| exn_class_of := OSError; exn_msg := "No such file or directory" |}
     end) s [EvFs (FsOpenRead p)] ->
  wp (json_load_from p) s Q.
Proof. exact id. Qed.

Lemma state_dict_lookups (pid lf st ir cn : pyval) (m : gmap string pyval) :
  PyDict m = state_dict pid lf st ir cn ->
  m !! "pid" = Some pid /\ m !! "is_running" = Some ir /\ m !! "log_file" = Some lf
  /\ m !! "start_time" = Some st /\ m !! "container_name" = Some cn.
Proof.
  unfold state_dict. intros [= ->].
  repeat split; repeat (rewrite lookup_insert_ne by done); apply lookup_insert_eq.
Qed.

Lemma wp_initialize_from_file self (pid lf st ir cn : pyval) (s : @Sys W)
    (Q : outcome unit -> @Sys W -> list event -> Prop) :
  session s !! "process_pid" = None ->
  fs s !! state_file self = Some (Whole (state_dict pid lf st ir cn)) ->
  Q (Ret tt)
    (set_session
       (<["container_name" := cn]>
        (<["start_time" := st]>
        (<["log_file" := lf]>
        (<["is_running" := ir]>
        (<["process_pid" := pid]> (session s)))))) s)
    [EvFs (FsExists (state_file self)); EvFs (FsOpenRead (state_file self))] ->
  wp (@_initialize_session_state W self) s Q.
Proof.
  intros Hpid Hfile HQ.
  unfold _initialize_session_state, load_process_state.
  apply wp_bind, wp_session_has. rewrite Hpid.
  rewrite bool_decide_eq_false_2 by (intros [? ?]; discriminate).
  cbn [negb]. cbv beta iota.
  apply wp_bind, wp_bind, wp_os_path_exists. rewrite Hfile.
  rewrite bool_decide_eq_true_2 by eauto. cbv beta iota.
  apply wp_try_except_bare, wp_json_load_from. rewrite Hfile. cbv beta iota.
  rewrite state_dict_truthy. cbv iota.
  destruct (state_dict pid lf st ir cn) as [| | | | |m] eqn:Hm; try discriminate Hm.
  destruct (state_dict_lookups pid lf st ir cn m (eq_sym Hm)) as (H1 & H2 & H3 & H4 & H5).
  unfold py_get. rewrite H1, H2, H3, H4, H5. cbn [default].
  repeat wp_step. wp_state. cbn [app]. exact HQ.
Qed.

Lemma launch_persists self lm n inp (s : @Sys W) :
  wp (_render_build_run_button P self lm n inp) s
    (fun o s' t =>
       o = Rerun ->
       exists start_time,
         fs s' = <[state_file self :=
                    Whole (state_dict PyNone
                             (PyStr (os_path_join (os_path_join (getcwd P) "java_app")
                                       "app_host.log"))
                             (PyStr start_time) (PyBool true)
                             (PyStr (container_name self)))]> (fs s)).
Proof.
  unfold _render_build_run_button, st_button, prepare_log_file, build_image.
  repeat wp_step.
  all: try (intros Hr; discriminate Hr).
  all: eapply wp_mono; [apply _execute_java_app_cases|]; cbv beta.
  all: intros o s' t [(-> & (start & Hfs & _) & _)|(-> & _)] Hr; [|discriminate Hr].
  all: exists start; rewrite Hfs; reflexivity.
Qed.

Lemma filter_none {A} (f : A -> bool) (l : list A) :
  Forall (fun x => f x = false) l -> List.filter f l = [].
Proof.
  induction 1 as [|x l Hx _ IH]; [reflexivity|]. simpl. now rewrite Hx.
Qed.

Lemma poll_active self inp name start_time (s : @Sys W) :
  stop_clicked inp = false ->
  session s !! "container_name" = Some name ->
  session s !! "start_time" = Some start_time ->
  ground_truth_running P self name s = true ->
  wp (_render_running_state P self inp) s
    (fun o s' t =>
       session s' = session s /\ fs s' = fs s /\ java_manager s' = java_manager s
       /\ Exists (fun ev => is_active_report ev = true) t
       /\ Forall (fun ev => is_completed_report ev = false) t).
Proof.
  intros Hstop Hname Hstart Hgt. unfold ground_truth_running in Hgt.
  rewrite is_container_running_eq in Hgt. cbv zeta in Hgt.
  unfold _render_running_state.
  do 2 wp_step.
  apply wp_bind, wp_is_container_running.
  intros r w Hget. rewrite Hget in Hgt. cbn [fst snd] in Hgt. cbv beta iota.
  destruct r as [e|c1]; [discriminate Hgt|].
  destruct (bool_decide (status c1 = "running")) eqn:Hst; [|discriminate Hgt].
  cbn [negb]. cbv iota.
  rewrite is_java_process_running_eq in Hgt. cbv zeta in Hgt.
  cbn [world set_world] in Hgt.
  do 2 wp_step.
  apply wp_bind, wp_is_java_process_running.
  { intros e w2 Hget2. cbn [world set_world] in Hget2. rewrite Hget2 in Hgt.
    discriminate Hgt. }
  intros c2 w2 r2 w3 Hget2 Hexec. cbn [world set_world] in Hget2.
  rewrite Hget2 in Hgt. cbn [fst snd] in Hgt. rewrite Hexec in Hgt. cbn [fst snd] in Hgt.
  cbv beta iota.
  destruct r2 as [e|x]; [discriminate Hgt|]. rewrite Hgt. cbn [negb]. cbv iota.
  unfold _render_stop_button, st_button, _stream_live_logs, read_logs. rewrite Hstop.
  repeat wp_step.
  all: wp_state; cbn [app].
  all: split; [reflexivity|]; split; [reflexivity|]; split; [reflexivity|].
  all: split; [solve_Exists|solve_Forall].
Qed.

Lemma idle_cycle self inp (s : @Sys W) :
  java_manager s = Some self ->
  is_Some (session s !! "process_pid") ->
  session s !! "is_running" = Some (PyBool false) ->
  run_clicked inp = false ->
  wp (render_java_container_section P inp) s
    (fun o s' t =>
       Forall (fun ev => is_report ev = false) t
       /\ fs s' = delete (state_file self) (fs s)).
Proof.
  intros Hjm Hpid Hrun Hclick.
  unfold render_java_container_section, _initialize_session_state, _render_input_fields,
    st_text_input, st_number_input, _render_build_run_button, st_button.
  do 4 wp_step. apply wp_bind, wp_session_manager. rewrite Hjm. cbv beta iota.
  apply wp_bind, wp_bind, wp_session_has.
  rewrite bool_decide_eq_true_2 by assumption. cbn [negb]. cbv beta iota.
  rewrite Hclick.
  repeat wp_step.
  wp_state. cbn [app]. split; [solve_Forall|reflexivity].
Qed.

Lemma Forall_gateway_not_completed (l : list event) :
  Forall (fun ev => is_gateway ev = true) l ->
  Forall (fun ev => is_completed_report ev = false) l.
Proof. apply List.Forall_impl. intros [] H; try reflexivity; discriminate H. Qed.

Lemma Forall_unreported_not_completed (l : list event) :
  Forall (fun ev => is_report ev = false) l ->
  Forall (fun ev => is_completed_report ev = false) l.
Proof.
  apply List.Forall_impl.
  intros [| | | | | | | | | | | | | |[| |[]|[]| | | | | | | | |]] H;
    try reflexivity; discriminate H.
Qed.

Lemma Forall_quiet_not_active (l : list event) :
  Forall quiet l -> Forall (fun ev => is_active_report ev = false) l.
Proof.
  apply List.Forall_impl.
  intros [| | | | | | | | | | | | | |[| | | |[]| | | | | | | |]] H;
    try reflexivity; destruct H.
Qed.

Lemma completed_once (self : JavaContainerManager) (f : gmap string file_content)
    (pre rest : list event) (m : ui_event) :
  is_completed_report (EvUi m) = true ->
  Forall (fun ev => is_gateway ev = true) pre ->
  Forall (fun ev => is_report ev = false) rest ->
  List.filter is_completed_report (pre ++ EvUi m :: clear_trace self f ++ rest) = [EvUi m].
Proof.
  intros Hm Hpre Hrest.
  rewrite List.filter_app. rewrite (filter_none _ pre (Forall_gateway_not_completed _ Hpre)).
  cbn [app List.filter]. rewrite Hm. f_equal.
  rewrite List.filter_app. rewrite (filter_none _ rest (Forall_unreported_not_completed _ Hrest)).
  unfold clear_trace. destruct (bool_decide _); reflexivity.
Qed.

(** The two checks of the poll answer what the runtime answers. *)
Lemma ground_truth_running_runtime self name (s : @Sys W) :
  truthy name = true ->
  ground_truth_running P self name s = runtime_says_running P name (world s).
Proof.
  intros Htr. unfold ground_truth_running, runtime_says_running.
  rewrite is_container_running_eq. cbv zeta. rewrite (py_or_truthy _ _ Htr).
  destruct (containers_get P name (world s)) as [[e|c] w1]; cbn [fst snd]; [reflexivity|].
  destruct (String.eqb_spec (status c) "running") as [Hst|Hst].
  2:{ rewrite bool_decide_eq_false_2 by exact Hst. reflexivity. }
  rewrite bool_decide_eq_true_2 by exact Hst. cbn [andb].
  rewrite is_java_process_running_eq. cbv zeta. rewrite (py_or_truthy _ _ Htr).
  cbn [world set_world].
  destruct (containers_get P name w1) as [[e|c2] w2]; cbn [fst snd]; [reflexivity|].
  destruct (container_exec_run P c2 pgrep_command false [] w2) as [[e|[code out]] w3];
    cbn [fst snd]; [reflexivity|].
  destruct code as [code|].
  - destruct (Z.eqb_spec code 0) as [->|Hne].
    + now rewrite bool_decide_eq_true_2.
    + rewrite bool_decide_eq_false_2; [reflexivity|]. intros [= H]. contradiction.
  - now rewrite bool_decide_eq_false_2.
Qed.

Lemma fresh_cycle (start_time : string) (s : @Sys W) (w0 : W) :
  let self := JavaContainerManager_init P default_container_name in
  let name := PyStr default_container_name in
  let log_file := os_path_join (os_path_join (getcwd P) "java_app") "app_host.log" in
  session s = ∅ ->
  java_manager s = None ->
  from_env P (world s) = (inr tt, w0) ->
  fs s !! state_file self
    = Some (Whole (state_dict PyNone (PyStr log_file) (PyStr start_time) (PyBool true) name)) ->
  wp (render_java_container_section P no_input) s
    (fun o s' t =>
       if runtime_says_running P name w0 then
         session s' !! "is_running" = Some (PyBool true)
         /\ fs s' = fs s
         /\ Exists (fun ev => is_active_report ev = true) t
         /\ Forall (fun ev => is_completed_report ev = false) t
       else
         session s' !! "is_running" = Some (PyBool false)
         /\ fs s' !! state_file self = None
         /\ length (List.filter is_completed_report t) = 1%nat
         /\ Forall (fun ev => is_active_report ev = false) t
         /\ forall w' inp',
              run_clicked inp' = false ->
              let r' := render_java_container_section P inp' (set_world w' s') in
              Forall (fun ev => is_report ev = false) (events_of r')
              /\ fs (state_of r') !! state_file self = None).
Proof.
  cbv zeta. intros Hss Hjm Henv Hfile.
  set (self := JavaContainerManager_init P default_container_name) in *.
  set (name := PyStr default_container_name) in *.
  unfold render_java_container_section.
  do 4 wp_step. apply wp_bind, wp_session_manager. rewrite Hjm, Henv. fold self.
  cbv beta iota.
  apply wp_bind.
  eapply (wp_initialize_from_file self); [wp_state; rewrite Hss; apply lookup_empty|exact Hfile|].
  cbv beta iota.
  do 2 wp_step. change (truthy (PyBool true)) with true. cbv iota.
  do 4 wp_step. change (truthy (PyStr (container_name self))) with true. cbv iota.
  cbn [app].
  match goal with |- wp _ ?s1 _ => set (sp := s1) end.
  assert (Hgw : runtime_says_running P name w0 = ground_truth_running P self name sp)
    by (symmetry; apply (ground_truth_running_runtime self name sp eq_refl)).
  rewrite Hgw.
  assert (Hname : session sp !! "container_name" = Some name) by apply lookup_insert_eq.
  assert (Hstart : session sp !! "start_time" = Some (PyStr start_time)).
  { unfold sp. wp_state. rewrite lookup_insert_ne by done. apply lookup_insert_eq. }
  assert (Hrest : forall (sq : @Sys W),
    wp (bind (@_render_input_fields W no_input)
          (fun p => let '(lm, n) := p in _render_build_run_button P self lm n no_input)) sq
      (fun o s' t =>
         session s' = session sq /\ fs s' = fs sq /\ java_manager s' = java_manager sq
         /\ Forall (fun ev => is_report ev = false) t)).
  { intros sq. unfold _render_input_fields, st_text_input, st_number_input,
      _render_build_run_button, st_button. cbn [run_clicked no_input].
    repeat wp_step. all: wp_state; cbn [app].
    all: repeat split; solve_Forall. }
  apply wp_bind.
  destruct (ground_truth_running P self name sp) eqn:Hgt.
  - eapply wp_mono;
      [apply (poll_active self no_input name (PyStr start_time) sp eq_refl Hname Hstart Hgt)|].
    intros o s1 t1 (Hs1 & Hf1 & Hj1 & Hex & Hall).
    assert (Hrun : session s1 !! "is_running" = Some (PyBool true)).
    { rewrite Hs1. unfold sp. wp_state.
      do 3 (rewrite lookup_insert_ne by done). apply lookup_insert_eq. }
    assert (Hpre : forall t2, Forall (fun ev => is_completed_report ev = false) t2 ->
      Exists (fun ev => is_active_report ev = true)
        (EvUi UiTitle :: EvUi UiMarkdown :: EvFromEnv (inr tt)
         :: EvFs (FsExists (state_file self))
         :: EvFs (FsOpenRead (state_file self)) :: t1 ++ t2)
      /\ Forall (fun ev => is_completed_report ev = false)
           (EvUi UiTitle :: EvUi UiMarkdown :: EvFromEnv (inr tt)
            :: EvFs (FsExists (state_file self))
            :: EvFs (FsOpenRead (state_file self)) :: t1 ++ t2)).
    { intros t2 Ht2. split.
      - do 5 apply List.Exists_cons_tl. apply Exists_app. now left.
      - do 5 (apply List.Forall_cons; [reflexivity|]). apply Forall_app. now split. }
    destruct o as [[]| |].
    + eapply wp_mono; [apply Hrest|]. intros o2 s2 t2 (Hs2 & Hf2 & _ & Hq2).
      split; [now rewrite Hs2|]. split; [now rewrite Hf2, Hf1|].
      apply Hpre. now apply Forall_unreported_not_completed.
    + split; [exact Hrun|]. split; [exact Hf1|].
      rewrite <- (app_nil_r t1). apply Hpre. constructor.
    + split; [exact Hrun|]. split; [exact Hf1|].
      rewrite <- (app_nil_r t1). apply Hpre. constructor.
  - eapply wp_mono; [apply (poll_clears P self no_input name sp Hname Hgt)|].
    intros o s1 t1 (Hs1 & Hf1 & Hj1 & Hq1 & pre & m & rest & -> & Hm & Hpre & Hrest1).
    assert (Hrun : session s1 !! "is_running" = Some (PyBool false))
      by (rewrite Hs1; apply lookup_insert_eq).
    assert (Hgone : fs s1 !! state_file self = None)
      by (rewrite Hf1; apply lookup_delete_eq).
    assert (Hpid : is_Some (session s1 !! "process_pid")).
    { rewrite Hs1. unfold sp. wp_state.
      repeat (rewrite lookup_insert_ne by done). rewrite lookup_insert_eq. eauto. }
    assert (Hpost : forall s2 t2,
      session s2 = session s1 -> fs s2 = fs s1 -> java_manager s2 = java_manager s1 ->
      Forall (fun ev => is_report ev = false) t2 ->
      session s2 !! "is_running" = Some (PyBool false)
      /\ fs s2 !! state_file self = None
      /\ length (List.filter is_completed_report
                   (EvUi UiTitle :: EvUi UiMarkdown :: EvFromEnv (inr tt)
                    :: EvFs (FsExists (state_file self))
                    :: EvFs (FsOpenRead (state_file self))
                    :: (pre ++ EvUi m :: clear_trace self (fs sp) ++ rest) ++ t2)) = 1%nat
      /\ Forall (fun ev => is_active_report ev = false)
           (EvUi UiTitle :: EvUi UiMarkdown :: EvFromEnv (inr tt)
            :: EvFs (FsExists (state_file self))
            :: EvFs (FsOpenRead (state_file self))
            :: (pre ++ EvUi m :: clear_trace self (fs sp) ++ rest) ++ t2)
      /\ forall w' inp',
           run_clicked inp' = false ->
           let r' := render_java_container_section P inp' (set_world w' s2) in
           Forall (fun ev => is_report ev = false) (events_of r')
           /\ fs (state_of r') !! state_file self = None).
    { intros s2 t2 Hs2 Hf2 Hj2 Ht2.
      split; [now rewrite Hs2|]. split; [now rewrite Hf2|]. split; [|split].
      - cbn [List.filter is_completed_report]. rewrite List.filter_app.
        rewrite (completed_once self (fs sp) pre rest m Hm Hpre Hrest1).
        now rewrite (filter_none _ t2 (Forall_unreported_not_completed _ Ht2)).
      - do 5 (apply List.Forall_cons; [reflexivity|]). apply Forall_app. split.
        + now apply Forall_quiet_not_active.
        + revert Ht2. apply List.Forall_impl.
          intros [| | | | | | | | | | | | | |[| | | |[]| | | | | | | |]] H;
            try reflexivity; discriminate H.
      - intros w' inp' Hclick. cbv zeta.
        pose proof (idle_cycle self inp' (set_world w' s2)) as Hidle.
        unfold wp in Hidle. wp_state.
        destruct Hidle as [Hq Hfs'].
        + wp_state. now rewrite Hj2, Hj1.
        + wp_state. now rewrite Hs2.
        + wp_state. now rewrite Hs2.
        + exact Hclick.
        + split; [exact Hq|]. rewrite Hfs'. apply lookup_delete_eq. }
    destruct o as [[]| |].
    + eapply wp_mono; [apply Hrest|]. intros o2 s2 t2 (Hs2 & Hf2 & Hj2 & Hq2).
      now apply Hpost.
    + rewrite <- (app_nil_r (pre ++ _)). apply Hpost; auto.
    + rewrite <- (app_nil_r (pre ++ _)). apply Hpost; auto.
Qed.

(** C4.  After a launch that succeeded, the state file holds the persisted
    state.  A controller that starts afterwards with an empty session, in
    whatever state the runtime is by then, and that gets its Docker client,
    reads the state back and polls once.  Ground truth is what the runtime
    itself answers to the lookup of the container and to the probe in it, in
    the world the client was created in.  If it says that the container is
    running and the workload is there, the belief is active, the state file
    is kept and the run is announced as active, with no report of completion;
    otherwise the belief is unset, the state file is removed and completion
    is reported exactly once in that script run, and a later script run
    without a launch reports nothing and leaves no state file. *)
Theorem persisted_state_round_trip
    (log_message : string) (iterations : Z) (inp : Inputs)
    (s0 s1 : @Sys W) (t1 : list event) (w w0 : W) :
  let self := JavaContainerManager_init P default_container_name in
  let name := PyStr default_container_name in
  let s2 := {| world := w; fs := fs s1; session := ∅; java_manager := None |} in
  let r := render_java_container_section P no_input s2 in
  _render_build_run_button P self log_message iterations inp s0 = (Rerun, s1, t1) ->
  from_env P w = (inr tt, w0) ->
  (exists obj, fs s1 !! state_file self = Some (Whole obj))
  /\ if runtime_says_running P name w0 then
       session (state_of r) !! "is_running" = Some (PyBool true)
       /\ fs (state_of r) = fs s1
       /\ Exists (fun ev => is_active_report ev = true) (events_of r)
       /\ Forall (fun ev => is_completed_report ev = false) (events_of r)
     else
       session (state_of r) !! "is_running" = Some (PyBool false)
       /\ fs (state_of r) !! state_file self = None
       /\ length (List.filter is_completed_report (events_of r)) = 1%nat
       /\ Forall (fun ev => is_active_report ev = false) (events_of r)
       /\ forall w' inp',
            run_clicked inp' = false ->
            let r' := render_java_container_section P inp' (set_world w' (state_of r)) in
            Forall (fun ev => is_report ev = false) (events_of r')
            /\ fs (state_of r') !! state_file self = None.
Proof.
  cbv zeta. intros Hlaunch Henv.
  destruct (wp_elim _ _ _ _ _ _ (launch_persists _ _ _ _ _) Hlaunch eq_refl)
    as (start_time & Hfs).
  assert (Hfile : fs s1 !! state_file (JavaContainerManager_init P default_container_name)
                  = Some (Whole (state_dict PyNone
                      (PyStr (os_path_join (os_path_join (getcwd P) "java_app") "app_host.log"))
                      (PyStr start_time) (PyBool true) (PyStr default_container_name))))
    by (rewrite Hfs; apply lookup_insert_eq).
  split; [eauto|].
  exact (fresh_cycle start_time
           {| world := w; fs := fs s1; session := ∅; java_manager := None |} w0
           eq_refl eq_refl Henv Hfile).
Qed.

End RoundTrip.

(** * The program on the small daemon *)

Lemma run_eta {W A} (r : outcome A * @Sys W * list event) :
  r = (outcome_of r, state_of r, events_of r).
Proof. destruct r as [[o s] t]. reflexivity. Qed.

(** C1, as the claim states it, fails on the order: a controller that reads
    back an active state while the container has exited shows the report that
    the container is not running before it removes the state file. *)
Lemma report_precedes_clear :
  let s := fresh (sim_world (Some "exited") false)
             {[ sim_state_path := Whole sim_state_object ]} in
  let t := events_of (render_java_container_section sim_platform no_input s) in
  take 9 t
  = [ EvUi UiTitle; EvUi UiMarkdown; EvFromEnv (inr tt);
      EvFs (FsExists sim_state_path); EvFs (FsOpenRead sim_state_path);
      EvGet (PyStr default_container_name) (inr (sim_handle "exited"));
      EvUi (UiWarning (MsgContainerNotRunning (PyStr default_container_name)));
      EvFs (FsExists sim_state_path); EvFs (FsRemove sim_state_path) ]
  /\ cleared_before_reports t = false.
Proof. cbv zeta. split; vm_compute; reflexivity. Qed.

Lemma active_report_is_revalidated_witness :
  justified
    (events_of (render_java_container_section sim_platform no_input
                  (sim_active (sim_world (Some "running") true))))
  /\ fs (state_of (_render_running_state sim_platform sim_manager no_input
                     (sim_active (sim_world (Some "exited") false))))
     = delete (state_file sim_manager) (fs (sim_active (sim_world (Some "exited") false))).
Proof.
  destruct (active_report_is_revalidated sim_platform no_input) as [HA HB].
  split.
  - eapply HA. apply run_eta.
  - eapply (HB sim_manager (PyStr default_container_name)
              (sim_active (sim_world (Some "exited") false))).
    + vm_compute. reflexivity.
    + vm_compute. reflexivity.
    + apply run_eta.
Defined.

(** C2, as the claim states it, fails: when the kill command cannot be
    sent, a press of the stop button in an active run leaves the state file
    and the belief as they were and shows the error. *)
Lemma failed_stop_keeps_state :
  let s := sim_active (sim_exec_broken (Some "running") true) in
  let r := render_java_container_section sim_platform press_stop s in
  fs (state_of r) !! sim_state_path = Some (Whole sim_state_object)
  /\ session (state_of r) !! "is_running" = Some (PyBool true)
  /\ In (EvUi (UiError (MsgText "Failed to stop: exec failed"))) (events_of r)
  /\ In (EvExec (sim_handle "running") pkill_command true []
           (inl (sim_error APIError "exec failed"))) (events_of r).
Proof. cbv zeta. vm_compute. intuition. Qed.

Lemma stop_clears_state_when_kill_was_sent_witness :
  let s := sim_active (sim_world (Some "running") true) in
  let r := _render_stop_button sim_platform sim_manager press_stop s in
  stop_clicked press_stop = true
  /\ is_Some (session s !! "container_name")
  /\ Forall (fun ev => failed ev = false) (events_of r)
  /\ outcome_of r = Rerun
  /\ fs (state_of r) !! state_file sim_manager = None.
Proof.
  cbv zeta.
  assert (Hname : is_Some (session (sim_active (sim_world (Some "running") true))
                             !! "container_name")) by (vm_compute; eauto).
  assert (Hall : Forall (fun ev => failed ev = false)
                   (events_of (_render_stop_button sim_platform sim_manager press_stop
                                 (sim_active (sim_world (Some "running") true)))))
    by (vm_compute; repeat constructor).
  split; [reflexivity|]. split; [exact Hname|]. split; [exact Hall|].
  destruct (stop_clears_state_when_kill_was_sent sim_platform sim_manager press_stop
              _ _ _ _ eq_refl Hname (run_eta _)) as [Hok _].
  destruct (Hok Hall) as (Ho & Hfs & _). split; assumption.
Defined.



Lemma persisted_state_round_trip_witness :
  let s0 := sim_state (sim_world None false) ∅ (idle_session default_container_name) in
  let launch := _render_build_run_button sim_platform sim_manager "hi" 5 (press_run "hi" 5) s0 in
  let name := PyStr default_container_name in
  let up := sim_world (Some "running") true in
  let gone := sim_world (Some "running") false in
  let r_up := render_java_container_section sim_platform no_input
                (fresh up (fs (state_of launch))) in
  let r_gone := render_java_container_section sim_platform no_input
                  (fresh gone (fs (state_of launch))) in
  outcome_of launch = Rerun
  /\ fs (state_of launch) !! sim_state_path = Some (Whole sim_state_object)
  /\ from_env sim_platform up = (inr tt, up)
  /\ runtime_says_running sim_platform name up = true
  /\ session (state_of r_up) !! "is_running" = Some (PyBool true)
  /\ fs (state_of r_up) = fs (state_of launch)
  /\ Exists (fun ev => is_active_report ev = true) (events_of r_up)
  /\ from_env sim_platform gone = (inr tt, gone)
  /\ runtime_says_running sim_platform name gone = false
  /\ length (List.filter is_completed_report (events_of r_gone)) = 1%nat
  /\ fs (state_of r_gone) !! state_file sim_manager = None.
Proof.
  cbv zeta.
  set (s0 := sim_state (sim_world None false) ∅ (idle_session default_container_name)).
  set (launch := _render_build_run_button sim_platform sim_manager "hi" 5 (press_run "hi" 5) s0).
  assert (Hl : launch = (Rerun, state_of launch, events_of launch))
    by (vm_compute; reflexivity).
  assert (Hup : runtime_says_running sim_platform (PyStr default_container_name)
                  (sim_world (Some "running") true) = true)
    by (vm_compute; reflexivity).
  assert (Hgone : runtime_says_running sim_platform (PyStr default_container_name)
                    (sim_world (Some "running") false) = false)
    by (vm_compute; reflexivity).
  split; [vm_compute; reflexivity|]. split; [vm_compute; reflexivity|].
  split; [reflexivity|]. split; [exact Hup|].
  destruct (persisted_state_round_trip sim_platform "hi" 5 (press_run "hi" 5) s0
              (state_of launch) (events_of launch) (sim_world (Some "running") true)
              (sim_world (Some "running") true) Hl eq_refl)
    as [_ H1].
  rewrite Hup in H1. destruct H1 as (Hrun & Hfs & Hact & _).
  split; [exact Hrun|]. split; [exact Hfs|]. split; [exact Hact|].
  split; [reflexivity|]. split; [exact Hgone|].
  destruct (persisted_state_round_trip sim_platform "hi" 5 (press_run "hi" 5) s0
              (state_of launch) (events_of launch) (sim_world (Some "running") false)
              (sim_world (Some "running") false) Hl eq_refl)
    as [_ H2].
  rewrite Hgone in H2. destruct H2 as (_ & Hfs2 & Hone & _).
  split; [exact Hone|exact Hfs2].
Defined.

Lemma failed_launch_leaves_no_state_witness :
  let s := sim_idle (sim_build_broken None false) in
  let r := _render_build_run_button sim_platform sim_manager "hi" 5 (press_run "hi" 5) s in
  Exists (fun ev => build_failed ev = true \/ exec_failed ev = true) (events_of r)
  /\ fs s !! state_file sim_manager = Some (Whole sim_state_object)
  /\ fs (state_of r) !! state_file sim_manager = None
  /\ outcome_of r = Ret tt.
Proof.
  cbv zeta.
  assert (Hex : Exists (fun ev => build_failed ev = true \/ exec_failed ev = true)
                  (events_of (_render_build_run_button sim_platform sim_manager "hi" 5
                                (press_run "hi" 5) (sim_idle (sim_build_broken None false))))).
  { vm_compute.
    repeat first [ apply List.Exists_cons_hd; left; reflexivity | apply List.Exists_cons_tl ]. }
  split; [exact Hex|]. split; [vm_compute; reflexivity|].
  destruct (failed_launch_leaves_no_state sim_platform sim_manager "hi" 5 (press_run "hi" 5)
              _ _ _ _ (run_eta _) Hex) as (Ho & Hfs & _).
  split; assumption.
Defined.

(** C8, as the claim states it, fails: a save over an existing state file
    opens that file itself, renames nothing, and between the open and the
    dump the file holds a text that is not the old object nor the new one. *)
Lemma save_process_state_tears_the_file :
  let s := sim_idle (sim_world (Some "running") true) in
  let r := save_process_state sim_manager PyNone (PyStr "/srv/app/java_app/app_host.log")
             (PyStr "2024-05-02 09:00:00") (PyBool true) (PyStr default_container_name) s in
  let ops := [ FsMakedirs "/srv/app/java_app"; FsOpenWrite sim_state_path;
               FsDump sim_state_path
                 (state_dict PyNone (PyStr "/srv/app/java_app/app_host.log")
                    (PyStr "2024-05-02 09:00:00") (PyBool true)
                    (PyStr default_container_name)) ] in
  events_of r = map EvFs ops
  /\ existsb is_rename ops = false
  /\ fs s !! sim_state_path = Some (Whole sim_state_object)
  /\ replay (take 2 ops) (fs s) !! sim_state_path = Some Torn.
Proof. cbv zeta. repeat split; vm_compute; reflexivity. Qed.

(** C9, as the claim states it, fails: the launch checks no range, and
    handed 401 iterations it builds the image, creates the container and
    starts the workload with [ITERATIONS=401]. *)
Lemma launch_with_401_reaches_runtime :
  let s := sim_state (sim_world None false) ∅ (idle_session default_container_name) in
  let r := _render_build_run_button sim_platform sim_manager "hi" 401 (press_run "hi" 401) s in
  outcome_of r = Rerun
  /\ List.filter is_gateway (events_of r)
     = [ EvBuild "/srv/app/java_app" "java-dummy-app" true (inr tt);
         EvGet (PyStr default_container_name) (inl (sim_error NotFound "No such container"));
         EvRun "java-dummy-app" default_container_name true
           [("LOG_MESSAGE", "hi"); ("ITERATIONS", "401")]
           (log_volume "/srv/app/java_app/app_host.log") (inr (sim_handle "created"));
         EvExec (sim_handle "created") java_command true
           [("LOG_MESSAGE", "hi"); ("ITERATIONS", "401")] (inr (None, "")) ].
Proof. cbv zeta. split; vm_compute; reflexivity. Qed.

Lemma unlisted_status_aborts_launch_witness :
  let s := sim_idle (sim_world (Some "paused") false) in
  fst (containers_get sim_platform (PyStr (container_name sim_manager)) (world s))
  = inr (sim_handle "paused")
  /\ classify (inr (sim_handle "paused")) = None
  /\ get_or_create_container sim_platform sim_manager "hi" 5
       "/srv/app/java_app/app_host.log" s
     = (Ret None, s, [EvGet (PyStr default_container_name) (inr (sim_handle "paused"))]).
Proof.
  cbv zeta. split; [reflexivity|]. split; [reflexivity|].
  destruct (unlisted_status_aborts_launch sim_platform sim_manager "hi" 5
              "/srv/app/java_app/app_host.log"
              (sim_idle (sim_world (Some "paused") false)) (sim_handle "paused")
              eq_refl eq_refl) as [Hgo _].
  rewrite Hgo. reflexivity.
Defined.

(** C10, as the claim states it, fails on its last part: with the container
    paused, [get_or_create_container] returns [None], and the workload-exec
    step is not given [None]: it is never reached.  The launch ends on the
    unpacking error. *)
Lemma paused_container_never_reaches_exec :
  let s := sim_idle (sim_world (Some "paused") false) in
  let r := _execute_java_app sim_platform sim_manager "hi" 5
             "/srv/app/java_app/app_host.log" s in
  outcome_of (get_or_create_container sim_platform sim_manager "hi" 5
                "/srv/app/java_app/app_host.log" s) = Ret None
  /\ events_of r
     = [ EvGet (PyStr default_container_name) (inr (sim_handle "paused"));
         EvUi (UiError (MsgUnexpected "cannot unpack non-iterable NoneType object"));
         EvFs (FsExists sim_state_path); EvFs (FsRemove sim_state_path) ]
  /\ ~ exec_step_reached (events_of r).
Proof.
  cbv zeta. split; [vm_compute; reflexivity|]. split; [vm_compute; reflexivity|].
  unfold exec_step_reached. vm_compute. intuition discriminate.
Qed.

(** * Further properties of the manager and of the pages *)

(** ** The state file *)

Section StateFile.

Context {W : Type} (self : JavaContainerManager).

Lemma save_process_state_eq (pid lf st ir name : pyval) (s : @Sys W) :
  save_process_state self pid lf st ir name s
  = (Ret tt,
     set_fs (<[state_file self :=
                 Whole (state_dict pid lf st ir (py_or name (PyStr (container_name self))))]>
               (fs s)) s,
     map EvFs (save_ops self pid lf st ir name)).
Proof.
  unfold save_process_state, do_fs. run. unfold set_fs. simpl.
  now rewrite insert_insert_eq.
Qed.

Lemma load_process_state_result (s : @Sys W) :
  outcome_of (load_process_state self s) = Ret (persisted self (fs s))
  /\ state_of (load_process_state self s) = s.
Proof. destruct (load_process_state_eq self s) as [t ->]. split; reflexivity. Qed.

(** X1.  What [save_process_state] writes, [load_process_state] reads back:
    the object with the five fields as they were passed, the container name
    falling back to the manager's when the argument is empty or [None].  The
    save leaves every other file alone, the load changes nothing, and after a
    [clear_process_state] the load returns [None]. *)
Theorem save_then_load_round_trip (pid lf st ir name : pyval) (s : @Sys W) :
  let s1 := state_of (save_process_state self pid lf st ir name s) in
  let s2 := state_of (clear_process_state self s1) in
  exists m : gmap string pyval,
    outcome_of (load_process_state self s1) = Ret (PyDict m)
    /\ state_of (load_process_state self s1) = s1
    /\ m !! "pid" = Some pid
    /\ m !! "log_file" = Some lf
    /\ m !! "start_time" = Some st
    /\ m !! "is_running" = Some ir
    /\ m !! "container_name"
       = Some (if truthy name then name else PyStr (container_name self))
    /\ size m = 5%nat
    /\ (forall p, p <> state_file self -> fs s1 !! p = fs s !! p)
    /\ outcome_of (load_process_state self s2) = Ret PyNone.
Proof.
  cbv zeta. rewrite save_process_state_eq. cbn [state_of fst snd].
  rewrite clear_process_state_eq. cbn [state_of fst snd].
  destruct (state_dict pid lf st ir (py_or name (PyStr (container_name self))))
    as [| | | | |m] eqn:Hm; try discriminate Hm.
  exists m.
  destruct (state_dict_lookups _ _ _ _ _ m (eq_sym Hm)) as (H1 & H2 & H3 & H4 & H5).
  split.
  { rewrite (proj1 (load_process_state_result _)). unfold persisted, set_fs. simpl.
    now rewrite lookup_insert_eq. }
  split; [apply load_process_state_result|].
  repeat (split; [assumption|]).
  split.
  { unfold state_dict in Hm. injection Hm as <-.
    repeat (rewrite map_size_insert_None;
            [|repeat (rewrite lookup_insert_ne by done); apply lookup_empty]).
    now rewrite map_size_empty. }
  split.
  { intros p Hp. unfold set_fs. simpl. now rewrite lookup_insert_ne. }
  rewrite (proj1 (load_process_state_result _)). unfold persisted, set_fs. simpl.
  now rewrite lookup_delete_eq.
Qed.

(** X2.  [clear_process_state] never raises, whether or not the state file is
    there; afterwards the state file is absent and every other file is as
    before.  It removes the file only when the file exists, so a second clear
    does nothing but test for the file. *)
Theorem clear_process_state_idempotent (s : @Sys W) :
  let r1 := clear_process_state self s in
  let r2 := clear_process_state self (state_of r1) in
  outcome_of r1 = Ret tt
  /\ fs (state_of r1) !! state_file self = None
  /\ (forall p, p <> state_file self -> fs (state_of r1) !! p = fs s !! p)
  /\ session (state_of r1) = session s
  /\ (fs s !! state_file self = None ->
      state_of r1 = s /\ events_of r1 = [EvFs (FsExists (state_file self))])
  /\ r2 = (Ret tt, state_of r1, [EvFs (FsExists (state_file self))]).
Proof.
  cbv zeta. rewrite !clear_process_state_eq. cbn [outcome_of state_of events_of fst snd].
  split; [reflexivity|]. split; [apply lookup_delete_eq|].
  split; [intros p Hp; unfold set_fs; simpl; now rewrite lookup_delete_ne|].
  split; [reflexivity|]. split.
  - intros Hnone. unfold clear_trace. rewrite Hnone.
    split; [|reflexivity]. unfold set_fs. rewrite delete_id by assumption.
    now destruct s.
  - unfold clear_trace, set_fs. simpl. rewrite lookup_delete_eq. simpl.
    rewrite delete_id by apply lookup_delete_eq. reflexivity.
Qed.

End StateFile.

(** ** Initialization of the session *)

Section Initialization.

Context {W : Type} (self : JavaContainerManager).

Lemma wp_load_process_state (s : @Sys W) (Q : outcome pyval -> @Sys W -> list event -> Prop) :
  (forall t, Forall (fun ev => is_gateway ev = false) t ->
             Q (Ret (persisted self (fs s))) s t) ->
  wp (load_process_state self) s Q.
Proof.
  intros H. unfold load_process_state, persisted in *.
  apply wp_bind, wp_os_path_exists.
  destruct (fs s !! state_file self) as [[v|]|] eqn:Hf; cbv beta iota.
  - rewrite bool_decide_eq_true_2 by eauto. cbv iota.
    apply wp_try_except_bare, wp_json_load_from. rewrite Hf. apply H. repeat constructor.
  - rewrite bool_decide_eq_true_2 by eauto. cbv iota.
    apply wp_try_except_bare, wp_json_load_from. rewrite Hf. cbv iota.
    apply wp_ret. apply H. repeat constructor.
  - rewrite bool_decide_eq_false_2 by (intros [? ?]; discriminate). cbv iota.
    apply wp_ret. apply H. repeat constructor.
Qed.

(** X3.  When the session is not initialized and the state file is absent,
    is not JSON, or holds a value that Python takes for false (an empty
    object, [null], an empty list, zero), the initialization gives the
    session the defaults: nothing running, no pid, no log file, no start
    time, the manager's container name.  It changes nothing else. *)
Theorem initialize_defaults (s : @Sys W) :
  session s !! "process_pid" = None ->
  truthy (persisted self (fs s)) = false ->
  outcome_of (_initialize_session_state self s) = Ret tt
  /\ state_of (_initialize_session_state self s)
     = set_session (default_session (container_name self) (session s)) s.
Proof.
  intros Hpid Hfalse.
  change (wp (_initialize_session_state self) s
            (fun o s' _ =>
               o = Ret tt
               /\ s' = set_session (default_session (container_name self) (session s)) s)).
  unfold _initialize_session_state.
  apply wp_bind, wp_session_has. rewrite Hpid.
  rewrite bool_decide_eq_false_2 by (intros [? ?]; discriminate).
  cbn [negb]. cbv beta iota.
  apply wp_bind, wp_load_process_state. intros t _. cbv beta iota.
  rewrite Hfalse. cbv iota.
  repeat wp_step. wp_state. split; reflexivity.
Qed.

(** X4.  When the state file holds JSON that is not an object and that Python
    takes for true (a non-empty list or string, a non-zero number, [true]),
    the initialization raises [AttributeError] at the first [state.get]: the
    script run ends there, with the session and the files as they were. *)
Theorem initialize_rejects_non_object (v : pyval) (s : @Sys W) :
  session s !! "process_pid" = None ->
  fs s !! state_file self = Some (Whole v) ->
  truthy v = true ->
  is_dict v = false ->
  exists t,
    _initialize_session_state self s
    = (Raise {| exn_class_of := AttributeError; exn_msg := "get" |}, s, t).
Proof.
  intros Hpid Hfile Htrue Hnd.
  assert (Hwp : wp (_initialize_session_state self) s
            (fun o s' _ =>
               o = Raise {| exn_class_of := AttributeError; exn_msg := "get" |} /\ s' = s)).
  { unfold _initialize_session_state.
    apply wp_bind, wp_session_has. rewrite Hpid.
    rewrite bool_decide_eq_false_2 by (intros [? ?]; discriminate).
    cbn [negb]. cbv beta iota.
    apply wp_bind, wp_load_process_state. intros t _. cbv beta iota.
    unfold persisted. rewrite Hfile, Htrue. cbv iota.
    destruct v as [| | | | |m]; try (apply wp_bind, wp_raise; split; reflexivity).
    discriminate Hnd. }
  unfold wp in Hwp. destruct Hwp as [Ho Hs].
  exists (events_of (_initialize_session_state self s)).
  rewrite (run_eta (_initialize_session_state self s)) at 1. now rewrite Ho, Hs.
Qed.

(** X5.  From a state file that holds a JSON object, the initialization
    takes each field that is there and a default for each field that is
    missing: [False] for [is_running], the manager's name for
    [container_name], [None] for [pid], [log_file] and [start_time].  The
    empty object gives the five defaults, and fields of the object beyond
    these five are ignored. *)
Theorem initialize_fills_missing_keys (m : gmap string pyval) (s : @Sys W) :
  session s !! "process_pid" = None ->
  fs s !! state_file self = Some (Whole (PyDict m)) ->
  outcome_of (_initialize_session_state self s) = Ret tt
  /\ state_of (_initialize_session_state self s)
     = set_session
         (<["container_name" := default (PyStr (container_name self)) (m !! "container_name")]>
          (<["start_time" := default PyNone (m !! "start_time")]>
          (<["log_file" := default PyNone (m !! "log_file")]>
          (<["is_running" := default (PyBool false) (m !! "is_running")]>
          (<["process_pid" := default PyNone (m !! "pid")]> (session s)))))) s.
Proof.
  intros Hpid Hfile.
  change (wp (_initialize_session_state self) s
            (fun o s' _ =>
               o = Ret tt
               /\ s' = set_session
                    (<["container_name" :=
                         default (PyStr (container_name self)) (m !! "container_name")]>
                     (<["start_time" := default PyNone (m !! "start_time")]>
                     (<["log_file" := default PyNone (m !! "log_file")]>
                     (<["is_running" := default (PyBool false) (m !! "is_running")]>
                     (<["process_pid" := default PyNone (m !! "pid")]> (session s)))))) s)).
  unfold _initialize_session_state.
  apply wp_bind, wp_session_has. rewrite Hpid.
  rewrite bool_decide_eq_false_2 by (intros [? ?]; discriminate).
  cbn [negb]. cbv beta iota.
  apply wp_bind, wp_load_process_state. intros t _. cbv beta iota.
  unfold persisted. rewrite Hfile.
  destruct (truthy (PyDict m)) eqn:Htrue; cbv iota.
  - unfold py_get. repeat wp_step. wp_state. split; reflexivity.
  - assert (Hm : m = ∅).
    { unfold truthy in Htrue. apply negb_false_iff, bool_decide_eq_true in Htrue.
      now apply map_size_empty_iff. }
    subst m. rewrite !lookup_empty. cbn [default].
    repeat wp_step. wp_state. split; reflexivity.
Qed.

Lemma initialize_once_wp (s : @Sys W) :
  wp (@_initialize_session_state W self) s
    (fun o s' _ =>
       fs s' = fs s
       /\ ((o = Ret tt /\ is_Some (session s' !! "process_pid"))
           \/ ((exists e, o = Raise e) /\ s' = s))).
Proof.
  unfold _initialize_session_state.
  apply wp_bind, wp_session_has. cbv beta iota.
  destruct (bool_decide (is_Some (session s !! "process_pid"))) eqn:Hpid;
    cbn [negb]; cbv iota.
  { apply wp_ret. split; [reflexivity|left; split; [reflexivity|]].
    now apply bool_decide_eq_true in Hpid. }
  apply wp_bind, wp_load_process_state. intros t _. cbv beta iota.
  destruct (truthy (persisted self (fs s))); cbv iota.
  - unfold py_get. destruct (persisted self (fs s)) as [| | | | |m].
    1-5: apply wp_bind, wp_raise; split; [reflexivity|right; split; [eauto|reflexivity]].
    repeat wp_step. wp_state.
    split; [reflexivity|left; split; [reflexivity|]].
    repeat (rewrite lookup_insert_ne by done). rewrite lookup_insert_eq. eauto.
  - repeat wp_step. wp_state.
    split; [reflexivity|left; split; [reflexivity|]].
    repeat (rewrite lookup_insert_ne by done). rewrite lookup_insert_eq. eauto.
Qed.

(** X16.  The session is initialized once.  An initialization changes no
    file; when it returns, the session holds [process_pid], so that a second
    initialization reads no file and changes nothing, whatever the state file
    has become; when it raises, it has changed nothing at all. *)
Theorem initialize_once (s : @Sys W) (f : gmap string file_content) :
  let r := @_initialize_session_state W self s in
  fs (state_of r) = fs s
  /\ match outcome_of r with
     | Ret _ =>
         @_initialize_session_state W self (set_fs f (state_of r))
         = (Ret tt, set_fs f (state_of r), [])
     | Raise _ => state_of r = s
     | Rerun => False
     end.
Proof.
  cbv zeta. pose proof (initialize_once_wp s) as H. unfold wp in H.
  destruct H as [Hfs H]. split; [exact Hfs|].
  destruct H as [[-> Hpid]|[[e ->] Hs]]; [|exact Hs].
  unfold _initialize_session_state, bind, session_has, ret. cbn [session set_fs].
  now rewrite bool_decide_eq_true_2.
Qed.

End Initialization.

(** ** The manager's calls into Docker *)

Section ManagerCalls.

Context {W : Type} (P : Platform W) (self : JavaContainerManager).

(** X6.  [build_image], [execute_java_app], [stop_java_app] and
    [remove_container] never raise and change neither the files nor the
    session: each returns a flag that is [True] exactly when no call into
    Docker raised.  The kill and the removal are sent only to a container
    that was obtained: when the lookup raises, nothing else is asked of the
    runtime.  The workload is started detached with the environment of the
    launch, the kill is [pkill -9 java] detached, and the removal is
    forced. *)
Theorem manager_calls_report_failures
    (dir tag : string) (c : Container) (log_message : string) (iterations : Z)
    (name : pyval) (s : @Sys W) :
  let target := py_or name (PyStr (container_name self)) in
  wp (build_image P self dir tag) s
    (fun o s' t =>
       exists ok msg r,
         o = Ret (ok, msg) /\ fs s' = fs s /\ session s' = session s
         /\ t = [EvBuild dir tag true r]
         /\ (ok = true <-> Forall (fun ev => failed ev = false) t))
  /\ wp (execute_java_app P self c log_message iterations) s
       (fun o s' t =>
          exists ok msg r,
            o = Ret (ok, msg) /\ fs s' = fs s /\ session s' = session s
            /\ t = [EvExec c java_command true (workload_env log_message iterations) r]
            /\ (ok = true <-> Forall (fun ev => failed ev = false) t))
  /\ wp (stop_java_app P self name) s
       (fun o s' t =>
          exists ok msg,
            o = Ret (ok, msg) /\ fs s' = fs s /\ session s' = session s
            /\ (ok = true <-> Forall (fun ev => failed ev = false) t)
            /\ ((exists e, t = [EvGet target (inl e)])
                \/ exists c' r, t = [EvGet target (inr c'); EvExec c' pkill_command true [] r]))
  /\ wp (remove_container P self name) s
       (fun o s' t =>
          exists ok msg,
            o = Ret (ok, msg) /\ fs s' = fs s /\ session s' = session s
            /\ (ok = true <-> Forall (fun ev => failed ev = false) t)
            /\ ((exists e, t = [EvGet target (inl e)])
                \/ exists c' r, t = [EvGet target (inr c'); EvRemove c' true r])).
Proof.
  cbv zeta.
  assert (Hno : forall (ev : event) l, failed ev = true ->
                  Forall (fun ev => failed ev = false) (ev :: l) -> false = true).
  { intros ev l Hev Hall. inversion Hall; subst. congruence. }
  assert (Hno2 : forall (ev0 ev : event) l, failed ev = true ->
                  Forall (fun ev => failed ev = false) (ev0 :: ev :: l) -> false = true).
  { intros ev0 ev l Hev Hall. inversion Hall as [|? ? _ Hall']; subst. eauto. }
  repeat split.
  - unfold build_image. repeat wp_step.
    all: wp_state; cbn [app]; do 3 eexists; repeat (split; [reflexivity|]).
    all: split; [try discriminate; intros _; repeat constructor
                |try reflexivity; apply Hno; reflexivity].
  - unfold execute_java_app. repeat wp_step.
    all: wp_state; cbn [app]; do 3 eexists; repeat (split; [reflexivity|]).
    all: split; [try discriminate; intros _; repeat constructor
                |try reflexivity; apply Hno; reflexivity].
  - unfold stop_java_app. repeat wp_step.
    all: wp_state; cbn [app]; do 2 eexists; repeat (split; [reflexivity|]).
    all: split; [split; [try discriminate; intros _; repeat constructor
                        |try reflexivity;
                         first [apply Hno; reflexivity|apply Hno2; reflexivity]]
                |eauto].
  - unfold remove_container. repeat wp_step.
    all: wp_state; cbn [app]; do 2 eexists; repeat (split; [reflexivity|]).
    all: split; [split; [try discriminate; intros _; repeat constructor
                        |try reflexivity;
                         first [apply Hno; reflexivity|apply Hno2; reflexivity]]
                |eauto].
Qed.

(** X7.  When the container is found exited and [container.start()] raises
    [NotFound], [get_or_create_container] goes on to create the container, as
    if the lookup had not found it, and on success returns it tagged
    ['created'].  When the start raises anything else, the exception leaves
    the function and nothing is created. *)
Theorem start_failure_of_exited_container
    (log_message : string) (iterations : Z) (host_log_file : string)
    (s : @Sys W) (c : Container) (w w2 : W) (e : exn) :
  let name := PyStr (container_name self) in
  let env := workload_env log_message iterations in
  let vols := log_volume host_log_file in
  containers_get P name (world s) = (inr c, w) ->
  status c = "exited" ->
  container_start P c w = (inl e, w2) ->
  get_or_create_container P self log_message iterations host_log_file s
  = if is_NotFound e then
      let r3 := fst (containers_run P image_name (container_name self) true env vols w2) in
      let w3 := snd (containers_run P image_name (container_name self) true env vols w2) in
      (match r3 with
       | inr c3 => Ret (Some (c3, "created"))
       | inl e3 => Raise e3
       end,
       set_world w3 s,
       [EvGet name (inr c); EvStart c (inl e);
        EvRun image_name (container_name self) true env vols r3])
    else
      (Raise e, set_world w2 s, [EvGet name (inr c); EvStart c (inl e)]).
Proof.
  cbv zeta. intros Hget Hst Hstart.
  unfold get_or_create_container, log_volume. run.
  rewrite Hget. simpl. rewrite Hst. simpl. rewrite Hstart. simpl.
  destruct (is_NotFound e); simpl; [|reflexivity].
  destruct (containers_run P _ _ _ _ _ w2) as [[e3|c3] w3]; reflexivity.
Qed.

End ManagerCalls.

(** ** Pieces that change only the world *)

Section Frame.

Context {W : Type} (P : Platform W).

Lemma frame_ret {A} (a : A) : frame (@ret W A a).
Proof. intros s. repeat split. Qed.

Lemma frame_raise {A} e : frame (@raise W A e).
Proof. intros s. repeat split. Qed.

Lemma frame_rerun {A} : frame (@st_rerun W A).
Proof. intros s. repeat split. Qed.

Lemma frame_emit ev : frame (@emit W ev).
Proof. intros s. repeat split. Qed.

Lemma frame_ui u : frame (@ui W u).
Proof. intros s. repeat split. Qed.

Lemma frame_bind {A B} (m : @M W A) (f : A -> M B) :
  frame m -> (forall a, frame (f a)) -> frame (bind m f).
Proof.
  intros Hm Hf s. specialize (Hm s). unfold bind, state_of in *.
  destruct (m s) as [[[a|e|] s1] t1]; simpl in *; try exact Hm.
  specialize (Hf a s1). unfold state_of in Hf.
  destruct (f a s1) as [[o2 s2] t2]. simpl in *.
  destruct Hm as (? & ? & ?), Hf as (? & ? & ?). repeat split; congruence.
Qed.

Lemma frame_try_except {A} (m : @M W A) (h : exn -> M A) :
  frame m -> (forall e, frame (h e)) -> frame (try_except m h).
Proof.
  intros Hm Hh s. specialize (Hm s). unfold try_except, state_of in *.
  destruct (m s) as [[[a|e|] s1] t1]; simpl in *; try exact Hm.
  specialize (Hh e s1). unfold state_of in Hh.
  destruct (h e s1) as [[o2 s2] t2]. simpl in *.
  destruct Hm as (? & ? & ?), Hh as (? & ? & ?). repeat split; congruence.
Qed.

Lemma frame_try_except_bare {A} (m : @M W A) (h : M A) :
  frame m -> frame h -> frame (try_except_bare m h).
Proof.
  intros Hm Hh s. specialize (Hm s). unfold try_except_bare, state_of in *.
  destruct (m s) as [[[a|e|] s1] t1]; simpl in *; try exact Hm;
    specialize (Hh s1); unfold state_of in Hh;
    destruct (h s1) as [[o2 s2] t2]; simpl in *;
    destruct Hm as (? & ? & ?), Hh as (? & ? & ?); repeat split; congruence.
Qed.

Lemma frame_call {A} (op : W -> result A * W) (ev : result A -> event) : frame (call op ev).
Proof.
  intros s. unfold call, state_of. destruct (op (world s)) as [r w]. repeat split.
Qed.

Lemma frame_session_get key : frame (@session_get W key).
Proof. intros s. unfold session_get, state_of. destruct (session s !! key); repeat split. Qed.

Lemma frame_session_has key : frame (@session_has W key).
Proof. intros s. repeat split. Qed.

Lemma frame_os_path_exists p : frame (@os_path_exists W p).
Proof. intros s. repeat split. Qed.

Lemma frame_json_load_from p : frame (@json_load_from W p).
Proof. intros s. repeat split. Qed.

Lemma frame_time_sleep secs : frame (time_sleep P secs).
Proof. intros s. repeat split. Qed.

Lemma frame_datetime_now : frame (datetime_now P).
Proof.
  intros s. unfold datetime_now, state_of. destruct (now P (world s)) as [t w]. repeat split.
Qed.

Lemma wp_frame {A} (m : @M W A) s (Q : outcome A -> @Sys W -> list event -> Prop) :
  frame m ->
  (forall o s' t,
     fs s' = fs s -> session s' = session s -> java_manager s' = java_manager s ->
     Q o s' t) ->
  wp m s Q.
Proof. intros Hm HQ. destruct (Hm s) as (H1 & H2 & H3). now apply HQ. Qed.

End Frame.

(** One step of the proof that a piece of the program changes only the
    world. *)
Ltac frame_step :=
  lazymatch goal with
  | |- frame (bind _ _) => apply frame_bind; [|intros ?]
  | |- frame (ret _) => apply frame_ret
  | |- frame (raise _) => apply frame_raise
  | |- frame st_rerun => apply frame_rerun
  | |- frame (emit _) => apply frame_emit
  | |- frame (ui _) => apply frame_ui
  | |- frame (try_except _ _) => apply frame_try_except; [|intros ?]
  | |- frame (try_except_bare _ _) => apply frame_try_except_bare
  | |- frame (call _ _) => apply frame_call
  | |- frame (session_get _) => apply frame_session_get
  | |- frame (session_has _) => apply frame_session_has
  | |- frame (os_path_exists _) => apply frame_os_path_exists
  | |- frame (json_load_from _) => apply frame_json_load_from
  | |- frame (time_sleep _ _) => apply frame_time_sleep
  | |- frame (datetime_now _) => apply frame_datetime_now
  | |- frame (if ?b then _ else _) => destruct b
  | |- frame (match ?x with _ => _ end) => destruct x
  | |- frame _ => progress autounfold with program
  end.

Section Frames.

Context {W : Type} (P : Platform W) (self : JavaContainerManager).

Lemma frame_load_process_state : frame (@load_process_state W self).
Proof. repeat frame_step. Qed.

Lemma frame_is_container_running name : frame (is_container_running P self name).
Proof. repeat frame_step. Qed.

Lemma frame_is_java_process_running name : frame (is_java_process_running P self name).
Proof. repeat frame_step. Qed.

Lemma frame_build_image dir tag : frame (build_image P self dir tag).
Proof. repeat frame_step. Qed.

Lemma frame_get_or_create_container lm n lf : frame (get_or_create_container P self lm n lf).
Proof. repeat frame_step. Qed.

Lemma frame_execute_java_app c lm n : frame (execute_java_app P self c lm n).
Proof. repeat frame_step. Qed.

Lemma frame_stop_java_app name : frame (stop_java_app P self name).
Proof. repeat frame_step. Qed.

Lemma frame_remove_container name : frame (remove_container P self name).
Proof. repeat frame_step. Qed.

Lemma frame_prepare_log_file lf : frame (prepare_log_file P self lf).
Proof. repeat frame_step. Qed.

Lemma frame_read_logs lf : frame (read_logs P self lf).
Proof. repeat frame_step. Qed.

Lemma frame_show_final_logs : frame (_show_final_logs P self).
Proof. repeat frame_step. Qed.

Lemma frame_stream_live_logs : frame (_stream_live_logs P self).
Proof. repeat frame_step. Qed.

Lemma frame_input_fields inp : frame (@_render_input_fields W inp).
Proof. repeat frame_step. Qed.

Lemma frame_remove_container_button clicked :
  frame (_render_remove_container_button P self clicked).
Proof. unfold _render_remove_container_button. repeat frame_step. Qed.

End Frames.

(** ** The state file and the belief of the session *)

Section Consistency.

Context {W : Type} (P : Platform W).

Lemma consistent_absent self (s : @Sys W) :
  fs s !! state_file self = None -> consistent self s.
Proof. intros Hnone [x Hx]. congruence. Qed.

Lemma consistent_believed self (s : @Sys W) v :
  session s !! "is_running" = Some v -> truthy v = true -> consistent self s.
Proof. intros Hv Htr _. eauto. Qed.

Lemma consistent_same self (s s' : @Sys W) :
  fs s' = fs s -> session s' = session s -> consistent self s -> consistent self s'.
Proof. unfold consistent. intros -> ->. exact id. Qed.

Lemma stop_button_store self inp (s : @Sys W) :
  wp (_render_stop_button P self inp) s
    (fun o s' _ =>
       (o = Rerun /\ fs s' !! state_file self = None)
       \/ (fs s' = fs s /\ session s' = session s)).
Proof.
  unfold _render_stop_button, st_button, stop_java_app.
  repeat wp_step.
  all: wp_state.
  all: lazymatch goal with
       | |- (Rerun = Rerun /\ _) \/ _ => left; split; [reflexivity|apply lookup_delete_eq]
       | |- _ => right; split; reflexivity
       end.
Qed.

Lemma cleared_tail self {A} (m : @M W A) (s : @Sys W) :
  frame m ->
  wp (bind (@session_set W "is_running" (PyBool false))
        (fun _ => bind (clear_process_state self) (fun _ => m))) s
    (fun _ s' _ => fs s' !! state_file self = None).
Proof.
  intros Hm. do 4 wp_step. apply wp_frame; [exact Hm|].
  intros o s' t Hfs _ _. rewrite Hfs. wp_state. apply lookup_delete_eq.
Qed.

(** The poll either removes the state file or leaves the files and the
    session as they are. *)
Lemma poll_store self inp (s : @Sys W) :
  wp (_render_running_state P self inp) s
    (fun _ s' _ =>
       fs s' !! state_file self = None \/ (fs s' = fs s /\ session s' = session s)).
Proof.
  unfold _render_running_state.
  apply wp_bind, wp_session_get.
  destruct (session s !! "container_name") as [name|] eqn:Hname; [|right; split; reflexivity].
  cbv beta iota.
  apply wp_bind, wp_frame; [apply frame_is_container_running|].
  intros o s1 t1 Hfs1 Hss1 _.
  destruct o as [running|e|]; [|right; split; assumption|right; split; assumption].
  assert (Hover : forall (s2 : @Sys W) (msg : pyval -> ui_event),
            fs s2 = fs s -> session s2 = session s ->
            wp (bind (@session_get W "container_name")
                  (fun name0 =>
                     bind (ui (msg name0))
                       (fun _ => bind (session_set "is_running" (PyBool false))
                          (fun _ => bind (clear_process_state self)
                             (fun _ => _show_final_logs P self))))) s2
              (fun _ s' t2 =>
                 fs s' !! state_file self = None \/ (fs s' = fs s /\ session s' = session s))).
  { intros s2 msg Hfs2 Hss2.
    apply wp_bind, wp_session_get. rewrite Hss2, Hname. cbv beta iota.
    do 2 wp_step.
    eapply wp_mono; [apply cleared_tail, frame_show_final_logs|].
    intros o s' t H. left. exact H. }
  destruct running; cbn [negb]; cbv iota.
  2:{ eapply wp_mono; [apply (Hover s1 (fun n => UiWarning (MsgContainerNotRunning n)));
                       assumption|].
      intros o s' t H. exact H. }
  apply wp_bind, wp_session_get. rewrite Hss1, Hname. cbv beta iota.
  apply wp_bind, wp_frame; [apply frame_is_java_process_running|].
  intros o s2 t2 Hfs2 Hss2 _.
  assert (Hfs2' : fs s2 = fs s) by congruence.
  assert (Hss2' : session s2 = session s) by congruence.
  destruct o as [alive|e|]; [|right; split; assumption|right; split; assumption].
  destruct alive; cbn [negb]; cbv iota.
  2:{ eapply wp_mono; [apply (Hover s2 (fun n => UiSuccess (MsgCompleted n))); assumption|].
      intros o s' t H. exact H. }
  apply wp_bind, wp_session_get. rewrite Hss2', Hname. cbv beta iota.
  apply wp_bind, wp_session_get. rewrite Hss2'.
  destruct (session s !! "start_time") as [st|]; cbv beta iota;
    [|right; split; congruence].
  do 2 wp_step. apply wp_bind.
  eapply wp_mono; [apply stop_button_store|]. cbv beta.
  intros o s3 t3 [[-> Hnone]|[Hfs3 Hss3]]; [left; exact Hnone|].
  destruct o as [[]|e|]; [|right; split; congruence|right; split; congruence].
  apply wp_frame; [apply frame_stream_live_logs|].
  intros o s' t Hfs' Hss' _. right. split; congruence.
Qed.

(** The launch removes the state file, or leaves the files and the session
    as they are, or ends with the belief set. *)
Lemma launch_store self lm n inp (s : @Sys W) :
  wp (_render_build_run_button P self lm n inp) s
    (fun _ s' _ =>
       fs s' !! state_file self = None
       \/ (fs s' = fs s /\ session s' = session s)
       \/ session s' !! "is_running" = Some (PyBool true)).
Proof.
  unfold _render_build_run_button, st_button, prepare_log_file, build_image.
  repeat wp_step.
  all: wp_state.
  all: lazymatch goal with
       | |- wp _ _ _ =>
           eapply wp_mono; [apply _execute_java_app_cases|]; cbv beta;
           intros o s' t [(_ & (st & _ & Hss) & _)|(_ & Hfs & _)];
           [right; right; rewrite Hss; repeat (rewrite lookup_insert_ne by done);
            apply lookup_insert_eq
           |left; rewrite Hfs; wp_state; apply lookup_delete_eq]
       | |- _ =>
           first [ left; apply lookup_delete_eq | right; left; split; reflexivity ]
       end.
Qed.

(** The initialization changes no file.  It raises with the session as it
    was, or it returns, with the session as it was or with the belief
    defined. *)
Lemma initialize_store self (s : @Sys W) :
  wp (@_initialize_session_state W self) s
    (fun o s' _ =>
       fs s' = fs s
       /\ (((exists e, o = Raise e) /\ session s' = session s)
           \/ (o = Ret tt
               /\ (session s' = session s \/ is_Some (session s' !! "is_running"))))).
Proof.
  unfold _initialize_session_state.
  apply wp_bind, wp_session_has. cbv beta iota.
  destruct (bool_decide (is_Some (session s !! "process_pid"))); cbn [negb]; cbv iota.
  { apply wp_ret. split; [reflexivity|right; split; [reflexivity|left; reflexivity]]. }
  apply wp_bind, wp_load_process_state. intros t _. cbv beta iota.
  destruct (truthy (persisted self (fs s))); cbv iota.
  - unfold py_get. destruct (persisted self (fs s)) as [| | | | |m].
    1-5: apply wp_bind, wp_raise; split; [reflexivity|left; split; [eauto|reflexivity]].
    repeat wp_step. wp_state.
    split; [reflexivity|right; split; [reflexivity|right]].
    repeat (rewrite lookup_insert_ne by done). rewrite lookup_insert_eq. eauto.
  - repeat wp_step. wp_state.
    split; [reflexivity|right; split; [reflexivity|right]].
    repeat (rewrite lookup_insert_ne by done). rewrite lookup_insert_eq. eauto.
Qed.

Lemma run_store (inp : Inputs) (s : @Sys W) :
  wp (render_java_container_section P inp) s
    (fun o s' _ =>
       ((exists e, o = Raise e) /\ fs s' = fs s /\ session s' = session s)
       \/ consistent (manager_of P s) s').
Proof.
  assert (Hbody : forall s0 : @Sys W,
            fs s0 = fs s -> session s0 = session s ->
            wp (bind (@_initialize_session_state W (manager_of P s))
                  (fun _ =>
                     bind (session_get "is_running")
                       (fun is_running =>
                          bind (if truthy is_running
                                then bind (session_get "container_name")
                                       (fun name => ret (truthy name))
                                else ret false)
                            (fun believed =>
                               bind (if believed
                                     then _render_running_state P (manager_of P s) inp
                                     else bind (session_set "is_running" (PyBool false))
                                            (fun _ => clear_process_state (manager_of P s)))
                                 (fun _ =>
                                    bind (_render_input_fields inp)
                                      (fun p =>
                                         let '(log_message, iterations) := p in
                                         _render_build_run_button P (manager_of P s)
                                           log_message iterations inp)))))) s0
              (fun o s' _ =>
                 ((exists e, o = Raise e) /\ fs s' = fs s /\ session s' = session s)
                 \/ consistent (manager_of P s) s')).
  { intros s0 Hfs0 Hss0. set (self := manager_of P s).
    assert (Hlaunch : forall s3 : @Sys W,
              consistent self s3 ->
              wp (bind (_render_input_fields inp)
                    (fun p => let '(log_message, iterations) := p in
                              _render_build_run_button P self log_message iterations inp)) s3
                (fun o s' _ =>
                   ((exists e, o = Raise e) /\ fs s' = fs s /\ session s' = session s)
                   \/ consistent self s')).
    { intros s3 Hc. apply wp_bind, wp_frame; [apply frame_input_fields|].
      intros o3 s4 t4 Hfs4 Hss4 _.
      assert (Hc4 : consistent self s4) by exact (consistent_same _ _ _ Hfs4 Hss4 Hc).
      destruct o3 as [[lm n]|e|]; [|right; exact Hc4|right; exact Hc4].
      eapply wp_mono; [apply launch_store|]. cbv beta.
      intros o5 s5 t5 [Hnone|[[Hfs5 Hss5]|Htrue]]; right.
      - now apply consistent_absent.
      - exact (consistent_same _ _ _ Hfs5 Hss5 Hc4).
      - exact (consistent_believed _ _ _ Htrue eq_refl). }
    assert (Hidle : forall s2 : @Sys W,
              wp (bind (bind (@session_set W "is_running" (PyBool false))
                          (fun _ => clear_process_state self))
                    (fun _ =>
                       bind (_render_input_fields inp)
                         (fun p => let '(log_message, iterations) := p in
                                   _render_build_run_button P self log_message iterations inp)))
                 s2
                (fun o s' _ =>
                   ((exists e, o = Raise e) /\ fs s' = fs s /\ session s' = session s)
                   \/ consistent self s')).
    { intros s2. do 4 wp_step.
      eapply wp_mono; [apply Hlaunch|intros o s' t H; exact H].
      apply consistent_absent. wp_state. apply lookup_delete_eq. }
    apply wp_bind. eapply wp_mono; [apply initialize_store|]. cbv beta.
    intros o s1 t1 [Hfs1 [[[e ->] Hss1]|[-> Hinit]]].
    { left. split; [eauto|]. split; congruence. }
    apply wp_bind, wp_session_get.
    destruct (session s1 !! "is_running") as [v|] eqn:Hv; cbv beta iota.
    2:{ destruct Hinit as [Hss1|[x Hx]]; [|congruence].
        left. split; [eauto|]. split; congruence. }
    destruct (truthy v) eqn:Htr.
    2:{ apply wp_bind, wp_ret. cbv beta iota.
        eapply wp_mono; [apply Hidle|intros o s' t H; exact H]. }
    apply wp_bind, wp_bind, wp_session_get.
    destruct (session s1 !! "container_name") as [name|] eqn:Hname; cbv beta iota.
    2:{ right. exact (consistent_believed _ _ _ Hv Htr). }
    apply wp_ret. cbv beta iota.
    destruct (truthy name).
    2:{ eapply wp_mono; [apply Hidle|intros o s' t H; exact H]. }
    apply wp_bind. eapply wp_mono; [apply poll_store|]. cbv beta.
    intros o2 s2 t2 Hpoll.
    assert (Hc2 : consistent self s2).
    { destruct Hpoll as [Hnone|[Hfs2 Hss2]]; [now apply consistent_absent|].
      apply (consistent_believed _ _ v); [now rewrite Hss2|exact Htr]. }
    destruct o2 as [[]|e|]; [|right; exact Hc2|right; exact Hc2].
    eapply wp_mono; [apply Hlaunch; exact Hc2|intros o s' t H; exact H]. }
  unfold render_java_container_section.
  do 4 wp_step. apply wp_bind, wp_session_manager.
  unfold manager_of in *.
  destruct (java_manager s) as [m|]; cbn [default] in *; cbv beta iota.
  - eapply wp_mono; [apply Hbody; reflexivity|intros o s' t H; exact H].
  - destruct (from_env P (world s)) as [[e|u] w].
    + left. split; [eauto|]. split; reflexivity.
    + eapply wp_mono; [apply Hbody; reflexivity|intros o s' t H; exact H].
Qed.

(** X8.  Whatever the browser sends and whatever Docker and the host answer,
    a script run that ends without an exception leaves the state file in
    place only if the session believes a run is active; and a script run
    that starts from such a state ends in such a state, also when it
    raises.  The manager is the one [session_manager] returns when it does
    not raise: the one of the session, created with the default name when
    the session has none. *)
Theorem script_run_keeps_state_file_consistent (inp : Inputs) (s : @Sys W) :
  let r := render_java_container_section P inp s in
  let self := manager_of P s in
  ((forall e, outcome_of (session_manager P s) <> Raise e) ->
   outcome_of (session_manager P s) = Ret self)
  /\ ((forall e, outcome_of r <> Raise e) -> consistent self (state_of r))
  /\ (consistent self s -> consistent self (state_of r)).
Proof.
  cbv zeta. pose proof (run_store inp s) as H. unfold wp in H.
  split; [|split].
  - pose proof (wp_session_manager P s
                  (fun o _ _ => (forall e, o <> Raise e) -> o = Ret (manager_of P s))) as Hm.
    unfold wp in Hm. apply Hm. unfold manager_of.
    destruct (java_manager s) as [m|]; [reflexivity|].
    destruct (from_env P (world s)) as [[e|u] w]; [|reflexivity].
    intros Hno. now destruct (Hno e).
  - intros Hno. destruct H as [[[e He] _]|Hc]; [|exact Hc]. now destruct (Hno e).
  - intros Hc0. destruct H as [[_ [Hfs Hss]]|Hc]; [|exact Hc].
    exact (consistent_same _ _ _ Hfs Hss Hc0).
Qed.

End Consistency.

(** ** Script runs without a press *)

Section Unpressed.

Context {W : Type} (P : Platform W).

Lemma emits_unpressed_stop self inp (Q : event -> Prop) :
  stop_clicked inp = false ->
  Q (EvUi (UiButton "Stop Application" (PyBool false))) ->
  emits (_render_stop_button P self inp) Q.
Proof.
  intros Hs HQ s. unfold _render_stop_button, st_button. rewrite Hs.
  unfold events_of, bind, ui, emit, ret. simpl. repeat constructor. exact HQ.
Qed.

Lemma emits_unpressed_run self lm n inp (Q : event -> Prop) :
  run_clicked inp = false ->
  (forall d, Q (EvUi (UiButton "Build & Run Java App" d))) ->
  emits (_render_build_run_button P self lm n inp) Q.
Proof.
  intros Hr HQ s. unfold _render_build_run_button, st_button. rewrite Hr.
  unfold events_of, bind, ui, emit, ret, session_get.
  destruct (session s !! "is_running"); simpl; repeat constructor. apply HQ.
Qed.

(** X9.  A script run in which the browser reports no press of the stop
    button and none of the launch button only reads from Docker: it creates
    the client when the session has no manager, looks containers up and runs
    the probe [pgrep], blocking and with an empty environment.  It starts, creates, builds and removes nothing, sends no
    kill and launches no workload.  It never writes the state file, though
    it may remove it. *)
Theorem unpressed_run_only_reads (inp : Inputs) (s : @Sys W) :
  stop_clicked inp = false ->
  run_clicked inp = false ->
  Forall (fun ev => read_only ev = true /\ is_state_write ev = false)
    (events_of (render_java_container_section P inp s)).
Proof.
  intros Hs Hr. revert s.
  change (emits (render_java_container_section P inp)
            (fun ev => read_only ev = true /\ is_state_write ev = false)).
  unfold render_java_container_section.
  repeat lazymatch goal with
    | |- emits (_render_stop_button _ _ _) _ =>
        apply emits_unpressed_stop; [exact Hs|split; reflexivity]
    | |- emits (_render_build_run_button _ _ _ _ _) _ =>
        apply emits_unpressed_run; [exact Hr|intros ?; split; reflexivity]
    | |- emits (_render_running_state _ _ _) _ => unfold _render_running_state
    | |- _ => emits_step ltac:(split; reflexivity)
    end.
Qed.

End Unpressed.

(** ** Failures during the launch *)

Section LaunchRobust.

Context {W : Type} (P : Platform W) (self : JavaContainerManager).

Lemma execute_java_app_no_host lm n lf :
  emits (_execute_java_app P self lm n lf) (fun ev => host_failed ev = false).
Proof. repeat emits_step ltac:(reflexivity). Qed.

Lemma execute_java_app_never_raises lm n lf (s : @Sys W) :
  wp (_execute_java_app P self lm n lf) s
    (fun o _ t => (o = Rerun \/ o = Ret tt) /\ Forall (fun ev => host_failed ev = false) t).
Proof.
  split.
  - destruct (_execute_java_app_cases P self lm n lf s) as [(H & _)|(H & _)]; auto.
  - apply execute_java_app_no_host.
Qed.

Lemma launch_robust_wp lm n inp (s : @Sys W) (d : pyval) :
  session s !! "is_running" = Some d ->
  wp (_render_build_run_button P self lm n inp) s
    (fun o s' t =>
       ((exists e, o = Raise e) <-> Exists (fun ev => host_failed ev = true) t)
       /\ (Exists (fun ev => host_failed ev = true) t ->
           Forall (fun ev => is_gateway ev = false) t
           /\ fs s' = fs s /\ session s' = session s)).
Proof.
  intros Hd.
  unfold _render_build_run_button, st_button, prepare_log_file, build_image.
  apply wp_bind, wp_session_get. rewrite Hd. cbv beta iota.
  repeat wp_step.
  all: wp_state; cbn [app].
  all: lazymatch goal with
       | |- wp _ _ _ =>
           eapply wp_mono; [apply execute_java_app_never_raises|]; cbv beta;
           intros o s' t [Ho Hall];
           assert (Hno : Exists (fun ev => host_failed ev = true) t -> False)
             by (intros Hex; revert Hall Hex; apply Forall_Exists_absurd;
                 intros ev Ha Hb; congruence);
           split;
           [split;
            [intros [ex He]; destruct Ho as [Ho|Ho]; rewrite Ho in He; discriminate He
            |intros Hex; exfalso; refute_Exists Hex; exact (Hno Hex)]
           |intros Hex; exfalso; refute_Exists Hex; exact (Hno Hex)]
       | |- ((exists e, Raise _ = Raise e) <-> _) /\ _ =>
           split;
           [split; [intros _; solve_Exists|intros _; eauto]
           |intros _; split; [solve_Forall|split; reflexivity]]
       | |- _ =>
           split;
           [split;
            [intros [ex He]; discriminate He
            |intros Hex; exfalso; unfold clear_trace in Hex;
             try destruct (bool_decide _) in Hex; refute_Exists Hex]
           |intros Hex; exfalso; unfold clear_trace in Hex;
            try destruct (bool_decide _) in Hex; refute_Exists Hex]
       end.
Qed.

(** X10.  No failure of Docker escapes the launch as an exception: with the
    belief defined in the session, a press of the launch button raises
    exactly when an operation on the log file raised.  That is before any
    call into Docker, and the state file and the session are then as they
    were.  The log file itself need not be: when its creation raises, the log
    of the earlier run has already been removed. *)
Theorem launch_raises_only_for_the_log_file
    (lm : string) (n : Z) (inp : Inputs) (s : @Sys W) (d : pyval) :
  session s !! "is_running" = Some d ->
  let r := _render_build_run_button P self lm n inp s in
  ((exists e, outcome_of r = Raise e)
   <-> Exists (fun ev => host_failed ev = true) (events_of r))
  /\ (Exists (fun ev => host_failed ev = true) (events_of r) ->
      Forall (fun ev => is_gateway ev = false) (events_of r)
      /\ fs (state_of r) = fs s /\ session (state_of r) = session s).
Proof. intros Hd. exact (launch_robust_wp lm n inp s d Hd). Qed.

End LaunchRobust.

(** ** The button that removes the container *)

Section RemoveButton.

Context {W : Type} (P : Platform W) (self : JavaContainerManager).

Lemma remove_button_wp (clicked : bool) (s : @Sys W) (d : pyval) :
  session s !! "is_running" = Some d ->
  wp (_render_remove_container_button P self clicked) s
    (fun o s' t =>
       fs s' = fs s
       /\ session s' = session s
       /\ (forall e, o <> Raise e)
       /\ (truthy d = true -> o = Ret tt /\ s' = s /\ t = [])
       /\ (Exists (fun ev => is_removal ev = true) t ->
           clicked = true
           /\ truthy d = false
           /\ exists c c' res,
                t = [ EvGet (PyStr (container_name self)) (inr c);
                      EvUi (UiButton "Remove Container" (PyBool false));
                      EvGet (PyStr (container_name self)) (inr c');
                      EvRemove c' true res;
                      EvUi (match res with
                            | inr _ => UiSuccess (MsgText "Container removed")
                            | inl e => UiError (MsgText ("Failed to remove: " +:+ exn_msg e))
                            end) ])
       /\ (o = Rerun
           <-> Exists (fun ev => is_removal ev && negb (failed ev) = true) t)).
Proof.
  intros Hd.
  unfold _render_remove_container_button, st_button, get_container_status, remove_container.
  apply wp_bind, wp_session_get. rewrite Hd. cbv beta iota.
  destruct (truthy d) eqn:Htr; cbn [negb]; cbv iota.
  all: repeat wp_step.
  all: wp_state; cbn [app].
  all: split; [reflexivity|]; split; [reflexivity|];
    split; [intros ? Hx; discriminate Hx|].
  all: split; [first [intros _; repeat split; reflexivity|intros Ht; discriminate Ht]|].
  all: split;
    [first [ intros Hex; refute_Exists Hex; fail
           | intros _; split; [first [assumption|reflexivity]|];
             split; [reflexivity|];
             lazymatch goal with
             | |- context [EvGet _ (inr ?a) :: EvUi _ :: EvGet _ (inr ?b)
                             :: EvRemove _ _ ?r :: _] =>
                 exists a, b, r; reflexivity
             end ]
    |split;
     [first [intros Hx; discriminate Hx|intros _; solve_Exists]
     |first [intros _; reflexivity|intros Hex; exfalso; refute_Exists Hex]]].
Qed.

(** X11.  [_render_remove_container_button] changes neither the files nor
    the session and lets no failure of Docker out as an exception.  While
    the session believes a run is active it draws nothing and asks Docker
    nothing.  It removes a container only when the belief is unset, a lookup
    found the container and the button was pressed; it looks the container up
    again and removes it by force.  It asks for a rerun exactly when the
    removal succeeded. *)
Theorem remove_button_cases (clicked : bool) (s : @Sys W) (d : pyval) :
  session s !! "is_running" = Some d ->
  let r := _render_remove_container_button P self clicked s in
  fs (state_of r) = fs s
  /\ session (state_of r) = session s
  /\ (forall e, outcome_of r <> Raise e)
  /\ (truthy d = true -> outcome_of r = Ret tt /\ state_of r = s /\ events_of r = [])
  /\ (Exists (fun ev => is_removal ev = true) (events_of r) ->
      clicked = true
      /\ truthy d = false
      /\ exists c c' res,
           events_of r
           = [ EvGet (PyStr (container_name self)) (inr c);
               EvUi (UiButton "Remove Container" (PyBool false));
               EvGet (PyStr (container_name self)) (inr c');
               EvRemove c' true res;
               EvUi (match res with
                     | inr _ => UiSuccess (MsgText "Container removed")
                     | inl e => UiError (MsgText ("Failed to remove: " +:+ exn_msg e))
                     end) ])
  /\ (outcome_of r = Rerun
      <-> Exists (fun ev => is_removal ev && negb (failed ev) = true) (events_of r)).
Proof. intros Hd. exact (remove_button_wp clicked s d Hd). Qed.

End RemoveButton.

(** ** The log views *)

Section Logs.

Context {W : Type} (P : Platform W) (self : JavaContainerManager).

Ltac logs_leaf lf :=
  wp_state; cbn [app];
  lazymatch goal with
  | |- (Raise _ = _ /\ _) \/ _ => right; eexists; split; reflexivity
  | |- context [EvHostRead _ (inr ?c)] =>
      left; split; [reflexivity|];
      exists [EvHostExists lf (inr true); EvHostRead lf (inr c)], c;
      split; [|right; right; reflexivity];
      unfold log_view; destruct (String.eqb c ""); cbn [negb] in *;
      try discriminate; reflexivity
  | |- context [EvHostRead _ (inl ?e)] =>
      left; split; [reflexivity|];
      exists [EvHostExists lf (inr true); EvHostRead lf (inl e)], "";
      split; [reflexivity|right; left; eauto]
  | |- _ =>
      left; split; [reflexivity|];
      exists [EvHostExists lf (inr false)], "";
      split; [reflexivity|left; split; reflexivity]
  end.

Lemma show_final_logs_wp (s : @Sys W) (lf : pyval) :
  session s !! "log_file" = Some lf ->
  truthy lf = true ->
  wp (_show_final_logs P self) s
    (fun o _ t =>
       (o = Ret tt
        /\ exists reads content,
             t = reads ++ log_view true content /\ reads_log lf content reads)
       \/ (exists e, o = Raise e /\ t = [EvHostExists lf (inl e)])).
Proof.
  intros Hlf Htr. unfold _show_final_logs, read_logs.
  apply wp_bind, wp_session_get. rewrite Hlf. cbv beta iota. rewrite Htr. cbv iota.
  apply wp_bind, wp_session_get. rewrite Hlf. cbv beta iota.
  repeat wp_step.
  all: logs_leaf lf.
Qed.

Lemma stream_live_logs_wp (s : @Sys W) (lf : pyval) :
  session s !! "log_file" = Some lf ->
  truthy lf = true ->
  wp (_stream_live_logs P self) s
    (fun o _ t =>
       (o = Rerun
        /\ exists reads content,
             t = reads ++ log_view false content ++ [EvSleep 1]
             /\ reads_log lf content reads)
       \/ (exists e, o = Raise e /\ t = [EvHostExists lf (inl e)])).
Proof.
  intros Hlf Htr. unfold _stream_live_logs, read_logs.
  apply wp_bind, wp_session_get. rewrite Hlf. cbv beta iota. rewrite Htr. cbv iota.
  apply wp_bind, wp_session_get. rewrite Hlf. cbv beta iota.
  repeat wp_step.
  all: logs_leaf lf.
Qed.

(** X12.  With no log file in the session ([None] or an empty path), the
    two log views do nothing: in particular the live view asks for no
    rerun.  With a log file, both read it once, take a file that is not there
    and a read that raised for the empty text, and draw the text only when it
    is not empty.  The final view then returns; the live view always sleeps
    one second and asks for a rerun, whether or not there was a text to draw.
    Only the existence test can raise.  Neither view changes the files or the
    session. *)
Theorem log_views (s : @Sys W) (lf : pyval) :
  session s !! "log_file" = Some lf ->
  let final := _show_final_logs P self s in
  let live := _stream_live_logs P self s in
  (truthy lf = false -> final = (Ret tt, s, []) /\ live = (Ret tt, s, []))
  /\ (truthy lf = true ->
      ((outcome_of final = Ret tt
        /\ exists reads content,
             events_of final = reads ++ log_view true content
             /\ reads_log lf content reads)
       \/ (exists e, outcome_of final = Raise e
                     /\ events_of final = [EvHostExists lf (inl e)]))
      /\ ((outcome_of live = Rerun
           /\ exists reads content,
                events_of live = reads ++ log_view false content ++ [EvSleep 1]
                /\ reads_log lf content reads)
          \/ (exists e, outcome_of live = Raise e
                        /\ events_of live = [EvHostExists lf (inl e)])))
  /\ fs (state_of final) = fs s /\ session (state_of final) = session s
  /\ fs (state_of live) = fs s /\ session (state_of live) = session s.
Proof.
  intros Hlf. cbv zeta. split; [|split].
  - intros Htr. unfold _show_final_logs, _stream_live_logs, bind, session_get.
    rewrite Hlf, Htr. split; reflexivity.
  - intros Htr. split.
    + exact (show_final_logs_wp s lf Hlf Htr).
    + exact (stream_live_logs_wp s lf Hlf Htr).
  - destruct (frame_show_final_logs P self s) as (H1 & H2 & _).
    destruct (frame_stream_live_logs P self s) as (H3 & H4 & _).
    auto.
Qed.

End Logs.

(** ** The paths of the state file and of the log file *)

Section Paths.

Lemma append_cons (x : ascii) (a b : string) : String x a +:+ b = String x (a +:+ b).
Proof. reflexivity. Qed.

Lemma append_assoc (a b c : string) : (a +:+ b) +:+ c = a +:+ (b +:+ c).
Proof.
  induction a as [|x a IH]; [reflexivity|]. rewrite !append_cons. now rewrite IH.
Qed.

Lemma append_inv_l (a b c : string) : a +:+ b = a +:+ c -> b = c.
Proof.
  induction a as [|x a IH]; [exact id|]. rewrite !append_cons. intros [= H]. auto.
Qed.

Lemma ends_with_sep_cons (c : ascii) (r : string) :
  r <> "" -> ends_with_sep (String c r) = ends_with_sep r.
Proof. destruct r; [congruence|reflexivity]. Qed.

Lemma append_nonempty (x : string) (c : ascii) (t : string) : x +:+ String c t <> "".
Proof. destruct x; discriminate. Qed.

(** A path that ends in a name of the shape [r] = [cr'] with no separator
    in it. *)
Lemma ends_with_sep_app (x : string) (c : ascii) (t : string) :
  ends_with_sep (String c t) = false -> ends_with_sep (x +:+ String c t) = false.
Proof.
  intros Ht. induction x as [|y x IH]; [exact Ht|].
  rewrite append_cons.
  rewrite ends_with_sep_cons by apply append_nonempty. exact IH.
Qed.

Lemma has_sep_app (x t : string) : has_sep t = true -> has_sep (x +:+ t) = true.
Proof.
  intros Ht. induction x as [|y x IH]; [exact Ht|].
  rewrite append_cons. cbn [has_sep]. rewrite IH. apply orb_true_r.
Qed.

Lemma upto_last_sep_app (x t : string) :
  has_sep t = true -> upto_last_sep (x +:+ t) = x +:+ upto_last_sep t.
Proof.
  intros Ht. induction x as [|y x IH]; [reflexivity|].
  rewrite !append_cons. cbn [upto_last_sep].
  rewrite (has_sep_app x t Ht). now rewrite IH.
Qed.

Lemma all_sep_app (x t : string) : all_sep t = false -> all_sep (x +:+ t) = false.
Proof.
  intros Ht. induction x as [|y x IH]; [exact Ht|].
  rewrite append_cons. cbn [all_sep]. rewrite IH. apply andb_false_r.
Qed.

Lemma rstrip_sep_app (x : string) (c : ascii) (t : string) :
  rstrip_sep (x +:+ String c t) = x +:+ rstrip_sep (String c t)
  \/ rstrip_sep (String c t) = "".
Proof.
  destruct (rstrip_sep (String c t)) as [|c' t'] eqn:Ht; [now right|left].
  induction x as [|y x IH]; [exact Ht|].
  rewrite !append_cons. cbn [rstrip_sep]. rewrite IH.
  destruct x; reflexivity.
Qed.

(** [os.path.join(d, name)] and [os.path.dirname] of it, for a directory
    that ends in [java_app] and a file name without a separator. *)
Lemma join_under_java_app (x name : string) :
  starts_with_sep name = false ->
  os_path_join (x +:+ "java_app") name = (x +:+ "java_app") +:+ "/" +:+ name.
Proof.
  intros Hn. unfold os_path_join. rewrite Hn.
  rewrite (ends_with_sep_app x "j" "ava_app" eq_refl).
  destruct x; reflexivity.
Qed.

Lemma join_java_app (cwd : string) :
  exists x, os_path_join cwd "java_app" = x +:+ "java_app".
Proof.
  unfold os_path_join. cbn [starts_with_sep is_sep].
  change (Ascii.eqb "j" "/") with false. cbv iota.
  destruct (String.eqb cwd "" || ends_with_sep cwd).
  - now exists cwd.
  - exists (cwd +:+ "/"). symmetry. apply append_assoc.
Qed.

End Paths.

Section PathsOfTheProgram.

Context {W : Type} (P : Platform W).

(** X13.  Whatever the working directory, the state file of a manager and
    the log file of a launch are two different files directly under the
    directory [java_app] of the working directory, and the directory that
    [save_process_state] creates before it writes is that directory. *)
Theorem state_file_and_log_file_paths (name : string) :
  let self := JavaContainerManager_init P name in
  let java_app_dir := os_path_join (getcwd P) "java_app" in
  let host_log_file := os_path_join java_app_dir "app_host.log" in
  state_file self = java_app_dir +:+ "/process_state.json"
  /\ host_log_file = java_app_dir +:+ "/app_host.log"
  /\ os_path_dirname (state_file self) = java_app_dir
  /\ state_file self <> host_log_file.
Proof.
  cbv zeta. unfold JavaContainerManager_init. cbn [state_file].
  destruct (join_java_app (getcwd P)) as [x ->].
  rewrite !join_under_java_app by reflexivity.
  split; [reflexivity|]. split; [reflexivity|]. split.
  - unfold os_path_dirname. rewrite append_assoc.
    change ("java_app" +:+ "/" +:+ "process_state.json") with "java_app/process_state.json".
    rewrite (upto_last_sep_app x "java_app/process_state.json" eq_refl).
    change (upto_last_sep "java_app/process_state.json") with "java_app/".
    rewrite (all_sep_app x "java_app/" eq_refl).
    destruct (rstrip_sep_app x "j" "ava_app/") as [-> | H]; [reflexivity|discriminate H].
  - intros H. apply append_inv_l in H. discriminate H.
Qed.

End PathsOfTheProgram.

(** ** A restart after a launch *)

Section Restart.

Context {W : Type} (P : Platform W) (self : JavaContainerManager).

Lemma launch_rerun_state lm n inp (s : @Sys W) :
  wp (_render_build_run_button P self lm n inp) s
    (fun o s' _ =>
       o = Rerun ->
       exists start_time,
         fs s' = <[state_file self :=
                    Whole (state_dict PyNone
                             (PyStr (os_path_join (os_path_join (getcwd P) "java_app")
                                       "app_host.log"))
                             (PyStr start_time) (PyBool true)
                             (PyStr (container_name self)))]> (fs s)
         /\ session s'
            = <["container_name" := PyStr (container_name self)]>
              (<["start_time" := PyStr start_time]>
              (<["log_file" := PyStr (os_path_join (os_path_join (getcwd P) "java_app")
                                        "app_host.log")]>
              (<["is_running" := PyBool true]>
              (<["process_pid" := PyNone]> (session s)))))).
Proof.
  unfold _render_build_run_button, st_button, prepare_log_file, build_image.
  repeat wp_step.
  all: try (intros Hr; discriminate Hr).
  all: eapply wp_mono; [apply _execute_java_app_cases|]; cbv beta.
  all: intros o s' t [(-> & (start & Hfs & Hss) & _)|(-> & _)] Hr; [|discriminate Hr].
  all: exists start; rewrite Hfs, Hss; split; reflexivity.
Qed.

(** X14.  A launch that ended with the rerun request has set the five
    session values, and a controller that starts afterwards with an empty
    session gets the same five values from the state file: the belief that a
    run is active, the log file of the launch, its start time, the manager's
    container name and no pid.  The initialization leaves the state file as
    it is. *)
Theorem restart_resumes_the_launched_session
    (lm : string) (n : Z) (inp : Inputs) (s0 s1 : @Sys W) (t1 : list event)
    (w : W) (jm : option JavaContainerManager) :
  _render_build_run_button P self lm n inp s0 = (Rerun, s1, t1) ->
  let log_file := os_path_join (os_path_join (getcwd P) "java_app") "app_host.log" in
  let s2 := {| world := w; fs := fs s1; session := ∅; java_manager := jm |} in
  let r := @_initialize_session_state W self s2 in
  exists start_time,
    session s1
    = <["container_name" := PyStr (container_name self)]>
      (<["start_time" := PyStr start_time]>
      (<["log_file" := PyStr log_file]>
      (<["is_running" := PyBool true]>
      (<["process_pid" := PyNone]> (session s0)))))
    /\ outcome_of r = Ret tt
    /\ session (state_of r) = active_session (container_name self) log_file start_time
    /\ fs (state_of r) = fs s1.
Proof.
  intros Hlaunch. cbv zeta.
  destruct (wp_elim _ _ _ _ _ _ (launch_rerun_state _ _ _ _) Hlaunch eq_refl)
    as (start_time & Hfs & Hss).
  exists start_time. split; [exact Hss|].
  apply (wp_initialize_from_file self PyNone
           (PyStr (os_path_join (os_path_join (getcwd P) "java_app") "app_host.log"))
           (PyStr start_time) (PyBool true) (PyStr (container_name self))
           {| world := w; fs := fs s1; session := ∅; java_manager := jm |}
           (fun o s' _ =>
              o = Ret tt
              /\ session s'
                 = active_session (container_name self)
                     (os_path_join (os_path_join (getcwd P) "java_app") "app_host.log")
                     start_time
              /\ fs s' = fs s1)).
  - apply lookup_empty.
  - cbn [fs]. rewrite Hfs. apply lookup_insert_eq.
  - split; [reflexivity|]. split; reflexivity.
Qed.

End Restart.

(** ** Exceptions that leave a script run *)

Section Safe.

Context {W : Type} (P : Platform W).

Lemma session_ready_insert (k : string) (v : pyval) (ss : gmap string pyval) :
  session_ready ss = true -> session_ready (<[k := v]> ss) = true.
Proof.
  unfold session_ready. rewrite !forallb_forall. intros H x Hx.
  specialize (H x Hx). apply bool_decide_eq_true in H. apply bool_decide_eq_true.
  destruct (decide (k = x)) as [->|Hne].
  - rewrite lookup_insert_eq. eauto.
  - now rewrite lookup_insert_ne.
Qed.

Lemma session_ready_lookup (k : string) (ss : gmap string pyval) :
  session_ready ss = true ->
  In k ["process_pid"; "is_running"; "log_file"; "start_time"; "container_name"] ->
  is_Some (ss !! k).
Proof.
  unfold session_ready. rewrite forallb_forall. intros H Hk.
  specialize (H k Hk). now apply bool_decide_eq_true in H.
Qed.

Lemma safe_ret {A} (a : A) : safe (@ret W A a).
Proof. intros s Hs. split; [exact Hs|]. intros e He. discriminate He. Qed.

Lemma safe_rerun {A} : safe (@st_rerun W A).
Proof. intros s Hs. split; [exact Hs|]. intros e He. discriminate He. Qed.

Lemma safe_emit ev : safe (@emit W ev).
Proof. intros s Hs. split; [exact Hs|]. intros e He. discriminate He. Qed.

Lemma safe_ui u : safe (@ui W u).
Proof. apply safe_emit. Qed.

Lemma safe_bind {A B} (m : @M W A) (f : A -> M B) :
  safe m -> (forall a, safe (f a)) -> safe (bind m f).
Proof.
  intros Hm Hf s Hs. destruct (Hm s Hs) as [Hr Hx].
  unfold bind, state_of, outcome_of, events_of in *.
  destruct (m s) as [[[a|e|] s1] t1]; simpl in *.
  - destruct (Hf a s1 Hr) as [Hr2 Hx2].
    unfold state_of, outcome_of, events_of in *.
    destruct (f a s1) as [[o2 s2] t2]. simpl in *.
    split; [exact Hr2|]. intros e He. apply Exists_app. right. exact (Hx2 e He).
  - split; [exact Hr|]. intros e' _. exact (Hx e eq_refl).
  - split; [exact Hr|]. intros e He. discriminate He.
Qed.

(** A handler around a piece that changes only the world: what the piece
    raises does not get out. *)
Lemma safe_try_except {A} (m : @M W A) (h : exn -> M A) :
  frame m -> (forall e, safe (h e)) -> safe (try_except m h).
Proof.
  intros Hm Hh s Hs. destruct (Hm s) as (_ & Hss & _).
  unfold try_except, state_of, outcome_of, events_of in *.
  destruct (m s) as [[[a|e|] s1] t1]; simpl in *.
  - split; [now rewrite Hss|]. intros e He. discriminate He.
  - rewrite <- Hss in Hs. destruct (Hh e s1 Hs) as [Hr2 Hx2].
    unfold state_of, outcome_of, events_of in *.
    destruct (h e s1) as [[o2 s2] t2]. simpl in *.
    split; [exact Hr2|]. intros e' He. apply Exists_app. right. exact (Hx2 e' He).
  - split; [now rewrite Hss|]. intros e He. discriminate He.
Qed.

Lemma safe_try_except_bare {A} (m : @M W A) (h : M A) :
  frame m -> safe h -> safe (try_except_bare m h).
Proof.
  intros Hm Hh s Hs. destruct (Hm s) as (_ & Hss & _).
  unfold try_except_bare, state_of, outcome_of, events_of in *.
  destruct (m s) as [[[a|e|] s1] t1]; simpl in *.
  - split; [now rewrite Hss|]. intros e He. discriminate He.
  - rewrite <- Hss in Hs. destruct (Hh s1 Hs) as [Hr2 Hx2].
    unfold state_of, outcome_of, events_of in *.
    destruct (h s1) as [[o2 s2] t2]. simpl in *.
    split; [exact Hr2|]. intros e' He. apply Exists_app. right. exact (Hx2 e' He).
  - rewrite <- Hss in Hs. destruct (Hh s1 Hs) as [Hr2 Hx2].
    unfold state_of, outcome_of, events_of in *.
    destruct (h s1) as [[o2 s2] t2]. simpl in *.
    split; [exact Hr2|]. intros e' He. apply Exists_app. right. exact (Hx2 e' He).
Qed.

(** A call on the log file: its exception is recorded as a failure. *)
Lemma safe_call {A} (op : W -> result A * W) (ev : result A -> event) :
  (forall e, host_failed (ev (inl e)) = true) -> safe (call op ev).
Proof.
  intros Hev s Hs. unfold call, state_of, outcome_of, events_of.
  destruct (op (world s)) as [[e|a] w]; simpl.
  - split; [exact Hs|]. intros _ _. apply Exists_cons_hd. apply Hev.
  - split; [exact Hs|]. intros e He. discriminate He.
Qed.

Lemma safe_session_get key :
  In key ["process_pid"; "is_running"; "log_file"; "start_time"; "container_name"] ->
  safe (@session_get W key).
Proof.
  intros Hk s Hs. destruct (session_ready_lookup key _ Hs Hk) as [v Hv].
  unfold session_get, state_of, outcome_of, events_of. rewrite Hv. simpl.
  split; [exact Hs|]. intros e He. discriminate He.
Qed.

Lemma safe_session_set key v : safe (@session_set W key v).
Proof.
  intros s Hs. split; [now apply session_ready_insert|]. intros e He. discriminate He.
Qed.

Lemma safe_session_has key : safe (@session_has W key).
Proof. intros s Hs. split; [exact Hs|]. intros e He. discriminate He. Qed.

Lemma safe_time_sleep secs : safe (time_sleep P secs).
Proof. intros s Hs. split; [exact Hs|]. intros e He. discriminate He. Qed.

Lemma safe_clear self : safe (@clear_process_state W self).
Proof.
  intros s Hs. rewrite clear_process_state_eq.
  split; [exact Hs|]. intros e He. discriminate He.
Qed.

Lemma safe_execute_java_app self lm n lf : safe (_execute_java_app P self lm n lf).
Proof.
  intros s Hs.
  destruct (_execute_java_app_cases P self lm n lf s)
    as [(Ho & (st & _ & Hss) & _)|(Ho & _ & Hss & _)].
  - split; [rewrite Hss; repeat apply session_ready_insert; exact Hs|].
    intros e He. rewrite Ho in He. discriminate He.
  - split; [rewrite Hss; apply session_ready_insert; exact Hs|].
    intros e He. rewrite Ho in He. discriminate He.
Qed.

(** An initialized session is not initialized again. *)
Lemma safe_initialize self : safe (@_initialize_session_state W self).
Proof.
  intros s Hs.
  assert (Hpid : is_Some (session s !! "process_pid"))
    by (apply (session_ready_lookup _ _ Hs); simpl; auto).
  unfold _initialize_session_state, bind, session_has, ret, state_of, outcome_of, events_of.
  rewrite bool_decide_eq_true_2 by exact Hpid. simpl.
  split; [exact Hs|]. intros e He. discriminate He.
Qed.

End Safe.

Ltac safe_key := simpl; tauto.

(** One step of the proof that a piece of the pages is safe. *)
Ltac safe_step :=
  lazymatch goal with
  | |- safe (_initialize_session_state _) => apply safe_initialize
  | |- safe (_execute_java_app _ _ _ _ _) => apply safe_execute_java_app
  | |- safe (clear_process_state _) => apply safe_clear
  | |- safe (bind _ _) => apply safe_bind; [|intros ?]
  | |- safe (ret _) => apply safe_ret
  | |- safe st_rerun => apply safe_rerun
  | |- safe (emit _) => apply safe_emit
  | |- safe (ui _) => apply safe_ui
  | |- safe (try_except _ _) => apply safe_try_except; [repeat frame_step|intros ?]
  | |- safe (try_except_bare _ _) => apply safe_try_except_bare; [repeat frame_step|]
  | |- safe (call _ _) => apply safe_call; intros ?; reflexivity
  | |- safe (session_get _) => apply safe_session_get; safe_key
  | |- safe (session_set _ _) => apply safe_session_set
  | |- safe (session_has _) => apply safe_session_has
  | |- safe (time_sleep _ _) => apply safe_time_sleep
  | |- safe (if ?b then _ else _) => destruct b
  | |- safe (match ?x with _ => _ end) => destruct x
  | |- safe (is_container_running _ _ _) => unfold is_container_running, get_container_status
  | |- safe (is_java_process_running _ _ _) => unfold is_java_process_running
  | |- safe (stop_java_app _ _ _) => unfold stop_java_app
  | |- safe (build_image _ _ _ _) => unfold build_image
  | |- safe (prepare_log_file _ _ _) => unfold prepare_log_file
  | |- safe (read_logs _ _ _) => unfold read_logs
  | |- safe (st_button _ _ _) => unfold st_button
  | |- safe (st_text_input _ _) => unfold st_text_input
  | |- safe (st_number_input _ _ _ _) => unfold st_number_input
  | |- safe (_show_final_logs _ _) => unfold _show_final_logs
  | |- safe (_render_stop_button _ _ _) => unfold _render_stop_button
  | |- safe (_stream_live_logs _ _) => unfold _stream_live_logs
  | |- safe (_render_running_state _ _ _) => unfold _render_running_state
  | |- safe (_render_input_fields _) => unfold _render_input_fields
  | |- safe (_render_build_run_button _ _ _ _ _) => unfold _render_build_run_button
  | |- safe (render_java_container_section _ _) => unfold render_java_container_section
  end.

Section SafeRun.

Context {W : Type} (P : Platform W).

Lemma safe_pages manager inp :
  safe
    (bind (@_initialize_session_state W manager)
       (fun _ =>
          bind (session_get "is_running")
            (fun is_running =>
               bind (if truthy is_running
                     then bind (session_get "container_name") (fun name => ret (truthy name))
                     else ret false)
                 (fun believed =>
                    bind (if believed
                          then _render_running_state P manager inp
                          else bind (session_set "is_running" (PyBool false))
                                 (fun _ => clear_process_state manager))
                      (fun _ =>
                         bind (_render_input_fields inp)
                           (fun p =>
                              let '(log_message, iterations) := p in
                              _render_build_run_button P manager log_message iterations
                                inp)))))).
Proof. repeat safe_step. Qed.

(** X15.  From a session that holds the five values the pages read, a
    script run raises only when an operation on the log file raised, or when
    the session has no manager yet and the creation of the Docker client for
    it raised, which ends the run before anything else is done.  No other
    failure of Docker makes a script run raise, whatever the browser sends.
    The run leaves a session that holds the five values, so that this is
    true of every later script run as well. *)
Theorem script_run_raises_only_for_the_log_file (inp : Inputs) (s : @Sys W) :
  session_ready (session s) = true ->
  let r := render_java_container_section P inp s in
  session_ready (session (state_of r)) = true
  /\ forall e, outcome_of r = Raise e ->
               Exists (fun ev => host_failed ev = true) (events_of r)
               \/ (java_manager s = None
                   /\ events_of r = [EvUi UiTitle; EvUi UiMarkdown; EvFromEnv (inl e)]).
Proof.
  intros Hs. cbv zeta.
  change (wp (render_java_container_section P inp) s
            (fun o s' t =>
               session_ready (session s') = true
               /\ forall e, o = Raise e ->
                            Exists (fun ev => host_failed ev = true) t
                            \/ (java_manager s = None
                                /\ t = [EvUi UiTitle; EvUi UiMarkdown; EvFromEnv (inl e)]))).
  unfold render_java_container_section.
  do 4 wp_step. apply wp_bind, wp_session_manager.
  destruct (java_manager s) as [m|] eqn:Hjm.
  - cbv beta iota. destruct (safe_pages m inp s Hs) as [Hr Hx].
    split; [exact Hr|]. intros e He. left. cbn [app].
    do 2 apply Exists_cons_tl. exact (Hx e He).
  - destruct (from_env P (world s)) as [[e|u] w]; cbv beta iota.
    + split; [exact Hs|]. intros e' [= <-]. right. split; reflexivity.
    + destruct (safe_pages (JavaContainerManager_init P default_container_name) inp
                  (set_java_manager
                     (Some (JavaContainerManager_init P default_container_name))
                     (set_world w s)) Hs) as [Hr Hx].
      split; [exact Hr|]. intros e He. left. cbn [app].
      do 3 apply Exists_cons_tl. exact (Hx e He).
Qed.

End SafeRun.

(** ** The order of the steps of a launch *)

Section LaunchOrder.

Lemma precedesb_sound (p q : event -> bool) (t : list event) (seen : bool) :
  precedesb p q seen t = true ->
  forall pre ev post,
    t = pre ++ ev :: post -> q ev = true ->
    seen = true \/ Exists (fun x => p x = true) pre.
Proof.
  revert seen. induction t as [|x t IH]; intros seen Hb pre ev post Ht Hq.
  - destruct pre; discriminate Ht.
  - cbn [precedesb] in Hb. apply andb_true_iff in Hb. destruct Hb as [Hx Hrest].
    destruct pre as [|y pre]; cbn [app] in Ht; inversion Ht; subst.
    + rewrite Hq in Hx. cbn [negb orb] in Hx. now left.
    + destruct (IH _ Hrest pre ev post eq_refl Hq) as [Hseen|Hex].
      * apply orb_true_iff in Hseen. destruct Hseen as [Hseen|Hp]; [now left|].
        right. now apply Exists_cons_hd.
      * right. now apply Exists_cons_tl.
Qed.

Lemma precedesb_precedes (p q : event -> bool) (t : list event) :
  precedesb p q false t = true -> precedes p q t.
Proof.
  intros Hb pre ev post Ht Hq.
  destruct (precedesb_sound p q t false Hb pre ev post Ht Hq) as [Hf|Hex];
    [discriminate Hf|exact Hex].
Qed.

Context {W : Type} (P : Platform W) (self : JavaContainerManager).

Lemma launch_order_wp lm n inp (s : @Sys W) :
  wp (_render_build_run_button P self lm n inp) s
    (fun _ _ t =>
       precedesb log_prepared is_gateway false t = true
       /\ precedesb build_ok is_container_call false t = true
       /\ precedesb container_obtained is_workload_exec false t = true
       /\ precedesb workload_started is_state_write false t = true).
Proof.
  unfold _render_build_run_button, st_button, prepare_log_file, build_image,
    _execute_java_app, get_or_create_container, execute_java_app, unpack_pair,
    save_process_state.
  repeat wp_step.
  all: wp_state; cbn [app]; unfold clear_trace.
  all: try destruct (bool_decide _).
  all: repeat split; reflexivity.
Qed.

(** X17.  The steps of a launch come in order.  In the trace of a press of
    the launch button, every call into Docker comes after the log file was
    created; every lookup, start or creation of the container comes after the
    image was built; every exec of the workload comes after a container was
    handed to the program, by the lookup or by the creation; and every write
    of the state file comes after the exec of the workload succeeded. *)
Theorem launch_steps_in_order (lm : string) (n : Z) (inp : Inputs) (s : @Sys W) :
  let t := events_of (_render_build_run_button P self lm n inp s) in
  precedes log_prepared is_gateway t
  /\ precedes build_ok is_container_call t
  /\ precedes container_obtained is_workload_exec t
  /\ precedes workload_started is_state_write t.
Proof.
  cbv zeta. destruct (launch_order_wp lm n inp s) as (H1 & H2 & H3 & H4).
  repeat split; apply precedesb_precedes; assumption.
Qed.

End LaunchOrder.

(** ** The manager of the session *)

Section KeepsManager.

Context {W : Type} (P : Platform W).

Lemma km_ret {A} (a : A) : keeps_manager (@ret W A a).
Proof. intros s. reflexivity. Qed.

Lemma km_raise {A} e : keeps_manager (@raise W A e).
Proof. intros s. reflexivity. Qed.

Lemma km_rerun {A} : keeps_manager (@st_rerun W A).
Proof. intros s. reflexivity. Qed.

Lemma km_emit ev : keeps_manager (@emit W ev).
Proof. intros s. reflexivity. Qed.

Lemma km_ui u : keeps_manager (@ui W u).
Proof. intros s. reflexivity. Qed.

Lemma km_bind {A B} (m : @M W A) (f : A -> M B) :
  keeps_manager m -> (forall a, keeps_manager (f a)) -> keeps_manager (bind m f).
Proof.
  intros Hm Hf s. specialize (Hm s). unfold bind, state_of in *.
  destruct (m s) as [[[a|e|] s1] t1]; simpl in *; try exact Hm.
  specialize (Hf a s1). unfold state_of in Hf.
  destruct (f a s1) as [[o2 s2] t2]. simpl in *. congruence.
Qed.

Lemma km_try_except {A} (m : @M W A) (h : exn -> M A) :
  keeps_manager m -> (forall e, keeps_manager (h e)) -> keeps_manager (try_except m h).
Proof.
  intros Hm Hh s. specialize (Hm s). unfold try_except, state_of in *.
  destruct (m s) as [[[a|e|] s1] t1]; simpl in *; try exact Hm.
  specialize (Hh e s1). unfold state_of in Hh.
  destruct (h e s1) as [[o2 s2] t2]. simpl in *. congruence.
Qed.

Lemma km_try_except_bare {A} (m : @M W A) (h : M A) :
  keeps_manager m -> keeps_manager h -> keeps_manager (try_except_bare m h).
Proof.
  intros Hm Hh s. specialize (Hm s). unfold try_except_bare, state_of in *.
  destruct (m s) as [[[a|e|] s1] t1]; simpl in *; try exact Hm;
    specialize (Hh s1); unfold state_of in Hh;
    destruct (h s1) as [[o2 s2] t2]; simpl in *; congruence.
Qed.

Lemma km_call {A} (op : W -> result A * W) (ev : result A -> event) :
  keeps_manager (call op ev).
Proof. intros s. unfold call, state_of. now destruct (op (world s)). Qed.

Lemma km_session_get key : keeps_manager (@session_get W key).
Proof. intros s. unfold session_get, state_of. now destruct (session s !! key). Qed.

Lemma km_session_set key v : keeps_manager (@session_set W key v).
Proof. intros s. reflexivity. Qed.

Lemma km_session_has key : keeps_manager (@session_has W key).
Proof. intros s. reflexivity. Qed.

Lemma km_do_fs op : keeps_manager (@do_fs W op).
Proof. intros s. reflexivity. Qed.

Lemma km_os_path_exists p : keeps_manager (@os_path_exists W p).
Proof. intros s. reflexivity. Qed.

Lemma km_os_remove p : keeps_manager (@os_remove W p).
Proof. intros s. unfold os_remove, state_of. now destruct (fs s !! p). Qed.

Lemma km_json_load_from p : keeps_manager (@json_load_from W p).
Proof. intros s. reflexivity. Qed.

Lemma km_time_sleep secs : keeps_manager (time_sleep P secs).
Proof. intros s. reflexivity. Qed.

Lemma km_datetime_now : keeps_manager (datetime_now P).
Proof. intros s. unfold datetime_now, state_of. now destruct (now P (world s)). Qed.

End KeepsManager.

Ltac km_step :=
  lazymatch goal with
  | |- keeps_manager (bind _ _) => apply km_bind; [|intros ?]
  | |- keeps_manager (ret _) => apply km_ret
  | |- keeps_manager (raise _) => apply km_raise
  | |- keeps_manager st_rerun => apply km_rerun
  | |- keeps_manager (emit _) => apply km_emit
  | |- keeps_manager (ui _) => apply km_ui
  | |- keeps_manager (try_except _ _) => apply km_try_except; [|intros ?]
  | |- keeps_manager (try_except_bare _ _) => apply km_try_except_bare
  | |- keeps_manager (call _ _) => apply km_call
  | |- keeps_manager (session_get _) => apply km_session_get
  | |- keeps_manager (session_set _ _) => apply km_session_set
  | |- keeps_manager (session_has _) => apply km_session_has
  | |- keeps_manager (do_fs _) => apply km_do_fs
  | |- keeps_manager (os_path_exists _) => apply km_os_path_exists
  | |- keeps_manager (os_remove _) => apply km_os_remove
  | |- keeps_manager (json_load_from _) => apply km_json_load_from
  | |- keeps_manager (time_sleep _ _) => apply km_time_sleep
  | |- keeps_manager (datetime_now _) => apply km_datetime_now
  | |- keeps_manager (if ?b then _ else _) => destruct b
  | |- keeps_manager (match ?x with _ => _ end) => destruct x
  | |- keeps_manager _ => progress autounfold with program
  end.

Section ManagerOfTheSession.

Context {W : Type} (P : Platform W).

Lemma km_pages manager inp :
  keeps_manager
    (bind (@_initialize_session_state W manager)
       (fun _ =>
          bind (session_get "is_running")
            (fun is_running =>
               bind (if truthy is_running
                     then bind (session_get "container_name") (fun name => ret (truthy name))
                     else ret false)
                 (fun believed =>
                    bind (if believed
                          then _render_running_state P manager inp
                          else bind (session_set "is_running" (PyBool false))
                                 (fun _ => clear_process_state manager))
                      (fun _ =>
                         bind (_render_input_fields inp)
                           (fun p =>
                              let '(log_message, iterations) := p in
                              _render_build_run_button P manager log_message iterations
                                inp)))))).
Proof. repeat km_step. Qed.

Lemma pages_create_no_client manager inp :
  emits
    (bind (@_initialize_session_state W manager)
       (fun _ =>
          bind (session_get "is_running")
            (fun is_running =>
               bind (if truthy is_running
                     then bind (session_get "container_name") (fun name => ret (truthy name))
                     else ret false)
                 (fun believed =>
                    bind (if believed
                          then _render_running_state P manager inp
                          else bind (session_set "is_running" (PyBool false))
                                 (fun _ => clear_process_state manager))
                      (fun _ =>
                         bind (_render_input_fields inp)
                           (fun p =>
                              let '(log_message, iterations) := p in
                              _render_build_run_button P manager log_message iterations
                                inp))))))
    (fun ev => is_client_creation ev = false).
Proof. repeat emits_step ltac:(reflexivity). Qed.

(** X18.  The session gets its manager at most once.  A script run of a
    session that has a manager keeps it and never creates a Docker client.  A
    script run of a session that has none calls [docker.from_env()] once,
    right after the title and the text of the page.  When that succeeds, the
    session holds, however the run ends, a manager with the default
    container name and the state file under the working directory, and no
    other client is created in the run.  When it raises, the run ends there
    with that exception: nothing is stored in the session, which still has no
    manager, and the files and the session values are as they were. *)
Theorem session_keeps_its_manager (inp : Inputs) (s : @Sys W) :
  let r := render_java_container_section P inp s in
  match java_manager s with
  | Some m =>
      java_manager (state_of r) = Some m
      /\ Forall (fun ev => is_client_creation ev = false) (events_of r)
  | None =>
      match from_env P (world s) with
      | (inr u, _) =>
          java_manager (state_of r)
          = Some {| container_name := "java-app-persistent";
                    state_file := os_path_join (os_path_join (getcwd P) "java_app")
                                    "process_state.json" |}
          /\ exists t,
               events_of r = EvUi UiTitle :: EvUi UiMarkdown :: EvFromEnv (inr u) :: t
               /\ Forall (fun ev => is_client_creation ev = false) t
      | (inl e, w) =>
          r = (Raise e, set_world w s, [EvUi UiTitle; EvUi UiMarkdown; EvFromEnv (inl e)])
      end
  end.
Proof.
  cbv zeta.
  assert (Hwp : wp (render_java_container_section P inp) s
            (fun o s' t =>
               match java_manager s with
               | Some m =>
                   java_manager s' = Some m
                   /\ Forall (fun ev => is_client_creation ev = false) t
               | None =>
                   match from_env P (world s) with
                   | (inr u, _) =>
                       java_manager s'
                       = Some (JavaContainerManager_init P default_container_name)
                       /\ exists t0,
                            t = EvUi UiTitle :: EvUi UiMarkdown :: EvFromEnv (inr u) :: t0
                            /\ Forall (fun ev => is_client_creation ev = false) t0
                   | (inl e, w) =>
                       (o, s', t)
                       = (Raise e, set_world w s,
                          [EvUi UiTitle; EvUi UiMarkdown; EvFromEnv (inl e)])
                   end
               end)).
  { unfold render_java_container_section.
    do 4 wp_step. apply wp_bind, wp_session_manager.
    destruct (java_manager s) as [m|] eqn:Hjm.
    - cbv beta iota. unfold wp. split.
      + rewrite (km_pages m inp s). exact Hjm.
      + cbn [app]. do 2 (apply List.Forall_cons; [reflexivity|]).
        apply pages_create_no_client.
    - destruct (from_env P (world s)) as [[e|u] w]; cbv beta iota; [reflexivity|].
      unfold wp. split.
      + now rewrite (km_pages (JavaContainerManager_init P default_container_name) inp).
      + eexists. split; [reflexivity|]. apply pages_create_no_client. }
  unfold wp in Hwp.
  destruct (java_manager s) as [m|]; [exact Hwp|].
  destruct (from_env P (world s)) as [[e|u] w]; [|exact Hwp].
  rewrite (run_eta (render_java_container_section P inp s)). exact Hwp.
Qed.

End ManagerOfTheSession.

(** * More runs on the small daemon *)

Lemma initialize_defaults_witness :
  let s := fresh (sim_world None false) {[ sim_state_path := Torn ]} in
  session s !! "process_pid" = None
  /\ truthy (persisted sim_manager (fs s)) = false
  /\ session (state_of (_initialize_session_state sim_manager s))
     = idle_session default_container_name.
Proof.
  cbv zeta. split; [reflexivity|]. split; [vm_compute; reflexivity|].
  destruct (initialize_defaults sim_manager
              (fresh (sim_world None false) {[ sim_state_path := Torn ]}))
    as [_ ->]; [reflexivity|vm_compute; reflexivity|].
  reflexivity.
Defined.

Lemma initialize_rejects_non_object_witness :
  let s := fresh (sim_world None false) {[ sim_state_path := Whole (PyList [PyInt 1]) ]} in
  exists t,
    _initialize_session_state sim_manager s
    = (Raise {| exn_class_of := AttributeError; exn_msg := "get" |}, s, t).
Proof.
  cbv zeta.
  apply (initialize_rejects_non_object sim_manager (PyList [PyInt 1])).
  - reflexivity.
  - vm_compute. reflexivity.
  - reflexivity.
  - reflexivity.
Defined.

Lemma initialize_fills_missing_keys_witness :
  let s := fresh (sim_world None false)
             {[ sim_state_path := Whole (PyDict {[ "is_running" := PyBool true ]}) ]} in
  let s' := state_of (_initialize_session_state sim_manager s) in
  session s' !! "is_running" = Some (PyBool true)
  /\ session s' !! "container_name" = Some (PyStr default_container_name)
  /\ session s' !! "log_file" = Some PyNone.
Proof.
  cbv zeta.
  destruct (initialize_fills_missing_keys sim_manager {[ "is_running" := PyBool true ]}
              (fresh (sim_world None false)
                 {[ sim_state_path := Whole (PyDict {[ "is_running" := PyBool true ]}) ]}))
    as [_ ->]; [reflexivity|vm_compute; reflexivity|].
  repeat split; vm_compute; reflexivity.
Defined.

Lemma start_failure_of_exited_container_witness :
  let s := sim_idle (sim_world (Some "exited") false) in
  get_or_create_container sim_faulty sim_manager "hi" 5 "/srv/app/java_app/app_host.log" s
  = (Ret (Some (sim_handle "created", "created")),
     set_world (sim_world (Some "running") false) s,
     [ EvGet (PyStr default_container_name) (inr (sim_handle "exited"));
       EvStart (sim_handle "exited") (inl (sim_error NotFound "No such container"));
       EvRun image_name default_container_name true (workload_env "hi" 5)
         (log_volume "/srv/app/java_app/app_host.log") (inr (sim_handle "created")) ]).
Proof.
  cbv zeta.
  rewrite (start_failure_of_exited_container sim_faulty sim_manager "hi" 5
             "/srv/app/java_app/app_host.log"
             (sim_idle (sim_world (Some "exited") false))
             (sim_handle "exited") (sim_world (Some "exited") false)
             (sim_world None false) (sim_error NotFound "No such container")
             eq_refl eq_refl eq_refl).
  reflexivity.
Defined.

Lemma unpressed_run_only_reads_witness :
  let s := sim_active (sim_world (Some "running") true) in
  let t := events_of (render_java_container_section sim_platform no_input s) in
  Forall (fun ev => read_only ev = true /\ is_state_write ev = false) t
  /\ List.filter is_gateway t
     = [ EvGet (PyStr default_container_name) (inr (sim_handle "running"));
         EvGet (PyStr default_container_name) (inr (sim_handle "running"));
         EvExec (sim_handle "running") pgrep_command false [] (inr (Some 0%Z, "")) ].
Proof.
  cbv zeta. split.
  - apply (unpressed_run_only_reads sim_platform no_input); reflexivity.
  - vm_compute. reflexivity.
Defined.

Lemma launch_raises_only_for_the_log_file_witness :
  let s := sim_idle (sim_world None false) in
  let lf := PyStr "/srv/app/java_app/app_host.log" in
  let r := _render_build_run_button sim_faulty sim_manager "hi" 5 (press_run "hi" 5) s in
  outcome_of r = Raise (sim_error OSError "Permission denied")
  /\ List.filter host_failed (events_of r)
     = [EvHostTouch lf (inl (sim_error OSError "Permission denied"))]
  /\ In (EvHostRemove lf (inr tt)) (events_of r)
  /\ Forall (fun ev => is_gateway ev = false) (events_of r)
  /\ fs (state_of r) = fs s
  /\ session (state_of r) = session s.
Proof.
  cbv zeta.
  destruct (launch_raises_only_for_the_log_file sim_faulty sim_manager "hi" 5
              (press_run "hi" 5) (sim_idle (sim_world None false)) (PyBool false) eq_refl)
    as [_ H].
  split; [vm_compute; reflexivity|]. split; [vm_compute; reflexivity|].
  split; [vm_compute; tauto|].
  apply H. vm_compute.
  repeat first [ apply List.Exists_cons_hd; reflexivity | apply List.Exists_cons_tl ].
Defined.

Lemma remove_button_cases_witness :
  let s := sim_idle (sim_world (Some "exited") false) in
  let r := _render_remove_container_button sim_platform sim_manager true s in
  outcome_of r = Rerun /\ fs (state_of r) = fs s /\ session (state_of r) = session s.
Proof.
  cbv zeta.
  destruct (remove_button_cases sim_platform sim_manager true
              (sim_idle (sim_world (Some "exited") false)) (PyBool false) eq_refl)
    as (Hfs & Hss & _ & _ & _ & Hrerun).
  split; [|split; assumption].
  apply Hrerun. vm_compute.
  repeat first [ apply List.Exists_cons_hd; reflexivity | apply List.Exists_cons_tl ].
Defined.

Lemma log_views_witness :
  let s := sim_active (sim_world (Some "running") true) in
  let lf := PyStr "/srv/app/java_app/app_host.log" in
  session s !! "log_file" = Some lf
  /\ fs (state_of (_stream_live_logs sim_platform sim_manager s)) = fs s
  /\ _stream_live_logs sim_platform sim_manager s
     = (Rerun, s, [EvHostExists lf (inr false); EvSleep 1]).
Proof.
  cbv zeta. split; [reflexivity|].
  destruct (log_views sim_platform sim_manager
              (sim_active (sim_world (Some "running") true))
              (PyStr "/srv/app/java_app/app_host.log") eq_refl)
    as (_ & _ & _ & _ & Hfs & _).
  split; [exact Hfs|]. vm_compute. reflexivity.
Defined.

Lemma restart_resumes_the_launched_session_witness :
  let s0 := sim_state (sim_world None false) ∅ (idle_session default_container_name) in
  let launch := _render_build_run_button sim_platform sim_manager "hi" 5 (press_run "hi" 5) s0 in
  let s2 := fresh (sim_world (Some "running") true) (fs (state_of launch)) in
  outcome_of launch = Rerun
  /\ exists start_time,
       session (state_of (_initialize_session_state sim_manager s2))
       = active_session default_container_name "/srv/app/java_app/app_host.log" start_time.
Proof.
  cbv zeta.
  set (s0 := sim_state (sim_world None false) ∅ (idle_session default_container_name)).
  set (launch := _render_build_run_button sim_platform sim_manager "hi" 5 (press_run "hi" 5) s0).
  assert (Hl : launch = (Rerun, state_of launch, events_of launch))
    by (vm_compute; reflexivity).
  split; [vm_compute; reflexivity|].
  destruct (restart_resumes_the_launched_session sim_platform sim_manager "hi" 5
              (press_run "hi" 5) s0 (state_of launch) (events_of launch)
              (sim_world (Some "running") true) None Hl)
    as (start_time & _ & _ & Hss & _).
  exists start_time. exact Hss.
Defined.

Lemma script_run_raises_only_for_the_log_file_witness :
  let s := sim_active (sim_exec_broken (Some "running") true) in
  let r := render_java_container_section sim_platform press_stop s in
  session_ready (session s) = true
  /\ session_ready (session (state_of r)) = true
  /\ Exists (fun ev => failed ev = true) (events_of r)
  /\ outcome_of r = Rerun.
Proof.
  cbv zeta. split; [vm_compute; reflexivity|].
  destruct (script_run_raises_only_for_the_log_file sim_platform press_stop
              (sim_active (sim_exec_broken (Some "running") true)))
    as [Hready _]; [vm_compute; reflexivity|].
  split; [exact Hready|]. split.
  - vm_compute.
    repeat first [ apply List.Exists_cons_hd; reflexivity | apply List.Exists_cons_tl ].
  - vm_compute. reflexivity.
Defined.
